(** * Temporal-consistency rules of the work-management seed-data generator

    A shallow embedding of the date helpers ([src/utils/dates.py]) and of the
    generators that compose them ([src/generators/*.py]), with the properties
    stated for them.

    Modelling conventions.

    - A [datetime] is an integer number of microseconds counted from
      midnight of proleptic ordinal day 0 (ordinal 1 is 0001-01-01, as in
      Python's [date.toordinal]), a [date] is an ordinal day number and a
      [timedelta] is a number of microseconds.  Python's datetimes are
      naive, have microsecond resolution and are compared and subtracted
      exactly, so this is the arithmetic the source performs; the bounded
      range of Python's dates (years 1 to 9999, [OverflowError] outside)
      is not modelled.
    - The records passed between the generators carry ISO-8601 strings
      that the consumer parses back with [datetime.fromisoformat]; the
      two are inverse to each other on naive datetimes, and the order of
      the fixed-width strings is the order of the instants, so the
      records here carry the time values themselves.
    - The shared pseudo-random stream is made explicit: every function
      takes the variates it draws as arguments, one argument or record
      field per call site of the [random] module.  Variates and the
      floating-point arithmetic on them are idealised as exact rationals
      ([Q]).  A result can differ from that of the floating-point
      arithmetic by a microsecond, or by one in a count taken with
      [int]; the properties that depend on it state where they hold:
      on windows of at most 7300 days, where the floating-point seconds
      of a window give its microseconds back, and as bounds on a count
      rather than its value. *)

From Stdlib Require Import ZArith QArith Qround Lia Lqa Ascii String.
From stdpp Require Import base option list sorting strings gmap.

Local Open Scope Z_scope.

(** ** Time values *)

Module Time.

Definition datetime := Z.
Definition date := Z.
Definition timedelta := Z.

Definition US_PER_SECOND : Z := 1000000.
Definition US_PER_HOUR : Z := 3600 * US_PER_SECOND.
Definition US_PER_DAY : Z := 24 * US_PER_HOUR.

(** [x < y] on floats. *)
Definition Qltb (x y : Q) : bool := negb (Qle_bool y x).

(** [timedelta(days=n)], [timedelta(hours=n)] for integer [n]. *)
Definition timedelta_days (n : Z) : timedelta := n * US_PER_DAY.
Definition timedelta_hours (n : Z) : timedelta := n * US_PER_HOUR.

(** [dt.date()] and [datetime.combine(d, datetime.min.time())]. *)
Definition date_of (dt : datetime) : date := dt / US_PER_DAY.
Definition midnight (d : date) : datetime := d * US_PER_DAY.

(** [d.weekday()]: Monday is 0, Sunday is 6. *)
Definition weekday (d : date) : Z := (d + 6) mod 7.

(** Python's [round] on a float, and the rounding of a fractional number
    of microseconds in the [timedelta] constructor: to the nearest
    integer, ties to the even one. *)
Definition round_half_even (x : Q) : Z :=
  let f := Qfloor x in
  match Qcompare (x - inject_Z f) (1 # 2) with
  | Lt => f
  | Gt => f + 1
  | Eq => if Z.even f then f else f + 1
  end.

(** [td.total_seconds()], [timedelta(seconds=x)] and [timedelta(days=x)]
    for a float [x]. *)
Definition total_seconds (td : timedelta) : Q :=
  (inject_Z td / inject_Z US_PER_SECOND)%Q.
Definition timedelta_seconds (x : Q) : timedelta :=
  round_half_even (x * inject_Z US_PER_SECOND)%Q.
Definition timedelta_days_float (x : Q) : timedelta :=
  round_half_even (x * inject_Z US_PER_DAY)%Q.

(** The calendar, for writing concrete instants: [date(y, m, d).toordinal()]. *)
Definition is_leap (y : Z) : bool :=
  (y mod 4 =? 0) && (negb (y mod 100 =? 0) || (y mod 400 =? 0)).

Definition days_before_year (y : Z) : Z :=
  let y' := y - 1 in y' * 365 + y' / 4 - y' / 100 + y' / 400.

Definition days_before_month (y m : Z) : Z :=
  nth (Z.to_nat m) [0; 0; 31; 59; 90; 120; 151; 181; 212; 243; 273; 304; 334] 0
  + (if (2 <? m) && is_leap y then 1 else 0).

Definition ymd (y m d : Z) : date :=
  days_before_year y + days_before_month y m + d.

Definition at_time (d : date) (h mi s : Z) : datetime :=
  midnight d + h * US_PER_HOUR + mi * 60 * US_PER_SECOND + s * US_PER_SECOND.

End Time.

(** ** [src/utils/dates.py] *)

Module Dates.
Import Time.

(** [random_datetime_between(start, end)]; [frac] is the value of
    [random.betavariate(2, 5)], a number between 0 and 1. *)
Definition random_datetime_between (start end_ : datetime) (frac : Q) : datetime :=
  if end_ <=? start then start
  else
    let total := total_seconds (end_ - start) in
    let offset := (total * (1 - frac))%Q in
    start + timedelta_seconds offset.

(** [_to_business_day(d)]; [u] is the value of [random.random()], drawn
    only on a Saturday. *)
Definition to_business_day (d : date) (u : Q) : date :=
  let wd := weekday d in
  if wd <? 5 then d
  else if wd =? 5 then (if Qltb u (6 # 10) then d - 1 else d + 2)
  else d + 1.

(** The variates of one call of [business_due_date_from_created]:
    [due_tri] is the value of [random.triangular(min_days, max_days, mode)]
    with [mode = min_days + (max_days - min_days) * 0.35], [due_sat] the
    variate of the weekend snap. *)
Record due_draws := { due_tri : Q; due_sat : Q }.

Definition business_due_date_from_created
    (created_at : datetime) (min_days max_days : Z) (r : due_draws) : date :=
  if max_days <=? 0 then to_business_day (date_of created_at) (due_sat r)
  else
    let offset_days := round_half_even (due_tri r) in
    let offset_days := Z.max min_days (Z.min max_days offset_days) in
    let raw_date := date_of created_at + offset_days in
    to_business_day raw_date (due_sat r).

(** [completed_after_created(created_at, due, min_hours, max_days)];
    [frac] is the variate of the call of [random_datetime_between]. *)
Definition completed_after_created
    (created_at : datetime) (due : option date) (min_hours max_days : Z)
    (frac : Q) : datetime :=
  let earliest := created_at + timedelta_hours min_hours in
  let latest := created_at + timedelta_days max_days in
  let '(earliest, latest) :=
    match due with
    | Some d =>
        let due_dt := midnight d in
        (Z.min earliest (due_dt - timedelta_days 7),
         Z.min latest (due_dt + timedelta_days 14))
    | None => (earliest, latest)
    end in
  if latest <=? earliest then earliest
  else random_datetime_between earliest latest frac.

(** [is_overdue(due, completed_at, now)]; [utcnow] is the clock read when
    the caller passes no [now]. *)
Definition is_overdue
    (due : option date) (completed_at : option datetime)
    (now : option datetime) (utcnow : datetime) : bool :=
  match due with
  | None => false
  | Some d =>
      let now := default utcnow now in
      match completed_at with
      | Some _ => false
      | None => d <? date_of now
      end
  end.

End Dates.

(** ** The [random] module

    The functions of Python's [random] module that the generators call,
    as functions of the variate they consume.  A variate written [u] is a
    value of [random.random()], a number in the interval from 0 to 1; a
    variate written [r] is a raw random integer, reduced to the range
    the call needs. *)

Module Rand.

Inductive exn := IndexError | ValueError.

Inductive result (A : Type) :=
  | Ok (a : A)
  | Raise (e : exn).
Arguments Ok {A} a.
Arguments Raise {A} e.

#[global] Instance result_ret : MRet result := fun A a => Ok a.
#[global] Instance result_bind : MBind result := fun A B k m =>
  match m with
  | Ok a => k a
  | Raise e => Raise e
  end.
#[global] Instance result_fmap : FMap result := fun A B f m =>
  match m with
  | Ok a => Ok (f a)
  | Raise e => Raise e
  end.

(** [u] is in the range of [random.random()] and of [random.betavariate]. *)
Definition unit_interval (u : Q) : Prop := (0 <= u /\ u <= 1)%Q.

(** [random.uniform(a, b)]. *)
Definition uniform (a b u : Q) : Q := (a + (b - a) * u)%Q.

(** [_randbelow(n)], for [n > 0]. *)
Definition randbelow (n : nat) (r : nat) : nat := r `mod` n.

(** [random.randint(a, b)] for [a <= b], that is
    [a + _randbelow(b - a + 1)]. *)
Definition randint (a b : Z) (r : nat) : Z :=
  a + Z.of_nat (randbelow (Z.to_nat (b - a + 1)) r).

(** [random.choice(seq)]: [IndexError] on an empty sequence. *)
Definition choice {A} (seq : list A) (r : nat) : result A :=
  match seq !! randbelow (length seq) r with
  | Some x => Ok x
  | None => Raise IndexError
  end.

(** [random.sample(population, k)]: [ValueError] when the sample is larger
    than the population or negative; otherwise [k] times an element is
    taken out of the pool of those not selected yet. *)
Fixpoint sample_pool {A} (pool : list A) (k : nat) (rs : list nat) : list A :=
  match k with
  | O => []
  | S k' =>
      let j := randbelow (length pool) (hd O rs) in
      match pool !! j with
      | Some x => x :: sample_pool (delete j pool) k' (tl rs)
      | None => []
      end
  end.

Definition sample {A} (population : list A) (k : Z) (rs : list nat)
    : result (list A) :=
  if (k <? 0) || (Z.of_nat (length population) <? k) then Raise ValueError
  else Ok (sample_pool population (Z.to_nat k) rs).

(** [itertools.accumulate(weights)] and [bisect.bisect(a, x, 0, hi)] on a
    non-decreasing list: the number of entries among the first [hi] that
    do not exceed [x]. *)
Fixpoint accumulate_from (acc : Q) (weights : list Q) : list Q :=
  match weights with
  | [] => []
  | w :: ws => let acc' := (acc + w)%Q in acc' :: accumulate_from acc' ws
  end.

Definition accumulate (weights : list Q) : list Q := accumulate_from 0 weights.

Fixpoint bisect (a : list Q) (x : Q) (hi : nat) : nat :=
  match hi, a with
  | S hi', c :: a' => if Qle_bool c x then S (bisect a' x hi') else O
  | _, _ => O
  end.

(** [random.choices(population, weights=weights, k=1)[0]]. *)
Definition choices {A} (population : list A) (weights : list Q) (u : Q)
    : result A :=
  let cum_weights := accumulate weights in
  if negb (length cum_weights =? length population)%nat then Raise ValueError
  else
    match last cum_weights with
    | None => Raise IndexError
    | Some total =>
        if Qle_bool total 0 then Raise ValueError
        else
          match population !! bisect cum_weights (u * total)%Q
                                     (length population - 1) with
          | Some x => Ok x
          | None => Raise IndexError
          end
    end.

End Rand.

(** ** [src/utils/config.py] *)

Module Config.

Definition min_teams : Z := 8.
Definition max_teams : Z := 15.
Definition min_projects_per_team : Z := 3.
Definition max_projects_per_team : Z := 10.
Definition min_tasks_per_project : Z := 40.
Definition max_tasks_per_project : Z := 120.
Definition min_subtask_task_fraction : Q := 30 # 100.
Definition max_subtask_task_fraction : Q := 40 # 100.
Definition commented_task_fraction : Q := 20 # 100.
Definition completion_ratio : Q := 65 # 100.
Definition unassigned_task_probability : Q := 20 # 100.
Definition overdue_task_probability : Q := 10 # 100.

End Config.

(** ** Strings and truth values

    [s.lower()] and [sub in s] on ASCII text, the truth value of an
    optional string ([None] and the empty string are false), and
    [int(x)] on a float (truncation toward zero). *)

Module Py.

Definition lower_ascii (c : ascii) : ascii :=
  let n := nat_of_ascii c in
  if (65 <=? n)%nat && (n <=? 90)%nat then ascii_of_nat (n + 32) else c.

Fixpoint lower (s : string) : string :=
  match s with
  | EmptyString => EmptyString
  | String c s' => String (lower_ascii c) (lower s')
  end.

Fixpoint contains (sub s : string) : bool :=
  String.prefix sub s ||
  match s with
  | EmptyString => false
  | String _ s' => contains sub s'
  end.

Definition truthy (o : option string) : bool :=
  match o with
  | Some s => negb (String.eqb s "")
  | None => false
  end.

Definition len {A} (l : list A) : Z := Z.of_nat (length l).

Definition int (x : Q) : Z := Z.quot (Qnum x) (Zpos (Qden x)).

Definition clamp (lo hi x : Z) : Z := Z.max lo (Z.min hi x).

End Py.

(** ** [src/utils/db.py]: the tables seen through the connection *)

Module Store.
Import Time.

Record team_row := {
  tr_id : string; tr_organization_id : string; tr_name : string;
  tr_description : string; tr_created_at : datetime }.

Record membership_row := {
  mr_id : string; mr_team_id : string; mr_user_id : string;
  mr_role : string; mr_added_at : datetime }.

Record project_row := {
  pr_id : string; pr_team_id : string; pr_organization_id : string;
  pr_name : string; pr_description : string; pr_project_type : string;
  pr_start_date : date; pr_due_date : option date;
  pr_created_at : datetime }.

Record task_row := {
  kr_id : string; kr_project_id : string; kr_section_id : option string;
  kr_organization_id : string; kr_name : string;
  kr_assignee_id : option string; kr_created_by_user_id : string;
  kr_created_at : datetime; kr_due_date : option date;
  kr_completed_at : option datetime; kr_last_activity_at : datetime;
  kr_priority : string }.

Record subtask_row := {
  sr_id : string; sr_parent_task_id : string; sr_project_id : string;
  sr_organization_id : string; sr_name : string;
  sr_assignee_id : option string; sr_created_by_user_id : string;
  sr_created_at : datetime; sr_due_date : option date;
  sr_completed_at : option datetime; sr_sort_order : Z }.

Record comment_row := {
  cr_id : string; cr_task_id : string; cr_author_id : string;
  cr_body : string; cr_created_at : datetime }.

Record db := {
  tbl_teams : list team_row;
  tbl_team_memberships : list membership_row;
  tbl_projects : list project_row;
  tbl_tasks : list task_row;
  tbl_subtasks : list subtask_row;
  tbl_comments : list comment_row }.

Definition empty_db : db :=
  {| tbl_teams := []; tbl_team_memberships := []; tbl_projects := [];
     tbl_tasks := []; tbl_subtasks := []; tbl_comments := [] |}.

(** [bulk_insert(conn, table, columns, rows)], one function per table. *)
Definition insert_teams (rows : list team_row) (conn : db) : db :=
  {| tbl_teams := tbl_teams conn ++ rows;
     tbl_team_memberships := tbl_team_memberships conn;
     tbl_projects := tbl_projects conn; tbl_tasks := tbl_tasks conn;
     tbl_subtasks := tbl_subtasks conn; tbl_comments := tbl_comments conn |}.

Definition insert_team_memberships (rows : list membership_row) (conn : db) : db :=
  {| tbl_teams := tbl_teams conn;
     tbl_team_memberships := tbl_team_memberships conn ++ rows;
     tbl_projects := tbl_projects conn; tbl_tasks := tbl_tasks conn;
     tbl_subtasks := tbl_subtasks conn; tbl_comments := tbl_comments conn |}.

Definition insert_projects (rows : list project_row) (conn : db) : db :=
  {| tbl_teams := tbl_teams conn;
     tbl_team_memberships := tbl_team_memberships conn;
     tbl_projects := tbl_projects conn ++ rows; tbl_tasks := tbl_tasks conn;
     tbl_subtasks := tbl_subtasks conn; tbl_comments := tbl_comments conn |}.

Definition insert_tasks (rows : list task_row) (conn : db) : db :=
  {| tbl_teams := tbl_teams conn;
     tbl_team_memberships := tbl_team_memberships conn;
     tbl_projects := tbl_projects conn; tbl_tasks := tbl_tasks conn ++ rows;
     tbl_subtasks := tbl_subtasks conn; tbl_comments := tbl_comments conn |}.

Definition insert_subtasks (rows : list subtask_row) (conn : db) : db :=
  {| tbl_teams := tbl_teams conn;
     tbl_team_memberships := tbl_team_memberships conn;
     tbl_projects := tbl_projects conn; tbl_tasks := tbl_tasks conn;
     tbl_subtasks := tbl_subtasks conn ++ rows;
     tbl_comments := tbl_comments conn |}.

Definition insert_comments (rows : list comment_row) (conn : db) : db :=
  {| tbl_teams := tbl_teams conn;
     tbl_team_memberships := tbl_team_memberships conn;
     tbl_projects := tbl_projects conn; tbl_tasks := tbl_tasks conn;
     tbl_subtasks := tbl_subtasks conn;
     tbl_comments := tbl_comments conn ++ rows |}.

(** [UPDATE tasks SET last_activity_at = MAX(last_activity_at, ?) WHERE id = ?]. *)
Definition touch_row (ts : datetime) (task_id : string) (row : task_row) : task_row :=
  if String.eqb (kr_id row) task_id then
    {| kr_id := kr_id row; kr_project_id := kr_project_id row;
       kr_section_id := kr_section_id row;
       kr_organization_id := kr_organization_id row; kr_name := kr_name row;
       kr_assignee_id := kr_assignee_id row;
       kr_created_by_user_id := kr_created_by_user_id row;
       kr_created_at := kr_created_at row; kr_due_date := kr_due_date row;
       kr_completed_at := kr_completed_at row;
       kr_last_activity_at := Z.max (kr_last_activity_at row) ts;
       kr_priority := kr_priority row |}
  else row.

Definition update_last_activity (ts : datetime) (task_id : string) (conn : db) : db :=
  {| tbl_teams := tbl_teams conn;
     tbl_team_memberships := tbl_team_memberships conn;
     tbl_projects := tbl_projects conn;
     tbl_tasks := touch_row ts task_id <$> tbl_tasks conn;
     tbl_subtasks := tbl_subtasks conn; tbl_comments := tbl_comments conn |}.

End Store.

(** ** [src/generators/teams.py] *)

Module Teams.
Import Time Rand Py Store.

Record organization := { org_id : string; org_created_at : datetime }.

(** The record handed on to the later generators. *)
Record team := { team_id : string; team_name : string; team_created_at : datetime }.

Definition team_of_row (r : team_row) : team :=
  {| team_id := tr_id r; team_name := tr_name r; team_created_at := tr_created_at r |}.

(** [_weighted_unique_sample(options, weights, target)].  The [while]
    loop runs for as long as the draws make it; [fuel] bounds the number
    of draws, [None] says the loop is still running when they are used
    up.  [us i] is the variate of draw number [i], [chosen] the list
    built so far. *)
Fixpoint weighted_unique_sample_loop
    (fuel : nat) (options : list string) (weights : list Q) (target : Z)
    (us : nat -> Q) (i : nat) (chosen : list string)
    : option (result (list string)) :=
  if (len chosen <? target) && (len chosen <? len options) then
    match fuel with
    | O => None
    | S fuel' =>
        match choices options weights (us i) with
        | Raise e => Some (Raise e)
        | Ok pick =>
            if bool_decide (pick ∈ chosen)
            then weighted_unique_sample_loop fuel' options weights target us (S i) chosen
            else weighted_unique_sample_loop fuel' options weights target us (S i)
                   (chosen ++ [pick])
        end
    end
  else Some (Ok chosen).

Definition weighted_unique_sample
    (fuel : nat) (options : list string) (weights : list Q) (target : Z)
    (us : nat -> Q) : option (result (list string)) :=
  weighted_unique_sample_loop fuel options weights target us 0 [].

Definition base_names : list string :=
  ["Engineering"; "Product"; "Design"; "Marketing"; "Sales";
   "Customer Success"; "Data"; "IT"; "Security"; "Finance";
   "People Operations"; "Recruiting"; "Quality Assurance";
   "Business Operations"; "Program Management"].

Definition base_weights : list Q :=
  [20 # 100; 14 # 100; 10 # 100; 10 # 100; 10 # 100; 6 # 100; 5 # 100;
   4 # 100; 3 # 100; 3 # 100; 3 # 100; 3 # 100; 3 # 100; 3 # 100; 3 # 100].

(** The variates of one run of [generate_teams]: the triangular draw of
    the target, the draws of the name loop, and per team its identifier,
    the variate of [random.uniform(0.5, 9.0)] and the catch phrase. *)
Record teams_draws := {
  tm_target : Q;
  tm_picks : nat -> Q;
  tm_uuid : nat -> string;
  tm_years : nat -> Q;
  tm_description : nat -> string }.

Definition team_created (org_created : datetime) (u : Q) : datetime :=
  let years_after_org := uniform (5 # 10) 9 u in
  org_created + timedelta_days_float (365 * years_after_org)%Q.

Definition generate_teams
    (fuel : nat) (conn : db) (org : organization) (d : teams_draws)
    : option (db * result (list team)) :=
  let min_t := Config.min_teams in
  let max_t := Config.max_teams in
  let target_teams := clamp min_t max_t (round_half_even (tm_target d)) in
  match weighted_unique_sample fuel base_names base_weights target_teams (tm_picks d) with
  | None => None
  | Some (Raise e) => Some (conn, Raise e)
  | Some (Ok picked_names) =>
      let rows :=
        imap (fun i name =>
                {| tr_id := tm_uuid d i; tr_organization_id := org_id org;
                   tr_name := name; tr_description := tm_description d i;
                   tr_created_at := team_created (org_created_at org) (tm_years d i) |})
             picked_names in
      Some (insert_teams rows conn, Ok (team_of_row <$> rows))
  end.

End Teams.

(** ** [src/generators/team_memberships.py] *)

Module Memberships.
Import Time Rand Py Store Teams.

Record user := { user_id : string; user_role : string }.

Record membership := {
  m_id : string; m_team_id : string; m_user_id : string; m_role : string }.

Definition membership_of_row (r : membership_row) : membership :=
  {| m_id := mr_id r; m_team_id := mr_team_id r; m_user_id := mr_user_id r;
     m_role := mr_role r |}.

Definition role_to_preferred_team_names (role : string) : list string :=
  let role_lower := lower role in
  if contains "engineer" role_lower && negb (contains "qa" role_lower)
  then ["Engineering"; "Security"; "IT"]
  else if contains "qa" role_lower then ["Quality Assurance"; "Engineering"]
  else if contains "product" role_lower then ["Product"; "Program Management"]
  else if contains "design" role_lower then ["Design"]
  else if contains "data" role_lower || contains "analyst" role_lower then ["Data"]
  else if contains "sales" role_lower then ["Sales"]
  else if contains "customer success" role_lower || contains "account" role_lower
  then ["Customer Success"; "Sales"]
  else if contains "security" role_lower then ["Security"; "Engineering"]
  else if contains "it" role_lower then ["IT"]
  else if contains "finance" role_lower then ["Finance"; "Business Operations"]
  else if contains "people" role_lower || contains "recruit" role_lower
  then ["People Operations"; "Recruiting"]
  else if contains "program" role_lower || contains "project" role_lower
  then ["Program Management"; "Product"]
  else ["Business Operations"].

Definition pick_membership_count (u : Q) : result Z :=
  choices [1; 2; 3] [70 # 100; 25 # 100; 5 # 100] u.

(** [_pick_membership_role(user_role)]: [u1] is drawn only for a manager
    title, [u2] only when the first test does not return. *)
Definition pick_membership_role (user_role : string) (u1 u2 : Q) : string :=
  let role_lower := lower user_role in
  let is_manager_title :=
    existsb (fun token => contains token role_lower) ["manager"; "lead"; "staff"] in
  if is_manager_title && Qltb (3 # 10) u1 then "lead"
  else if Qltb u2 (7 # 100) then "lead" else "member".

(** [{t["name"]: t for t in teams}]: a later team replaces an earlier one
    of the same name. *)
Definition team_by_name (teams : list team) : gmap string team :=
  foldl (fun m t => <[team_name t := t]> m) ∅ teams.

(** The loop that fills [chosen] from the preferred teams. *)
Fixpoint fill_preferred (desired : Z) (preferred_ids chosen : list string)
    : list string :=
  match preferred_ids with
  | [] => chosen
  | tid :: rest =>
      if desired <=? len chosen then chosen
      else fill_preferred desired rest (chosen ++ [tid])
  end.

(** The variates drawn for one user. *)
Record membership_draws := {
  md_count : Q;
  md_extras : list nat;
  md_fallback : nat;
  md_days : nat;
  md_lead : Q;
  md_lead_background : Q;
  md_uuid : nat -> string }.

(** The body of the loop over the users: the rows of one user. *)
Definition user_memberships
    (teams : list team) (now : datetime) (u : user) (d : membership_draws)
    : result (list membership_row) :=
  let by_name := team_by_name teams in
  let team_ids := team_id <$> teams in
  desired ← pick_membership_count (md_count d);
  let preferred_names := role_to_preferred_team_names (user_role u) in
  let preferred_ids :=
    omap (fun name => team_id <$> by_name !! name) preferred_names in
  let remaining_ids :=
    List.filter (fun tid => negb (bool_decide (tid ∈ preferred_ids))) team_ids in
  let chosen := fill_preferred desired preferred_ids [] in
  chosen ←
    (if len chosen <? desired then
       extras ← sample remaining_ids
                  (Z.min (len remaining_ids) (desired - len chosen)) (md_extras d);
       mret (chosen ++ extras)
     else mret chosen);
  chosen ←
    (if bool_decide (chosen = []) && negb (bool_decide (team_ids = [])) then
       tid ← choice team_ids (md_fallback d);
       mret [tid]
     else mret chosen);
  let added_at := now - timedelta_days (randint 30 900 (md_days d)) in
  let membership_role :=
    pick_membership_role (user_role u) (md_lead d) (md_lead_background d) in
  mret (imap (fun i tid =>
                {| mr_id := md_uuid d i; mr_team_id := tid;
                   mr_user_id := user_id u; mr_role := membership_role;
                   mr_added_at := added_at |})
             chosen).

(** [generate_team_memberships(conn, teams, users)]; [now] is the clock
    read before the loop, [draws i] the variates of user number [i]. *)
Definition generate_team_memberships
    (conn : db) (teams : list team) (users : list user)
    (now : datetime) (draws : nat -> membership_draws)
    : db * result (list membership) :=
  match mapM id (imap (fun i u => user_memberships teams now u (draws i)) users) with
  | Raise e => (conn, Raise e)
  | Ok per_user =>
      let rows := concat per_user in
      (insert_team_memberships rows conn, Ok (membership_of_row <$> rows))
  end.

End Memberships.

(** ** [src/generators/projects.py] *)

Module Projects.
Import Time Rand Py Store Teams.

Record project := {
  project_id : string; project_team_id : string; project_name : string;
  project_type : string; project_created_at : datetime }.

Definition project_of_row (r : project_row) : project :=
  {| project_id := pr_id r; project_team_id := pr_team_id r;
     project_name := pr_name r; project_type := pr_project_type r;
     project_created_at := pr_created_at r |}.

Definition project_labels : list string := ["roadmap"; "sprint"; "launch"; "ops"].
Definition project_weights : list Q := [25 # 100; 35 # 100; 20 # 100; 20 # 100].

Definition pick_project_type (u : Q) : result string :=
  choices project_labels project_weights u.

(** The variates of one project; the name and the description come from
    the text helpers. *)
Record project_draws := {
  pj_type : Q;
  pj_name : string;
  pj_uuid : string;
  pj_days : nat;
  pj_due_days : nat;
  pj_description : string }.

Record team_projects_draws := {
  tp_count : Q;
  tp_items : nat -> project_draws }.

Definition generate_project
    (organization_id : string) (t : team) (d : project_draws) : result project_row :=
  let team_created := team_created_at t in
  ptype ← pick_project_type (pj_type d);
  let days_after_team := randint 30 900 (pj_days d) in
  let created_at := team_created + timedelta_days days_after_team in
  let due_date :=
    if bool_decide (ptype ∈ ["roadmap"; "launch"])
    then Some (date_of (created_at + timedelta_days (randint 60 240 (pj_due_days d))))
    else None in
  mret {| pr_id := pj_uuid d; pr_team_id := team_id t;
          pr_organization_id := organization_id; pr_name := pj_name d;
          pr_description := pj_description d; pr_project_type := ptype;
          pr_start_date := date_of created_at; pr_due_date := due_date;
          pr_created_at := created_at |}.

Definition team_projects
    (organization_id : string) (t : team) (d : team_projects_draws)
    : result (list project_row) :=
  let min_p := Config.min_projects_per_team in
  let max_p := Config.max_projects_per_team in
  let count := clamp min_p max_p (round_half_even (tp_count d)) in
  mapM (fun j => generate_project organization_id t (tp_items d j))
       (seq 0 (Z.to_nat count)).

Definition generate_projects
    (conn : db) (organization_id : string) (teams : list team)
    (draws : nat -> team_projects_draws) : db * result (list project) :=
  match mapM id (imap (fun i t => team_projects organization_id t (draws i)) teams) with
  | Raise e => (conn, Raise e)
  | Ok per_team =>
      let rows := concat per_team in
      (insert_projects rows conn, Ok (project_of_row <$> rows))
  end.

End Projects.

(** ** [src/generators/tasks.py] *)

Module Tasks.
Import Time Dates Rand Py Store Memberships Projects.

Record section := {
  section_id : string; section_project_id : string; section_name : string }.

Record task := {
  task_id : string; task_project_id : string; task_section_id : option string;
  task_assignee_id : option string; task_created_at : datetime;
  task_due_date : option date; task_completed_at : option datetime }.

Definition task_of_row (r : task_row) : task :=
  {| task_id := kr_id r; task_project_id := kr_project_id r;
     task_section_id := kr_section_id r; task_assignee_id := kr_assignee_id r;
     task_created_at := kr_created_at r; task_due_date := kr_due_date r;
     task_completed_at := kr_completed_at r |}.

(** [mapping.setdefault(key, []).append(x)]. *)
Definition append_at {A} (key : string) (x : A) (m : gmap string (list A))
    : gmap string (list A) :=
  <[key := default [] (m !! key) ++ [x]]> m.

Definition build_team_members (memberships : list membership)
    : gmap string (list string) :=
  foldl (fun m x => append_at (m_team_id x) (m_user_id x) m) ∅ memberships.

Definition sections_by_project (sections : list section)
    : gmap string (list section) :=
  foldl (fun m x => append_at (section_project_id x) x m) ∅ sections.

Definition section_weight (x : section) : Q :=
  let name := lower (section_name x) in
  if contains "backlog" name || contains "ideas" name then 8 # 10
  else if contains "done" name || contains "closed" name || contains "complete" name
  then 7 # 10
  else 2.

Definition pick_section (sections : list section) (u : Q) : result (option section) :=
  match sections with
  | [] => mret None
  | _ => x ← choices sections (section_weight <$> sections) u; mret (Some x)
  end.

Definition pick_assignee
    (p : project) (team_members : gmap string (list string))
    (all_users : list user) (u : Q) (r : nat) : result (option string) :=
  if Qltb u Config.unassigned_task_probability then mret None
  else
    match team_members !! project_team_id p with
    | Some (c :: cs) => x ← choice (c :: cs) r; mret (Some x)
    | _ => x ← choice all_users r; mret (Some (user_id x))
    end.

(** The overdue step of the task loop: [u] is drawn only for an
    incomplete task with a due date. *)
Definition inject_overdue
    (due_date : option date) (completed_flag : bool) (now : datetime) (u : Q)
    : option date :=
  match due_date with
  | Some d =>
      if negb completed_flag then
        if Qltb u Config.overdue_task_probability then
          if date_of now <=? d then Some (date_of now) else Some d
        else Some d
      else Some d
  | None => None
  end.

(** The variates of one task; the title comes from the text helper. *)
Record task_draws := {
  tk_created : Q;
  tk_section : Q;
  tk_unassigned : Q;
  tk_assignee : nat;
  tk_due_first : Q;
  tk_due_second : Q;
  tk_due : due_draws;
  tk_completed : Q;
  tk_completed_at : Q;
  tk_overdue : Q;
  tk_title : string;
  tk_uuid : string;
  tk_creator : nat;
  tk_priority : nat }.

Record project_tasks_draws := {
  pk_count : Q;
  pk_tasks : nat -> task_draws }.

Definition pick_due_date (p : project) (created_at : datetime) (d : task_draws)
    : option date :=
  let has_due := bool_decide (project_type p ∈ ["roadmap"; "sprint"; "launch"]) in
  if has_due && Qltb (tk_due_first d) (85 # 100)
  then Some (business_due_date_from_created created_at 3 75 (tk_due d))
  else if Qltb (tk_due_second d) (35 # 100)
  then Some (business_due_date_from_created created_at 5 45 (tk_due d))
  else None.

(** The body of the loop over the tasks of a project. *)
Definition generate_task
    (organization_id : string) (p : project) (project_sections : list section)
    (team_members : gmap string (list string)) (all_users : list user)
    (now : datetime) (d : task_draws) : result task_row :=
  let project_created := project_created_at p in
  let created_at := random_datetime_between project_created now (tk_created d) in
  section ← pick_section project_sections (tk_section d);
  let section_id := section_id <$> section in
  assignee_id ← pick_assignee p team_members all_users (tk_unassigned d) (tk_assignee d);
  let due_date := pick_due_date p created_at d in
  let completed_flag := Qltb (tk_completed d) Config.completion_ratio in
  let completed_at :=
    if completed_flag
    then Some (completed_after_created created_at due_date 1 60 (tk_completed_at d))
    else None in
  let due_date := inject_overdue due_date completed_flag now (tk_overdue d) in
  let last_activity_at := default created_at completed_at in
  created_by ←
    (if truthy assignee_id then mret (default "" assignee_id)
     else user_id <$> choice all_users (tk_creator d));
  priority ← choice ["low"; "medium"; "high"; "urgent"] (tk_priority d);
  mret {| kr_id := tk_uuid d; kr_project_id := project_id p;
          kr_section_id := section_id; kr_organization_id := organization_id;
          kr_name := tk_title d; kr_assignee_id := assignee_id;
          kr_created_by_user_id := created_by; kr_created_at := created_at;
          kr_due_date := due_date; kr_completed_at := completed_at;
          kr_last_activity_at := last_activity_at; kr_priority := priority |}.

Definition project_tasks
    (organization_id : string) (proj_to_sections : gmap string (list section))
    (team_members : gmap string (list string)) (all_users : list user)
    (now : datetime) (p : project) (d : project_tasks_draws)
    : result (list task_row) :=
  let min_t := Config.min_tasks_per_project in
  let max_t := Config.max_tasks_per_project in
  let num_tasks := clamp min_t max_t (round_half_even (pk_count d)) in
  let project_sections := default [] (proj_to_sections !! project_id p) in
  mapM (fun j => generate_task organization_id p project_sections team_members
                   all_users now (pk_tasks d j))
       (seq 0 (Z.to_nat num_tasks)).

(** [generate_tasks(conn, organization_id, projects, sections, users,
    memberships)]; [now] is the clock read before the loop. *)
Definition generate_tasks
    (conn : db) (organization_id : string) (projects : list project)
    (sections : list section) (users : list user) (memberships : list membership)
    (now : datetime) (draws : nat -> project_tasks_draws)
    : db * result (list task) :=
  let proj_to_sections := sections_by_project sections in
  let team_members := build_team_members memberships in
  match mapM id (imap (fun i p => project_tasks organization_id proj_to_sections
                                    team_members users now p (draws i)) projects) with
  | Raise e => (conn, Raise e)
  | Ok per_project =>
      let rows := concat per_project in
      (insert_tasks rows conn, Ok (task_of_row <$> rows))
  end.

End Tasks.

(** ** [src/generators/subtasks.py] *)

Module Subtasks.
Import Time Dates Rand Py Store Tasks.

Record subtask := {
  subtask_id : string; subtask_parent_task_id : string;
  subtask_project_id : string }.

Definition subtask_of_row (r : subtask_row) : subtask :=
  {| subtask_id := sr_id r; subtask_parent_task_id := sr_parent_task_id r;
     subtask_project_id := sr_project_id r |}.

(** [[t["assignee_id"] for t in tasks if t.get("assignee_id")]]. *)
Definition possible_creators (tasks : list task) : list string :=
  omap (fun t => if truthy (task_assignee_id t) then task_assignee_id t else None)
       tasks.

(** The variates of one subtask; the title comes from the text helper. *)
Record subtask_draws := {
  sb_uuid : string;
  sb_created : Q;
  sb_inherit : Q;
  sb_due : due_draws;
  sb_complete : Q;
  sb_completed_at : Q;
  sb_creator : nat;
  sb_delegate : Q;
  sb_title : string }.

Record parent_draws := {
  pd_count : nat;
  pd_subtasks : nat -> subtask_draws }.

Record subtasks_draws := {
  sd_target_frac : Q;
  sd_parents : list nat;
  sd_parent : nat -> parent_draws }.

(** The body of the loop over the subtasks of a parent; [i] is the loop
    index. *)
Definition generate_subtask
    (organization_id : string) (creators : list string) (now : datetime)
    (parent : task) (i : nat) (d : subtask_draws) : result subtask_row :=
  let parent_created := task_created_at parent in
  let parent_completed := task_completed_at parent in
  let parent_due := task_due_date parent in
  let created_at :=
    random_datetime_between parent_created (default now parent_completed)
      (sb_created d) in
  let due_date :=
    match parent_due with
    | Some pd =>
        if Qltb (sb_inherit d) (8 # 10) then pd
        else business_due_date_from_created created_at 1 30 (sb_due d)
    | None => business_due_date_from_created created_at 1 30 (sb_due d)
    end in
  let completed_at :=
    match parent_completed with
    | Some _ =>
        if Qltb (sb_complete d) (9 # 10)
        then Some (completed_after_created created_at (Some due_date) 1 30
                     (sb_completed_at d))
        else None
    | None =>
        if Qltb (sb_complete d) (3 # 10)
        then Some (completed_after_created created_at (Some due_date) 1 30
                     (sb_completed_at d))
        else None
    end in
  created_by_user_id ←
    (if truthy (task_assignee_id parent) then mret (default "" (task_assignee_id parent))
     else choice creators (sb_creator d));
  let assignee_id :=
    if truthy (task_assignee_id parent) && Qltb (sb_delegate d) (15 # 100) then None
    else task_assignee_id parent in
  mret {| sr_id := sb_uuid d; sr_parent_task_id := task_id parent;
          sr_project_id := task_project_id parent;
          sr_organization_id := organization_id; sr_name := sb_title d;
          sr_assignee_id := assignee_id;
          sr_created_by_user_id := created_by_user_id;
          sr_created_at := created_at; sr_due_date := Some due_date;
          sr_completed_at := completed_at; sr_sort_order := 0 + Z.of_nat i |}.

Definition parent_subtasks
    (organization_id : string) (creators : list string) (now : datetime)
    (parent : task) (d : parent_draws) : result (list subtask_row) :=
  let count := randint 2 6 (pd_count d) in
  mapM (fun i => generate_subtask organization_id creators now parent i
                   (pd_subtasks d i))
       (seq 0 (Z.to_nat count)).

(** [generate_subtasks(conn, organization_id, tasks)]; [now] is the clock
    read before the loop. *)
Definition generate_subtasks
    (conn : db) (organization_id : string) (tasks : list task)
    (now : datetime) (d : subtasks_draws) : db * result (list subtask) :=
  match tasks with
  | [] => (conn, Ok [])
  | _ =>
      let min_frac := Config.min_subtask_task_fraction in
      let max_frac := Config.max_subtask_task_fraction in
      let target_frac := uniform min_frac max_frac (sd_target_frac d) in
      let num_parents := int (inject_Z (len tasks) * target_frac)%Q in
      let creators := possible_creators tasks in
      match
        parent_tasks ← sample tasks (Z.max 1 num_parents) (sd_parents d);
        mapM id (imap (fun k parent =>
                         parent_subtasks organization_id creators now parent
                           (sd_parent d k))
                      parent_tasks)
      with
      | Raise e => (conn, Raise e)
      | Ok per_parent =>
          let rows := concat per_parent in
          (insert_subtasks rows conn, Ok (subtask_of_row <$> rows))
      end
  end.

End Subtasks.

(** ** [src/generators/comments.py] *)

Module Comments.
Import Time Dates Rand Py Store Memberships Tasks.

Record comment := { comment_id : string; comment_task_id : string }.

Definition comment_of_row (r : comment_row) : comment :=
  {| comment_id := cr_id r; comment_task_id := cr_task_id r |}.

(** The variates of one comment, of the comments of one task (with the
    clock read for a task that is not complete), and of a run. *)
Record comment_draws := {
  cm_uuid : string;
  cm_author : nat;
  cm_ts : Q;
  cm_body : string }.

Record thread_draws := {
  th_utcnow : datetime;
  th_count : nat;
  th_comments : nat -> comment_draws }.

Record comments_draws := {
  cd_sample : list nat;
  cd_thread : nat -> thread_draws }.

(** The loop over the comments of one task: the rows, and the value of
    [last_comment_time] when the loop ends. *)
Fixpoint comment_loop
    (t : task) (users : list user) (end_ : datetime)
    (ds : list comment_draws) (last_comment_time : datetime)
    : result (list comment_row * datetime) :=
  match ds with
  | [] => mret ([], last_comment_time)
  | d :: ds' =>
      author ← choice users (cm_author d);
      let ts := random_datetime_between last_comment_time end_ (cm_ts d) in
      let row := {| cr_id := cm_uuid d; cr_task_id := task_id t;
                    cr_author_id := user_id author; cr_body := cm_body d;
                    cr_created_at := ts |} in
      rest ← comment_loop t users end_ ds' ts;
      mret (row :: rest.1, rest.2)
  end.

Definition task_comments (t : task) (users : list user) (d : thread_draws)
    : result (list comment_row * datetime) :=
  let created_at := task_created_at t in
  let end_ := default (th_utcnow d) (task_completed_at t) in
  let comment_count := randint 1 5 (th_count d) in
  comment_loop t users end_ (th_comments d <$> seq 0 (Z.to_nat comment_count))
    created_at.

(** The loop over the tasks that receive comments; the connection is
    updated after the comments of each task. *)
Fixpoint comment_tasks
    (conn : db) (users : list user) (tasks_with_comments : list task)
    (thread : nat -> thread_draws) (k : nat) : db * result (list comment_row) :=
  match tasks_with_comments with
  | [] => (conn, Ok [])
  | t :: ts =>
      match task_comments t users (thread k) with
      | Raise e => (conn, Raise e)
      | Ok (rows, last_comment_time) =>
          let conn' := update_last_activity last_comment_time (task_id t) conn in
          match comment_tasks conn' users ts thread (S k) with
          | (conn'', Raise e) => (conn'', Raise e)
          | (conn'', Ok rest) => (conn'', Ok (rows ++ rest))
          end
      end
  end.

(** [generate_comments(conn, tasks, users)]. *)
Definition generate_comments
    (conn : db) (tasks : list task) (users : list user) (d : comments_draws)
    : db * result (list comment) :=
  match tasks with
  | [] => (conn, Ok [])
  | _ =>
      let commented_fraction := Config.commented_task_fraction in
      let num_tasks_with_comments :=
        int (inject_Z (len tasks) * commented_fraction)%Q in
      match sample tasks (Z.max 1 num_tasks_with_comments) (cd_sample d) with
      | Raise e => (conn, Raise e)
      | Ok tasks_with_comments =>
          match comment_tasks conn users tasks_with_comments (cd_thread d) 0 with
          | (conn', Raise e) => (conn', Raise e)
          | (conn', Ok rows) =>
              (insert_comments rows conn', Ok (comment_of_row <$> rows))
          end
      end
  end.

End Comments.

(** ** [src/generators/organizations.py]

    The generators of the organization, of the users and of the sections
    write one table each; their connection is the list of the rows of
    that table. *)

Module Organizations.
Import Time Rand Teams.

(** [ORG_CONFIG] of [src/utils/config.py]. *)
Definition org_name : string := "Acme Global Solutions".
Definition org_domain : string := "acme-corp.com".

Record organization_row := {
  or_id : string; or_name : string; or_domain : string; or_created_at : datetime }.

(** [generate_organization(conn)]; [now] is the clock, [years] the
    variate of [faker.random_int(min=8, max=15)]. *)
Definition generate_organization
    (conn : list organization_row) (now : datetime) (uuid : string) (years : nat)
    : list organization_row * organization :=
  let org_id := uuid in
  let years_ago := randint 8 15 years in
  let created_at := now - timedelta_days (365 * years_ago) in
  let rows := [{| or_id := org_id; or_name := org_name; or_domain := org_domain;
                  or_created_at := created_at |}] in
  (conn ++ rows, {| org_id := org_id; org_created_at := created_at |}).

End Organizations.

(** ** [src/generators/users.py] *)

Module Users.
Import Time Rand Py Organizations Teams Memberships.

(** [VOLUME_CONFIG.min_users] and [max_users]. *)
Definition min_users : Z := 3000.
Definition max_users : Z := 8000.

Record user_row := {
  ur_id : string; ur_organization_id : string; ur_full_name : string;
  ur_email : string; ur_role : string; ur_location : string;
  ur_joined_at : datetime; ur_is_active : Z; ur_created_at : datetime }.

(** The record handed on: the later generators read the identifier and
    the role. *)
Record user_info := { u_id : string; u_role : string; u_location : string }.

Definition user_of_info (u : user_info) : user :=
  {| user_id := u_id u; user_role := u_role u |}.

(** [_sample_join_date()]; [fraction] is the beta variate. *)
Definition sample_join_date (now : datetime) (fraction : Q) : datetime :=
  let span_days := 365 * 3 in
  let days_ago := int (fraction * inject_Z span_days)%Q in
  now - timedelta_days days_ago.

Definition roles : list (string * Q) :=
  [("Software Engineer", 22 # 100); ("Senior Software Engineer", 13 # 100);
   ("Staff Engineer", 4 # 100); ("Product Manager", 7 # 100);
   ("Product Owner", 3 # 100); ("Product Designer", 7 # 100);
   ("Design Lead", 2 # 100); ("Data Scientist", 6 # 100);
   ("Data Analyst", 4 # 100); ("Sales Executive", 6 # 100);
   ("Account Manager", 5 # 100); ("Customer Success Manager", 4 # 100);
   ("Sales Engineer", 3 # 100); ("QA Engineer", 4 # 100);
   ("IT Support Specialist", 3 # 100); ("Security Engineer", 2 # 100);
   ("Finance Analyst", 2 # 100); ("People Ops Specialist", 2 # 100)].

Definition pick_role (u : Q) : result string :=
  choices (fst <$> roles) (snd <$> roles) u.

Definition locations : list (string * Q) :=
  [("New York", 18 # 100); ("San Francisco", 15 # 100); ("Austin", 10 # 100);
   ("London", 12 # 100); ("Dublin", 8 # 100); ("Toronto", 7 # 100);
   ("Bangalore", 10 # 100); ("Remote - US", 12 # 100);
   ("Remote - EMEA", 5 # 100); ("Remote - APAC", 3 # 100)].

Definition pick_location (u : Q) : result string :=
  choices (fst <$> locations) (snd <$> locations) u.

(** The variates of one user: the name of the faker, the clock of
    [_sample_join_date], and the hexadecimal form of the second
    identifier, of which the address keeps eight characters. *)
Record user_draws := {
  us_full_name : string;
  us_role : Q;
  us_location : Q;
  us_join : Q;
  us_utcnow : datetime;
  us_active : Q;
  us_uuid : string;
  us_email_hex : string }.

Record users_draws := {
  ud_total : Q;
  ud_users : nat -> user_draws }.

(** The body of the loop; the first and last name it splits off are not
    used. *)
Definition generate_user (organization_id : string) (d : user_draws)
    : result user_row :=
  let full_name := us_full_name d in
  role ← pick_role (us_role d);
  location ← pick_location (us_location d);
  let joined_at := sample_join_date (us_utcnow d) (us_join d) in
  let is_active := if Qltb (3 # 100) (us_active d) then 1 else 0 in
  let user_id := us_uuid d in
  let email := "user-" +:+ substring 0 8 (us_email_hex d) +:+ "@" +:+ org_domain in
  mret {| ur_id := user_id; ur_organization_id := organization_id;
          ur_full_name := full_name; ur_email := email; ur_role := role;
          ur_location := location; ur_joined_at := joined_at;
          ur_is_active := is_active; ur_created_at := joined_at |}.

Definition info_of_row (r : user_row) : user_info :=
  {| u_id := ur_id r; u_role := ur_role r; u_location := ur_location r |}.

(** [generate_users(conn, organization)]; [ud_total] is the triangular
    variate. *)
Definition generate_users
    (conn : list user_row) (org : organization) (d : users_draws)
    : list user_row * result (list user_info) :=
  let min_u := min_users in
  let max_u := max_users in
  let total_users := round_half_even (ud_total d) in
  let total_users := Z.max min_u (Z.min max_u total_users) in
  match mapM (fun i => generate_user (org_id org) (ud_users d i))
             (seq 0 (Z.to_nat total_users)) with
  | Raise e => (conn, Raise e)
  | Ok rows => (conn ++ rows, Ok (info_of_row <$> rows))
  end.

End Users.

(** ** [src/generators/sections.py] *)

Module Sections.
Import Time Rand Py Projects Tasks.

Definition SECTION_TEMPLATES : list (list string) :=
  [["Backlog"; "Next Up"; "In Progress"; "Review"; "Done"];
   ["Todo"; "Doing"; "Blocked"; "Ready for QA"; "Done"];
   ["Ideas"; "Prioritized"; "Building"; "Testing"; "Launched"];
   ["Intake"; "Triaged"; "In Progress"; "Validation"; "Closed"];
   ["Pipeline"; "Discovery"; "Execution"; "UAT"; "Complete"]].

Record section_row := {
  xr_id : string; xr_project_id : string; xr_name : string;
  xr_sort_order : Z; xr_created_at : datetime }.

Definition section_of_row (r : section_row) : section :=
  {| section_id := xr_id r; section_project_id := xr_project_id r;
     section_name := xr_name r |}.

(** [l.pop(i)], for the list that is left: a negative index counts from
    the end, an index out of range raises [IndexError]. *)
Definition pop {A} (l : list A) (i : Z) : result (list A) :=
  let j := if i <? 0 then i + len l else i in
  if (j <? 0) || (len l <=? j) then Raise IndexError
  else Ok (delete (Z.to_nat j) l).

(** The variates of the sections of one project. *)
Record section_draws := {
  sx_template : nat;
  sx_shorten : Q;
  sx_drop : nat;
  sx_uuid : nat -> string;
  sx_days : nat -> nat }.

(** The body of the loop over the projects. *)
Definition project_sections (p : project) (d : section_draws)
    : result (list section_row) :=
  template ← choice SECTION_TEMPLATES (sx_template d);
  let names := template in
  names ←
    (if String.eqb (project_type p) "ops" && (4 <? len names)
        && Qltb (sx_shorten d) (4 # 10)
     then
       let drop_idx := randint 1 (len names - 2) (sx_drop d) in
       pop names drop_idx
     else mret names);
  let created_at := project_created_at p in
  mret (imap (fun order name =>
                let section_created :=
                  created_at + timedelta_days (randint 0 60 (sx_days d order)) in
                {| xr_id := sx_uuid d order; xr_project_id := project_id p;
                   xr_name := name; xr_sort_order := Z.of_nat order;
                   xr_created_at := section_created |})
             names).

(** [generate_sections(conn, projects)]. *)
Definition generate_sections
    (conn : list section_row) (projects : list project)
    (draws : nat -> section_draws) : list section_row * result (list section) :=
  match mapM id (imap (fun i p => project_sections p (draws i)) projects) with
  | Raise e => (conn, Raise e)
  | Ok per_project =>
      let rows := concat per_project in
      (conn ++ rows, Ok (section_of_row <$> rows))
  end.

End Sections.

(** * Scenarios

    Concrete inputs and variates, used below to run the generators. *)

Module Scenarios.
Import Time Dates Rand Py Store Teams Memberships Projects Tasks Subtasks Comments.

(** A sprint project created on 2024-01-01 at noon, seen on 2024-01-03
    at noon, and the variates of a task of it that is created halfway,
    gets a due date three days later (Friday 2024-01-05) and is marked
    complete. *)
Definition early_project : project :=
  {| project_id := "p1"; project_team_id := "t1";
     project_name := "Sprint 12 - Orion"; project_type := "sprint";
     project_created_at := at_time (ymd 2024 1 1) 12 0 0 |}.

Definition early_users : list user :=
  [{| user_id := "u1"; user_role := "Software Engineer" |}].

Definition early_draws : task_draws :=
  {| tk_created := 1 # 2; tk_section := 0; tk_unassigned := 1 # 2;
     tk_assignee := 0; tk_due_first := 1 # 2; tk_due_second := 1 # 2;
     tk_due := {| due_tri := 3; due_sat := 0 |};
     tk_completed := 1 # 2; tk_completed_at := 9 # 10; tk_overdue := 1 # 2;
     tk_title := "Fix login flow"; tk_uuid := "k1"; tk_creator := 0;
     tk_priority := 0 |}.

(** The same task when the completion draw fails and the overdue draw
    fires. *)
Definition overdue_draws : task_draws :=
  {| tk_created := 1 # 2; tk_section := 0; tk_unassigned := 1 # 2;
     tk_assignee := 0; tk_due_first := 1 # 2; tk_due_second := 1 # 2;
     tk_due := {| due_tri := 3; due_sat := 0 |};
     tk_completed := 9 # 10; tk_completed_at := 1 # 2; tk_overdue := 1 # 100;
     tk_title := "Fix login flow"; tk_uuid := "k2"; tk_creator := 0;
     tk_priority := 0 |}.

Definition early_now : datetime := at_time (ymd 2024 1 3) 12 0 0.

(** A project whose creation, thirty days or more after that of its
    team, lies after the instant of the run, and an incomplete task of
    it. *)
Definition late_project : project :=
  {| project_id := "p2"; project_team_id := "t1";
     project_name := "Acme Reliability Ops"; project_type := "ops";
     project_created_at := at_time (ymd 2024 2 1) 12 0 0 |}.

Definition late_draws : task_draws :=
  {| tk_created := 1 # 2; tk_section := 0; tk_unassigned := 1 # 2;
     tk_assignee := 0; tk_due_first := 1 # 2; tk_due_second := 1 # 2;
     tk_due := {| due_tri := 3; due_sat := 0 |};
     tk_completed := 9 # 10; tk_completed_at := 1 # 2; tk_overdue := 1 # 2;
     tk_title := "Audit alerts"; tk_uuid := "k3"; tk_creator := 0;
     tk_priority := 0 |}.

(** The variates of the comments of one task: the clock is read one
    second after [early_now], and [randint(1, 5)] gives three comments. *)
Definition some_comment (i : nat) : comment_draws :=
  {| cm_uuid := String (ascii_of_nat (97 + i)) ""; cm_author := i; cm_ts := 1 # (Pos.of_nat (i + 2));
     cm_body := "Looks good to me, thanks for the update." |}.

Definition some_thread : thread_draws :=
  {| th_utcnow := at_time (ymd 2024 1 3) 12 0 1; th_count := 2;
     th_comments := some_comment |}.

(** An incomplete task created on 2024-01-02 at noon. *)
Definition open_task : task :=
  {| task_id := "k4"; task_project_id := "p1"; task_section_id := None;
     task_assignee_id := Some "u1";
     task_created_at := at_time (ymd 2024 1 2) 12 0 0;
     task_due_date := None; task_completed_at := None |}.

(** A roster of three teams and of two users, and the variates of the
    router for a user. *)
Definition some_teams : list team :=
  [{| team_id := "t1"; team_name := "Engineering";
      team_created_at := at_time (ymd 2020 3 1) 9 0 0 |};
   {| team_id := "t2"; team_name := "Data";
      team_created_at := at_time (ymd 2021 6 1) 9 0 0 |};
   {| team_id := "t3"; team_name := "IT";
      team_created_at := at_time (ymd 2022 9 1) 9 0 0 |}].

Definition some_users : list user :=
  [{| user_id := "u1"; user_role := "Staff Engineer" |};
   {| user_id := "u2"; user_role := "Data Analyst" |}].

Definition some_membership_draws (i : nat) : membership_draws :=
  {| md_count := 96 # 100; md_extras := [i; 0%nat; 0%nat]; md_fallback := 0;
     md_days := 100 + i; md_lead := 1 # 2; md_lead_background := 1 # 2;
     md_uuid := fun j => String (ascii_of_nat (97 + i)) (String (ascii_of_nat (48 + j)) "") |}.

(** A task without an assignee, and the variates of a run of the subtask
    generator. *)
Definition orphan_task : task :=
  {| task_id := "k5"; task_project_id := "p1"; task_section_id := None;
     task_assignee_id := None;
     task_created_at := at_time (ymd 2024 1 2) 12 0 0;
     task_due_date := None; task_completed_at := None |}.

Definition some_subtask_draws (i : nat) : subtask_draws :=
  {| sb_uuid := String (ascii_of_nat (97 + i)) ""; sb_created := 1 # 2;
     sb_inherit := 1 # 2; sb_due := {| due_tri := 7; due_sat := 0 |};
     sb_complete := 1 # 2; sb_completed_at := 1 # 2; sb_creator := i;
     sb_delegate := 1 # 2; sb_title := "Draft (hidden)" |}.

Definition some_subtasks_draws : subtasks_draws :=
  {| sd_target_frac := 1 # 2; sd_parents := [0%nat];
     sd_parent := fun _ => {| pd_count := 0; pd_subtasks := some_subtask_draws |} |}.

(** Two streams of variates for the loop that picks the team names: one
    that walks through the weights, and one that stays at 0.1, below the
    weight of the first name. *)
Definition walking_picks (i : nat) : Q := Z.of_nat i # 10.
Definition stuck_picks (i : nat) : Q := 1 # 10.

(** A run of every generator of the chain. *)
Definition letter (i : nat) : string := String (ascii_of_nat (97 + i)) "".

Definition some_org : organization :=
  {| org_id := "org"; org_created_at := at_time (ymd 2014 5 1) 8 0 0 |}.

Definition some_teams_draws : teams_draws :=
  {| tm_target := 8; tm_picks := walking_picks; tm_uuid := letter;
     tm_years := fun i => Z.of_nat i # 10;
     tm_description := fun _ => "Synergistic scalable framework" |}.

Definition some_projects_draws (i : nat) : team_projects_draws :=
  {| tp_count := 3;
     tp_items := fun j =>
       {| pj_type := Z.of_nat j # 3; pj_name := "Sprint 12 - Orion";
          pj_uuid := letter i +:+ letter j; pj_days := 17 * j;
          pj_due_days := 5; pj_description := "Ship it." |} |}.

Definition some_tasks_draws (i : nat) : project_tasks_draws :=
  {| pk_count := 40;
     pk_tasks := fun j =>
       {| tk_created := 1 # Pos.of_nat (j + 1); tk_section := 0;
          tk_unassigned := 1 # 2; tk_assignee := j;
          tk_due_first := 1 # 2; tk_due_second := 1 # 2;
          tk_due := {| due_tri := Z.of_nat j # 1; due_sat := 0 |};
          tk_completed := Z.of_nat (j mod 3) # 2; tk_completed_at := 1 # 2;
          tk_overdue := 1 # 2; tk_title := "Fix login flow";
          tk_uuid := letter i +:+ letter j; tk_creator := j;
          tk_priority := j |} |}.

Definition some_comments_draws : comments_draws :=
  {| cd_sample := [1%nat];
     cd_thread := fun _ =>
       {| th_utcnow := at_time (ymd 2024 1 3) 12 0 1; th_count := 2;
          th_comments := fun i =>
            {| cm_uuid := letter i; cm_author := i;
               cm_ts := 1 # Pos.of_nat (i + 2);
               cm_body := "Looks good to me, thanks for the update." |} |} |}.

End Scenarios.

(** Further inputs and variates. *)

Module MoreScenarios.
Import Time Dates Rand Py Store Teams Memberships Projects Tasks Subtasks Comments.
Import Scenarios.

Definition bounded_teams_draws : teams_draws :=
  {| tm_target := 8; tm_picks := walking_picks; tm_uuid := letter;
     tm_years := fun i => 1 # Pos.of_nat (i + 1);
     tm_description := fun _ => "Synergistic scalable framework" |}.

(** The variates of the sections of a project: the second template, and
    the third name left out where the project is an ops project. *)
Definition some_section_draws : Sections.section_draws :=
  {| Sections.sx_template := 1; Sections.sx_shorten := 1 # 10;
     Sections.sx_drop := 1; Sections.sx_uuid := letter;
     Sections.sx_days := fun i => (7 * i)%nat |}.

(** A tasks table with the row of [open_task], last active when it was
    created. *)
Definition open_task_db : db :=
  insert_tasks
    [{| kr_id := "k4"; kr_project_id := "p1"; kr_section_id := None;
        kr_organization_id := "org"; kr_name := "Fix login flow";
        kr_assignee_id := Some "u1"; kr_created_by_user_id := "u1";
        kr_created_at := at_time (ymd 2024 1 2) 12 0 0; kr_due_date := None;
        kr_completed_at := None;
        kr_last_activity_at := at_time (ymd 2024 1 2) 12 0 0;
        kr_priority := "medium" |}]
    empty_db.

End MoreScenarios.

(** * Properties *)

Import Time Dates Rand Py Store Scenarios.

(** ** Rounding and the skewed sampler *)

Section Sampler.

Lemma round_half_even_nonneg (x : Q) : (0 <= x)%Q -> 0 <= round_half_even x.
Proof.
  intros Hx. unfold round_half_even.
  assert (Hf : 0 <= Qfloor x).
  { change 0 with (Qfloor 0). by apply Qfloor_resp_le. }
  destruct (Qcompare _ _); [destruct (Z.even _)|..]; lia.
Qed.

Lemma round_half_even_le (x : Q) (n : Z) :
  (x <= inject_Z n)%Q -> round_half_even x <= n.
Proof.
  intros Hx. unfold round_half_even.
  assert (Hf : Qfloor x <= n).
  { rewrite <- (Qfloor_Z n). by apply Qfloor_resp_le. }
  pose proof (Qfloor_le x) as Hlo.
  destruct (Qcompare_spec (x - inject_Z (Qfloor x)) (1 # 2)) as [He|Hl|Hg];
    [destruct (Z.even _)|..]; try lia.
  - destruct (decide (Qfloor x = n)) as [Heq|]; [|lia].
    rewrite Heq in He. exfalso. lra.
  - destruct (decide (Qfloor x = n)) as [Heq|]; [|lia].
    rewrite Heq in Hg. exfalso. lra.
Qed.

Lemma total_seconds_us (td : timedelta) :
  (total_seconds td * inject_Z US_PER_SECOND == inject_Z td)%Q.
Proof. unfold total_seconds. field. discriminate. Qed.

(** The sampler never returns an instant before the start of its window. *)
Lemma random_datetime_between_ge_start (start end_ : datetime) (frac : Q) :
  (frac <= 1)%Q -> start <= random_datetime_between start end_ frac.
Proof.
  intros Hfrac. unfold random_datetime_between.
  destruct (end_ <=? start) eqn:Hcmp; [lia|].
  apply Z.leb_gt in Hcmp.
  enough (0 <= timedelta_seconds (total_seconds (end_ - start) * (1 - frac))) by lia.
  apply round_half_even_nonneg.
  assert (Hd : (0 <= inject_Z (end_ - start))%Q).
  { change 0%Q with (inject_Z 0). rewrite <- Zle_Qle. lia. }
  rewrite <- total_seconds_us in Hd.
  set (t := total_seconds (end_ - start)) in *.
  assert (E : (t * (1 - frac) * inject_Z US_PER_SECOND
                == t * inject_Z US_PER_SECOND * (1 - frac))%Q) by ring.
  unfold timedelta_seconds. rewrite E.
  apply Qmult_le_0_compat; [done|lra].
Qed.

(** With a proper window it never returns an instant after its end. *)
Lemma random_datetime_between_le_end (start end_ : datetime) (frac : Q) :
  (0 <= frac)%Q -> start <= end_ -> random_datetime_between start end_ frac <= end_.
Proof.
  intros Hfrac Hwin. unfold random_datetime_between.
  destruct (end_ <=? start) eqn:Hcmp; [lia|].
  apply Z.leb_gt in Hcmp.
  enough (timedelta_seconds (total_seconds (end_ - start) * (1 - frac))
          <= end_ - start) by lia.
  apply round_half_even_le.
  assert (Hd : (0 <= inject_Z (end_ - start))%Q).
  { change 0%Q with (inject_Z 0). rewrite <- Zle_Qle. lia. }
  pose proof (total_seconds_us (end_ - start)) as Hus.
  set (t := total_seconds (end_ - start)) in *.
  assert (E : (t * (1 - frac) * inject_Z US_PER_SECOND
                == inject_Z (end_ - start) * (1 - frac))%Q).
  { rewrite <- Hus. ring. }
  rewrite E. set (a := inject_Z (end_ - start)) in *.
  apply Qle_trans with (1 * a)%Q; [|lra].
  rewrite (Qmult_comm a). apply Qmult_le_compat_r; [lra|done].
Qed.

(** A degenerate window gives back its start. *)
Lemma random_datetime_between_degenerate (start end_ : datetime) (frac : Q) :
  end_ <= start -> random_datetime_between start end_ frac = start.
Proof.
  intros H. unfold random_datetime_between.
  by destruct (Z.leb_spec end_ start); [|lia].
Qed.

End Sampler.

(** ** Business-day snapping *)

Section BusinessDays.

Lemma weekday_range (d : date) : 0 <= weekday d <= 6.
Proof. unfold weekday. pose proof (Z.mod_pos_bound (d + 6) 7). lia. Qed.

Lemma to_business_day_spec (d : date) (u : Q) :
  let b := to_business_day d u in
  (0 <= weekday b <= 4) /\
  match weekday d with
  | 5 => (Qltb u (6 # 10) = true /\ b = d - 1 /\ weekday b = 4) \/
         (Qltb u (6 # 10) = false /\ b = d + 2 /\ weekday b = 0)
  | 6 => b = d + 1 /\ weekday b = 0
  | _ => b = d
  end.
Proof.
  unfold to_business_day. pose proof (weekday_range d) as Hr.
  destruct (Z.ltb_spec (weekday d) 5) as [Hlt|Hge].
  - split; [lia|].
    destruct (weekday d) as [|[[|[]|]|[|[]|]|]|]; try done; lia.
  - destruct (Z.eqb_spec (weekday d) 5) as [Hsat|Hsun].
    + rewrite Hsat. unfold weekday in *.
      destruct (Qltb u (6 # 10)); [split; [|left]|split; [|right]];
        repeat split; Z.div_mod_to_equations; lia.
    + assert (Hs : weekday d = 6) by lia. rewrite Hs. unfold weekday in *.
      repeat split; Z.div_mod_to_equations; lia.
Qed.

(** C6.  [business_due_date_from_created] never returns a Saturday or a
    Sunday.  The raw date is the creation date moved forward by the
    clamped offset (the creation date itself when [max_days <= 0]); a raw
    Saturday becomes the Friday before it when the variate of the snap
    is below 0.6 and the Monday after it otherwise, a raw Sunday becomes
    the Monday after it, and a raw weekday is returned as it is. *)
Theorem business_due_date_is_weekday
    (created_at : datetime) (min_days max_days : Z) (r : due_draws) :
  let due := business_due_date_from_created created_at min_days max_days r in
  let raw :=
    if max_days <=? 0 then date_of created_at
    else date_of created_at
         + Z.max min_days (Z.min max_days (round_half_even (due_tri r))) in
  0 <= weekday due <= 4 /\
  match weekday raw with
  | 5 => (Qltb (due_sat r) (6 # 10) = true /\ due = raw - 1 /\ weekday due = 4) \/
         (Qltb (due_sat r) (6 # 10) = false /\ due = raw + 2 /\ weekday due = 0)
  | 6 => due = raw + 1 /\ weekday due = 0
  | _ => due = raw
  end.
Proof.
  unfold business_due_date_from_created.
  destruct (max_days <=? 0); apply to_business_day_spec.
Qed.

End BusinessDays.

(** ** Exceptions threaded through the generators *)

Section Results.

Lemma bind_Ok {A B} (m : result A) (k : A -> result B) (b : B) :
  m ≫= k = Ok b <-> exists a, m = Ok a /\ k a = Ok b.
Proof.
  destruct m as [a|e]; simpl; split.
  - intros H. by exists a.
  - by intros (a' & [= ->] & H).
  - done.
  - by intros (a' & [=] & _).
Qed.

Lemma fmap_Ok {A B} (f : A -> B) (m : result A) (b : B) :
  f <$> m = Ok b <-> exists a, m = Ok a /\ b = f a.
Proof.
  destruct m as [a|e]; simpl; split.
  - intros [= <-]. by exists a.
  - by intros (a' & [= ->] & ->).
  - done.
  - by intros (a' & [=] & _).
Qed.

Lemma mapM_Ok {A B} (f : A -> result B) (l : list A) (k : list B) :
  mapM f l = Ok k <-> Forall2 (fun x y => f x = Ok y) l k.
Proof.
  revert k. induction l as [|x l IH]; intros k.
  - split; [intros [= <-]; constructor|by inversion 1].
  - change (mapM f (x :: l)) with (y ← f x; k ← mapM f l; mret (y :: k)).
    rewrite bind_Ok. split.
    + intros (y & Hy & Hrest). apply bind_Ok in Hrest as (k' & Hk' & [= <-]).
      constructor; [done|by apply IH].
    + inversion 1 as [|? y ? k' Hy Hk']; subst. exists y. split; [done|].
      apply bind_Ok. exists k'. split; [by apply IH|done].
Qed.

(** The first exception ends the loop. *)
Lemma mapM_Raise_head {A B} (f : A -> result B) (x : A) (l : list A) (e : exn) :
  f x = Raise e -> mapM f (x :: l) = Raise e.
Proof. intros H. simpl. by rewrite H. Qed.

End Results.

Ltac inv_result :=
  repeat match goal with
  | H : _ ≫= _ = Ok _ |- _ => apply bind_Ok in H as (? & ? & H)
  | H : _ <$> _ = Ok _ |- _ => apply fmap_Ok in H as (? & ? & H)
  | H : mret _ = Ok _ |- _ => injection H as H
  | H : Ok _ = Ok _ |- _ => injection H as H
  | H : Raise _ = Ok _ |- _ => discriminate H
  end.

(** ** Completion timestamps *)

Section Completion.
Import Projects Tasks Memberships.

(** What the sampling window of [completed_after_created] guarantees: the
    result is not before the lower end of the window, which is
    [created_at + min_hours] without a due date and can be as early as
    seven days before midnight of the due date with one. *)
Lemma completed_after_created_ge_earliest
    (created_at : datetime) (due : option date) (min_hours max_days : Z) (frac : Q) :
  (frac <= 1)%Q ->
  let earliest :=
    match due with
    | Some d => Z.min (created_at + timedelta_hours min_hours)
                  (midnight d - timedelta_days 7)
    | None => created_at + timedelta_hours min_hours
    end in
  earliest <= completed_after_created created_at due min_hours max_days frac.
Proof.
  intros Hfrac. unfold completed_after_created.
  destruct due as [d|]; simpl;
    (destruct (_ <=? _); [lia|by apply random_datetime_between_ge_start]).
Qed.

Lemma completed_after_created_no_due
    (created_at : datetime) (min_hours max_days : Z) (frac : Q) :
  (frac <= 1)%Q -> 0 <= min_hours ->
  created_at <= completed_after_created created_at None min_hours max_days frac.
Proof.
  intros Hfrac Hmin.
  pose proof (completed_after_created_ge_earliest created_at None min_hours
                max_days frac Hfrac) as H.
  simpl in H. unfold timedelta_hours, US_PER_HOUR, US_PER_SECOND in H. lia.
Qed.

(** C1.  A task created on Monday 2024-01-01 at noon with a due date
    three days later, on Thursday 2024-01-04, and the variate 0.9:
    the window of [completed_after_created] opens seven days before the
    due date, on 2023-12-28, and the completion timestamp returned is
    2023-12-30 02:24, before the creation. *)
Theorem completed_after_created_before_creation :
  let created_at := at_time (ymd 2024 1 1) 12 0 0 in
  let completed_at :=
    completed_after_created created_at (Some (ymd 2024 1 4)) 1 60 (9 # 10) in
  weekday (ymd 2024 1 4) = 3 /\
  completed_at = at_time (ymd 2023 12 30) 2 24 0 /\
  completed_at < created_at.
Proof. vm_compute. repeat split. Qed.

End Completion.

(** ** Overdue injection *)

Section Overdue.
Import Projects Tasks Memberships.

Lemma inject_overdue_fires (d : date) (now : datetime) (u : Q) :
  Qltb u Config.overdue_task_probability = true -> date_of now <= d ->
  inject_overdue (Some d) false now u = Some (date_of now).
Proof.
  intros Hu Hd. unfold inject_overdue. simpl. rewrite Hu.
  by destruct (Z.leb_spec (date_of now) d); [|lia].
Qed.

Lemma is_overdue_today (now utcnow : datetime) :
  is_overdue (Some (date_of now)) None (Some now) utcnow = false.
Proof. unfold is_overdue. simpl. apply Z.ltb_irrefl. Qed.

(** C3.  For a task that has a due date not yet past, is not marked
    complete and for which the overdue draw fires, the generator sets the
    due date to today's date and leaves the task without a completion
    timestamp; [is_overdue] at the instant of the generation is then
    false for the task, because today's date is not before today's date. *)
Theorem overdue_injection_not_overdue
    (organization_id : string) (p : project) (project_sections : list section)
    (team_members : gmap string (list string)) (all_users : list user)
    (now : datetime) (d : task_draws) (row : task_row) (due : date) :
  generate_task organization_id p project_sections team_members all_users now d
    = Ok row ->
  pick_due_date p
    (random_datetime_between (project_created_at p) now (tk_created d)) d
    = Some due ->
  Qltb (tk_completed d) Config.completion_ratio = false ->
  Qltb (tk_overdue d) Config.overdue_task_probability = true ->
  date_of now <= due ->
  kr_due_date row = Some (date_of now) /\
  kr_completed_at row = None /\
  forall utcnow,
    is_overdue (kr_due_date row) (kr_completed_at row) (Some now) utcnow = false.
Proof.
  intros Hrow Hdue Hflag Hfire Hfuture. unfold generate_task in Hrow.
  inv_result. subst row. simpl. rewrite Hdue, Hflag.
  rewrite inject_overdue_fires by done.
  repeat split. intros utcnow. apply is_overdue_today.
Qed.

Lemma overdue_injection_not_overdue_witness :
  exists row,
    generate_task "org" early_project [] ∅ early_users early_now overdue_draws
      = Ok row /\
    kr_due_date row = Some (date_of early_now) /\
    kr_completed_at row = None /\
    is_overdue (kr_due_date row) (kr_completed_at row) (Some early_now) early_now
      = false.
Proof.
  eexists. split; [vm_compute; reflexivity|].
  edestruct (overdue_injection_not_overdue "org" early_project [] ∅ early_users
               early_now overdue_draws) as (Hdue & Hdone & Hover).
  - vm_compute. reflexivity.
  - vm_compute. reflexivity.
  - reflexivity.
  - reflexivity.
  - vm_compute. discriminate.
  - split; [exact Hdue|]. split; [exact Hdone|]. apply Hover.
Defined.

End Overdue.

(** ** Loops over lists *)

Section Loops.

Lemma elem_of_concat {A} (x : A) (ls : list (list A)) :
  x ∈ concat ls <-> exists l, l ∈ ls /\ x ∈ l.
Proof.
  rewrite list_elem_of_In, in_concat. split.
  - intros (l & Hl & Hx). exists l. by rewrite !list_elem_of_In.
  - intros (l & Hl & Hx). exists l. by rewrite <- !list_elem_of_In.
Qed.

(** A loop over [enumerate(l)] that succeeds pairs every input with the
    output of its body. *)
Lemma mapM_imap_Ok {A B} (g : nat -> A -> result B) (l : list A) (k : list B) :
  mapM id (imap g l) = Ok k ->
  Forall2 (fun x y => exists i, l !! i = Some x /\ g i x = Ok y) l k.
Proof.
  intros H. apply mapM_Ok in H.
  apply Forall2_same_length_lookup_2.
  - apply Forall2_length in H. by rewrite length_imap in H.
  - intros i x y Hx Hy. exists i. split; [done|].
    eapply Forall2_lookup_lr in H; [exact H| |exact Hy].
    by rewrite list_lookup_imap, Hx.
Qed.

Lemma mapM_imap_elem {A B} (g : nat -> A -> result B) (l : list A)
    (k : list B) (y : B) :
  mapM id (imap g l) = Ok k -> y ∈ k ->
  exists i x, l !! i = Some x /\ g i x = Ok y.
Proof.
  intros H Hy. apply mapM_imap_Ok in H.
  apply list_elem_of_lookup in Hy as [j Hj].
  destruct (Forall2_lookup_r _ _ _ _ _ H Hj) as (x & Hx & i & Hi & Hg).
  by exists i, x.
Qed.

Lemma mapM_seq_elem {B} (f : nat -> result B) (n : nat) (k : list B) (y : B) :
  mapM f (seq 0 n) = Ok k -> y ∈ k -> exists j, (j < n)%nat /\ f j = Ok y.
Proof.
  intros H Hy. apply mapM_Ok in H.
  apply list_elem_of_lookup in Hy as [i Hi].
  destruct (Forall2_lookup_r _ _ _ _ _ H Hi) as (j & Hj & Hf).
  exists j. split; [|done].
  apply lookup_seq in Hj. lia.
Qed.

Lemma sample_pool_elem {A} (pool : list A) (k : nat) (rs : list nat) (x : A) :
  x ∈ sample_pool pool k rs -> x ∈ pool.
Proof.
  revert pool rs. induction k as [|k IH]; intros pool rs; simpl.
  - by intros ?%elem_of_nil.
  - destruct (pool !! _) as [y|] eqn:Hy; [|by intros ?%elem_of_nil].
    intros [->|Hx]%elem_of_cons.
    + by eapply list_elem_of_lookup_2.
    + apply IH in Hx. by eapply list_elem_of_delete_inv.
Qed.

Lemma sample_elem {A} (population : list A) (k : Z) (rs : list nat)
    (l : list A) (x : A) :
  sample population k rs = Ok l -> x ∈ l -> x ∈ population.
Proof.
  unfold sample. destruct (_ || _); [done|].
  intros [= <-]. apply sample_pool_elem.
Qed.

Lemma sample_pool_length {A} (pool : list A) (k : nat) (rs : list nat) :
  (k <= length pool)%nat -> length (sample_pool pool k rs) = k.
Proof.
  revert pool rs. induction k as [|k IH]; intros pool rs Hk; [done|]. simpl.
  assert (Hlt : (randbelow (length pool) (hd 0%nat rs) < length pool)%nat).
  { unfold randbelow. apply Nat.mod_upper_bound. lia. }
  destruct (lookup_lt_is_Some_2 _ _ Hlt) as [y Hy]. rewrite Hy. simpl.
  rewrite IH; [done|]. rewrite length_delete by eauto. lia.
Qed.

Lemma randint_range (a b : Z) (r : nat) : a <= b -> a <= randint a b r <= b.
Proof.
  intros Hab. unfold randint, randbelow.
  assert (H : (r `mod` Z.to_nat (b - a + 1) < Z.to_nat (b - a + 1))%nat).
  { apply Nat.mod_upper_bound. lia. }
  lia.
Qed.

End Loops.

(** ** Causal ordering of the creation timestamps *)

Section CausalOrdering.
Import Teams Memberships Projects Tasks Subtasks Comments.

Lemma team_created_ge (org_created : datetime) (u : Q) :
  (0 <= u)%Q -> org_created <= team_created org_created u.
Proof.
  intros Hu. unfold team_created, timedelta_days_float, uniform.
  enough (0 <= round_half_even
                 (365 * ((5 # 10) + (9 - (5 # 10)) * u) * inject_Z US_PER_DAY)) by lia.
  apply round_half_even_nonneg.
  apply Qmult_le_0_compat; [|done].
  apply Qmult_le_0_compat; [done|].
  assert (0 <= (9 - (5 # 10)) * u)%Q by (apply Qmult_le_0_compat; [done|exact Hu]).
  lra.
Qed.

Lemma teams_after_organization
    (fuel : nat) (conn conn' : db) (org : organization) (d : teams_draws)
    (teams : list team) (t : team) :
  generate_teams fuel conn org d = Some (conn', Ok teams) ->
  (forall i, (0 <= tm_years d i)%Q) ->
  t ∈ teams -> org_created_at org <= team_created_at t.
Proof.
  unfold generate_teams. intros H Hyears Ht.
  destruct (weighted_unique_sample _ _ _ _ _) as [[names|e]|]; [|done..].
  injection H as _ <-.
  apply list_elem_of_fmap in Ht as (row & -> & Hrow).
  apply elem_of_lookup_imap in Hrow as (i & name & -> & _). simpl.
  by apply team_created_ge.
Qed.

Lemma generate_project_after_team
    (organization_id : string) (t : team) (d : project_draws) (row : project_row) :
  generate_project organization_id t d = Ok row ->
  pr_team_id row = team_id t /\ team_created_at t <= pr_created_at row.
Proof.
  unfold generate_project. intros H. inv_result. subst row. simpl.
  split; [done|].
  pose proof (randint_range 30 900 (pj_days d)) as Hr.
  unfold timedelta_days, US_PER_DAY, US_PER_HOUR, US_PER_SECOND. lia.
Qed.

Lemma projects_after_team
    (conn conn' : db) (organization_id : string) (teams : list team)
    (draws : nat -> team_projects_draws) (projects : list project) (p : project) :
  generate_projects conn organization_id teams draws = (conn', Ok projects) ->
  p ∈ projects ->
  exists t, t ∈ teams /\ project_team_id p = team_id t /\
            team_created_at t <= project_created_at p.
Proof.
  unfold generate_projects. intros H Hp.
  destruct (mapM id _) as [per_team|e] eqn:Hloop; [|done].
  injection H as _ <-.
  apply list_elem_of_fmap in Hp as (row & -> & Hrow).
  apply elem_of_concat in Hrow as (rows & Hrows & Hrow).
  destruct (mapM_imap_elem _ _ _ _ Hloop Hrows) as (i & t & Ht & Hbody).
  unfold team_projects in Hbody.
  destruct (mapM_seq_elem _ _ _ _ Hbody Hrow) as (j & _ & Hj).
  exists t. split; [by eapply list_elem_of_lookup_2|].
  by apply generate_project_after_team in Hj.
Qed.

Lemma generate_task_after_project
    (organization_id : string) (p : project) (project_sections : list section)
    (team_members : gmap string (list string)) (all_users : list user)
    (now : datetime) (d : task_draws) (row : task_row) :
  generate_task organization_id p project_sections team_members all_users now d
    = Ok row ->
  (tk_created d <= 1)%Q ->
  kr_project_id row = project_id p /\ project_created_at p <= kr_created_at row /\
  (now <= project_created_at p -> kr_created_at row = project_created_at p).
Proof.
  unfold generate_task. intros H Hfrac. inv_result. subst row. simpl.
  split; [done|]. split; [by apply random_datetime_between_ge_start|].
  apply random_datetime_between_degenerate.
Qed.

Lemma tasks_after_project
    (conn conn' : db) (organization_id : string) (projects : list project)
    (sections : list section) (users : list user) (memberships : list membership)
    (now : datetime) (draws : nat -> project_tasks_draws)
    (tasks : list task) (k : task) :
  generate_tasks conn organization_id projects sections users memberships now draws
    = (conn', Ok tasks) ->
  (forall i j, (tk_created (pk_tasks (draws i) j) <= 1)%Q) ->
  k ∈ tasks ->
  exists p, p ∈ projects /\ task_project_id k = project_id p /\
            project_created_at p <= task_created_at k /\
            (now <= project_created_at p ->
             task_created_at k = project_created_at p).
Proof.
  unfold generate_tasks. intros H Hfrac Hk.
  destruct (mapM id _) as [per_project|e] eqn:Hloop; [|done].
  injection H as _ <-.
  apply list_elem_of_fmap in Hk as (row & -> & Hrow).
  apply elem_of_concat in Hrow as (rows & Hrows & Hrow).
  destruct (mapM_imap_elem _ _ _ _ Hloop Hrows) as (i & p & Hp & Hbody).
  unfold project_tasks in Hbody.
  destruct (mapM_seq_elem _ _ _ _ Hbody Hrow) as (j & _ & Hj).
  exists p. split; [by eapply list_elem_of_lookup_2|].
  by apply generate_task_after_project in Hj.
Qed.

End CausalOrdering.

(** ** Subtasks and comments, row by row *)

Section Children.
Import Teams Memberships Projects Tasks Subtasks Comments.

Lemma insert_subtasks_nil (conn : db) : insert_subtasks [] conn = conn.
Proof. destruct conn. unfold insert_subtasks. simpl. by rewrite app_nil_r. Qed.

(** A successful run inserts the rows that the loop body returned, each
    for a parent taken from the input. *)
Lemma generate_subtasks_Ok
    (conn conn' : db) (organization_id : string) (tasks : list task)
    (now : datetime) (d : subtasks_draws) (subs : list subtask) :
  generate_subtasks conn organization_id tasks now d = (conn', Ok subs) ->
  exists rows,
    conn' = insert_subtasks rows conn /\ subs = subtask_of_row <$> rows /\
    forall row, row ∈ rows ->
      exists parent k i,
        parent ∈ tasks /\
        generate_subtask organization_id (possible_creators tasks) now parent i
          (pd_subtasks (sd_parent d k) i) = Ok row.
Proof.
  unfold generate_subtasks. intros H.
  destruct tasks as [|t0 tasks'] eqn:Htasks.
  { injection H as <- <-. exists []. rewrite insert_subtasks_nil.
    repeat split. by intros row ?%elem_of_nil. }
  rewrite <- Htasks in *. clear Htasks.
  destruct (_ ≫= _) as [per_parent|e] eqn:Hloop; [|done].
  injection H as <- <-. exists (concat per_parent). repeat split.
  intros row Hrow. apply bind_Ok in Hloop as (parents & Hsample & Hloop).
  apply elem_of_concat in Hrow as (rows & Hrows & Hrow).
  destruct (mapM_imap_elem _ _ _ _ Hloop Hrows) as (k & parent & Hparent & Hbody).
  unfold parent_subtasks in Hbody.
  destruct (mapM_seq_elem _ _ _ _ Hbody Hrow) as (i & _ & Hi).
  exists parent, k, i. split; [|done].
  eapply sample_elem; [exact Hsample|]. by eapply list_elem_of_lookup_2.
Qed.

Lemma generate_subtask_after_parent
    (organization_id : string) (creators : list string) (now : datetime)
    (parent : task) (i : nat) (d : subtask_draws) (row : subtask_row) :
  generate_subtask organization_id creators now parent i d = Ok row ->
  sr_parent_task_id row = task_id parent /\
  sr_created_at row =
    random_datetime_between (task_created_at parent)
      (default now (task_completed_at parent)) (sb_created d).
Proof. unfold generate_subtask. intros H. inv_result. by subst row. Qed.

(** The comments of one task.  The timestamps never decrease, start at
    the value [last_comment_time] has when the loop is entered, and the
    loop ends with the timestamp of the last comment. *)
Lemma comment_loop_sorted
    (t : task) (users : list user) (end_ : datetime) (ds : list comment_draws)
    (last : datetime) (rows : list comment_row) (last' : datetime) :
  Forall (fun d => (cm_ts d <= 1)%Q) ds ->
  comment_loop t users end_ ds last = Ok (rows, last') ->
  length rows = length ds /\
  Forall (fun r => cr_task_id r = task_id t) rows /\
  StronglySorted Z.le (last :: (cr_created_at <$> rows)) /\
  Forall (fun r => cr_created_at r <= last') rows /\
  last <= last'.
Proof.
  intros Hds. revert last rows last'.
  induction Hds as [|d ds Hd Hds IH]; intros last rows last' H.
  - injection H as <- <-. repeat split; try done.
    repeat constructor.
  - change (comment_loop t users end_ (d :: ds) last) with
      (author ← choice users (cm_author d);
       let ts := random_datetime_between last end_ (cm_ts d) in
       let row := {| cr_id := cm_uuid d; cr_task_id := task_id t;
                     cr_author_id := user_id author; cr_body := cm_body d;
                     cr_created_at := ts |} in
       rest ← comment_loop t users end_ ds ts;
       mret (row :: rest.1, rest.2)) in H.
    apply bind_Ok in H as (author & _ & H). simpl in H.
    apply bind_Ok in H as ([rest last''] & Hrest & H).
    injection H as <- <-.
    destruct (IH _ _ _ Hrest) as (Hlen & Hid & Hsorted & Hmax & Hle).
    pose proof (random_datetime_between_ge_start last end_ (cm_ts d) Hd) as Hge.
    simpl. repeat split.
    + by rewrite Hlen.
    + by constructor.
    + apply StronglySorted_inv in Hsorted as [Hs Hall].
      constructor; [by constructor|].
      constructor; [done|].
      eapply Forall_impl; [exact Hall|]. simpl. intros; lia.
    + constructor; [simpl; lia|done].
    + lia.
Qed.

(** With a proper window no comment is later than its end. *)
Lemma comment_loop_le_end
    (t : task) (users : list user) (end_ : datetime) (ds : list comment_draws)
    (last : datetime) (rows : list comment_row) (last' : datetime) :
  Forall (fun d => (0 <= cm_ts d)%Q) ds -> last <= end_ ->
  comment_loop t users end_ ds last = Ok (rows, last') ->
  Forall (fun r => cr_created_at r <= end_) rows.
Proof.
  intros Hds. revert last rows last'.
  induction Hds as [|d ds Hd Hds IH]; intros last rows last' Hwin H.
  - injection H as <- <-. constructor.
  - simpl in H. destruct (choice users _) as [author|e]; [|done]. simpl in H.
    destruct (comment_loop _ _ _ _ _) as [[rest last'']|e] eqn:Hrest; [|done].
    injection H as <- <-.
    pose proof (random_datetime_between_le_end last end_ (cm_ts d) Hd Hwin).
    constructor; [done|]. by eapply IH.
Qed.

(** With a degenerate window every comment carries the start of it. *)
Lemma comment_loop_degenerate
    (t : task) (users : list user) (end_ : datetime) (ds : list comment_draws)
    (last : datetime) (rows : list comment_row) (last' : datetime) :
  end_ <= last ->
  comment_loop t users end_ ds last = Ok (rows, last') ->
  Forall (fun r => cr_created_at r = last) rows.
Proof.
  intros Hwin. revert rows last'.
  induction ds as [|d ds IH]; intros rows last' H.
  - injection H as <- <-. constructor.
  - simpl in H. destruct (choice users _) as [author|e]; [|done]. simpl in H.
    rewrite random_datetime_between_degenerate in H by done.
    destruct (comment_loop _ _ _ _ _) as [[rest last'']|e] eqn:Hrest; [|done].
    injection H as <- <-.
    constructor; [done|]. by eapply IH.
Qed.

End Children.

Section Threads.
Import Teams Memberships Projects Tasks Subtasks Comments.

Lemma insert_comments_nil (conn : db) : insert_comments [] conn = conn.
Proof. destruct conn. unfold insert_comments. simpl. by rewrite app_nil_r. Qed.

(** The loop over the commented tasks leaves the comments table alone
    and returns, for each task, the rows of [task_comments]. *)
Lemma comment_tasks_Ok
    (conn conn' : db) (users : list user) (tasks_with_comments : list task)
    (thread : nat -> thread_draws) (k : nat) (rows : list comment_row) :
  comment_tasks conn users tasks_with_comments thread k = (conn', Ok rows) ->
  tbl_comments conn' = tbl_comments conn /\
  forall row, row ∈ rows ->
    exists t j rs last,
      t ∈ tasks_with_comments /\
      task_comments t users (thread j) = Ok (rs, last) /\ row ∈ rs.
Proof.
  revert conn k rows.
  induction tasks_with_comments as [|t ts IH]; intros conn k rows H; simpl in H.
  - injection H as <- <-. split; [done|]. by intros row ?%elem_of_nil.
  - destruct (task_comments t users (thread k)) as [[rs last]|e] eqn:Ht; [|done].
    destruct (comment_tasks _ users ts thread (S k)) as [conn'' [rest|e]] eqn:Hts;
      [|done].
    injection H as <- <-.
    destruct (IH _ _ _ Hts) as (Htbl & Hrest). split; [done|].
    intros row [Hrow|Hrow]%elem_of_app.
    + exists t, k, rs, last. split; [left|done].
    + destruct (Hrest row Hrow) as (t' & j & rs' & last' & Ht' & Hc & Hin).
      exists t', j, rs', last'. split; [by right|done].
Qed.

Lemma generate_comments_Ok
    (conn conn' : db) (tasks : list task) (users : list user)
    (d : comments_draws) (cs : list comment) :
  generate_comments conn tasks users d = (conn', Ok cs) ->
  exists rows,
    tbl_comments conn' = tbl_comments conn ++ rows /\
    cs = comment_of_row <$> rows /\
    forall row, row ∈ rows ->
      exists t j rs last,
        t ∈ tasks /\ task_comments t users (cd_thread d j) = Ok (rs, last) /\
        row ∈ rs.
Proof.
  unfold generate_comments. intros H.
  destruct tasks as [|t0 tasks'] eqn:Htasks.
  { injection H as <- <-. exists []. rewrite app_nil_r.
    repeat split. by intros row ?%elem_of_nil. }
  rewrite <- Htasks in *. clear Htasks.
  destruct (sample tasks _ _) as [tw|e] eqn:Hsample; [|done].
  destruct (comment_tasks conn users tw _ 0) as [conn'' [rows|e]] eqn:Hloop; [|done].
  injection H as <- <-.
  destruct (comment_tasks_Ok _ _ _ _ _ _ _ Hloop) as (Htbl & Hrows).
  exists rows. simpl. rewrite Htbl. repeat split.
  intros row Hrow.
  destruct (Hrows row Hrow) as (t & j & rs & last & Ht & Hc & Hin).
  exists t, j, rs, last. split; [|done]. by eapply sample_elem.
Qed.

(** The timestamps of the comments of one task. *)
Lemma task_comments_sorted
    (t : task) (users : list user) (d : thread_draws)
    (rows : list comment_row) (last : datetime) :
  (forall i, (cm_ts (th_comments d i) <= 1)%Q) ->
  task_comments t users d = Ok (rows, last) ->
  1 <= len rows <= 5 /\
  Forall (fun r => cr_task_id r = task_id t) rows /\
  StronglySorted Z.le (cr_created_at <$> rows) /\
  Forall (fun r => task_created_at t <= cr_created_at r <= last) rows.
Proof.
  intros Hd H. unfold task_comments in H.
  apply comment_loop_sorted in H as (Hlen & Hid & Hsorted & Hmax & _).
  - apply StronglySorted_inv in Hsorted as [Hs Hmin].
    rewrite Forall_fmap in Hmin.
    repeat split; try done.
    + unfold len. rewrite Hlen, length_fmap, length_seq.
      pose proof (randint_range 1 5 (th_count d)). lia.
    + unfold len. rewrite Hlen, length_fmap, length_seq.
      pose proof (randint_range 1 5 (th_count d)). lia.
    + apply Forall_and. split; [exact Hmin|exact Hmax].
  - apply Forall_fmap, Forall_forall. intros i _. apply Hd.
Qed.

End Threads.

Section Chain.
Import Teams Memberships Projects Tasks Subtasks Comments.

(** C2.  Along the whole chain the creation timestamp of a generated
    child is not before that of its parent: a team and the organization,
    a project and its team, a task and its project, a subtask and its
    parent task, a comment and its task.  A task whose project is created
    at or after the end of the sampling window carries the creation
    timestamp of the project.  The variates are taken in the range of
    the functions that draw them. *)
Theorem causal_ordering :
  (forall fuel conn conn' org d teams,
     generate_teams fuel conn org d = Some (conn', Ok teams) ->
     (forall i, (0 <= tm_years d i)%Q) ->
     forall t, t ∈ teams -> org_created_at org <= team_created_at t) /\
  (forall conn conn' organization_id teams draws projects,
     generate_projects conn organization_id teams draws = (conn', Ok projects) ->
     forall p, p ∈ projects ->
       exists t, t ∈ teams /\ project_team_id p = team_id t /\
                 team_created_at t <= project_created_at p) /\
  (forall conn conn' organization_id projects sections users memberships now
          draws tasks,
     generate_tasks conn organization_id projects sections users memberships
       now draws = (conn', Ok tasks) ->
     (forall i j, (tk_created (pk_tasks (draws i) j) <= 1)%Q) ->
     forall k, k ∈ tasks ->
       exists p, p ∈ projects /\ task_project_id k = project_id p /\
                 project_created_at p <= task_created_at k /\
                 (now <= project_created_at p ->
                  task_created_at k = project_created_at p)) /\
  (forall conn conn' organization_id tasks now d subs,
     generate_subtasks conn organization_id tasks now d = (conn', Ok subs) ->
     (forall k i, (sb_created (pd_subtasks (sd_parent d k) i) <= 1)%Q) ->
     exists rows,
       conn' = insert_subtasks rows conn /\ subs = subtask_of_row <$> rows /\
       forall row, row ∈ rows ->
         exists parent, parent ∈ tasks /\ sr_parent_task_id row = task_id parent /\
                        task_created_at parent <= sr_created_at row) /\
  (forall conn conn' tasks users d cs,
     generate_comments conn tasks users d = (conn', Ok cs) ->
     (forall j i, (cm_ts (th_comments (cd_thread d j) i) <= 1)%Q) ->
     exists rows,
       tbl_comments conn' = tbl_comments conn ++ rows /\
       cs = comment_of_row <$> rows /\
       forall row, row ∈ rows ->
         exists t, t ∈ tasks /\ cr_task_id row = task_id t /\
                   task_created_at t <= cr_created_at row).
Proof.
  split; [|split; [|split; [|split]]].
  - intros. by eapply teams_after_organization.
  - intros. by eapply projects_after_team.
  - intros. by eapply tasks_after_project.
  - intros conn conn' organization_id tasks now d subs H Hfrac.
    destruct (generate_subtasks_Ok _ _ _ _ _ _ _ H) as (rows & -> & -> & Hrows).
    exists rows. repeat split. intros row Hrow.
    destruct (Hrows row Hrow) as (parent & k & i & Hparent & Hbody).
    apply generate_subtask_after_parent in Hbody as [Hid Hcreated].
    exists parent. repeat split; [done..|]. rewrite Hcreated.
    by apply random_datetime_between_ge_start.
  - intros conn conn' tasks users d cs H Hfrac.
    destruct (generate_comments_Ok _ _ _ _ _ _ H) as (rows & Htbl & -> & Hrows).
    exists rows. repeat split; [done|]. intros row Hrow.
    destruct (Hrows row Hrow) as (t & j & rs & last & Ht & Hc & Hin).
    apply task_comments_sorted in Hc as (_ & Hid & _ & Hbounds); [|by intros; apply Hfrac].
    rewrite Forall_forall in Hid, Hbounds.
    exists t. repeat split; [done|by apply Hid|by apply Hbounds].
Qed.

End Chain.

(** ** Comment threads *)

Section CommentThreads.
Import Teams Memberships Projects Tasks Subtasks Comments.

(** C5, as the code has it.  The comments of a task are between one and
    five; their timestamps never decrease (they can repeat) and are not
    before the creation of the task; when the creation of the task is
    not after the end of the window (the completion of the task, or the
    clock for a task that is not complete) no timestamp is after that
    end, and otherwise every comment carries the creation timestamp of
    the task. *)
Theorem comment_timestamps_nondecreasing
    (t : task) (users : list user) (d : thread_draws)
    (rows : list comment_row) (last : datetime) :
  (forall i, unit_interval (cm_ts (th_comments d i))) ->
  task_comments t users d = Ok (rows, last) ->
  let end_ := default (th_utcnow d) (task_completed_at t) in
  1 <= len rows <= 5 /\
  StronglySorted Z.le (cr_created_at <$> rows) /\
  Forall (fun r => task_created_at t <= cr_created_at r) rows /\
  (task_created_at t <= end_ -> Forall (fun r => cr_created_at r <= end_) rows) /\
  (end_ <= task_created_at t ->
   Forall (fun r => cr_created_at r = task_created_at t) rows).
Proof.
  intros Hd H end_.
  destruct (task_comments_sorted t users d rows last) as (Hlen & _ & Hs & Hb);
    [intros i; apply Hd|done|].
  split; [exact Hlen|]. split; [exact Hs|]. split; [|split].
  - eapply Forall_impl; [exact Hb|]. simpl. intros; lia.
  - intros Hwin. unfold task_comments in H.
    eapply comment_loop_le_end; [|exact Hwin|exact H].
    apply Forall_fmap, Forall_forall. intros i _. apply Hd.
  - intros Hwin. unfold task_comments in H.
    eapply comment_loop_degenerate; [exact Hwin|exact H].
Qed.

Lemma comment_timestamps_nondecreasing_witness :
  exists rows last,
    task_comments open_task early_users some_thread = Ok (rows, last) /\
    len rows = 3 /\
    StronglySorted Z.le (cr_created_at <$> rows) /\
    Forall (fun r => task_created_at open_task <= cr_created_at r) rows /\
    Forall (fun r => cr_created_at r <= th_utcnow some_thread) rows.
Proof.
  eexists _, _. split; [vm_compute; reflexivity|].
  split; [reflexivity|].
  edestruct (comment_timestamps_nondecreasing open_task early_users some_thread)
    as (_ & Hs & Hlo & Hhi & _).
  - intros i. split; simpl; unfold Qle; simpl; lia.
  - vm_compute. reflexivity.
  - split; [exact Hs|]. split; [exact Hlo|]. apply Hhi. vm_compute. discriminate.
Defined.

(** C5, as stated, fails.  The task of [late_draws] is created with its
    project on 2024-02-01, after the run of 2024-01-03, and is not
    complete; its two comments both carry the creation timestamp of
    the task, so they do not increase, and they are after the end of
    their window. *)
Lemma comment_timestamps_repeat :
  exists row rows last,
    generate_task "org" late_project [] ∅ early_users early_now late_draws
      = Ok row /\
    kr_completed_at row = None /\
    task_comments (task_of_row row) early_users
      {| th_utcnow := at_time (ymd 2024 1 3) 12 0 1; th_count := 1;
         th_comments := some_comment |} = Ok (rows, last) /\
    cr_created_at <$> rows
      = [at_time (ymd 2024 2 1) 12 0 0; at_time (ymd 2024 2 1) 12 0 0] /\
    ~ StronglySorted Z.lt (cr_created_at <$> rows) /\
    Exists (fun r => at_time (ymd 2024 1 3) 12 0 1 < cr_created_at r) rows.
Proof.
  eexists _, _, _. split; [vm_compute; reflexivity|].
  split; [reflexivity|]. split; [vm_compute; reflexivity|].
  split; [reflexivity|]. split.
  - intros Hs. apply StronglySorted_inv in Hs as [_ Hall].
    apply Forall_inv in Hall. simpl in Hall. lia.
  - left. vm_compute. reflexivity.
Qed.

End CommentThreads.

(** ** The unique weighted sample of team names *)

Section UniqueSample.
Import Teams.

Variables (options : list string) (weights : list Q) (target : Z) (us : nat -> Q).

Local Abbreviation need := (Z.to_nat (Z.min target (len options))).

Lemma choices_elem {A} (population : list A) (ws : list Q) (u : Q) (x : A) :
  choices population ws u = Ok x -> x ∈ population.
Proof.
  unfold choices. destruct (negb _); [done|].
  destruct (last _) as [total|]; [|done].
  destruct (Qle_bool total 0); [done|].
  destruct (population !! _) as [y|] eqn:Hy; [|done].
  intros [= <-]. by eapply list_elem_of_lookup_2.
Qed.

(** Whenever the loop ends, [chosen] has no duplicates and the length
    that the two guards of the loop allow. *)
Lemma weighted_unique_sample_loop_result
    (fuel i : nat) (chosen r : list string) :
  NoDup chosen -> (length chosen <= need)%nat -> chosen ⊆ options ->
  weighted_unique_sample_loop fuel options weights target us i chosen = Some (Ok r) ->
  NoDup r /\ length r = need /\ r ⊆ options.
Proof.
  revert i chosen. induction fuel as [|fuel IH]; intros i chosen Hnd Hlen Hsub;
    simpl; unfold len in *.
  - destruct (_ && _) eqn:Hguard; [done|]. intros [= <-].
    apply andb_false_iff in Hguard.
    repeat split; [done| |done].
    destruct Hguard as [H|H]; apply Z.ltb_ge in H; lia.
  - destruct (_ && _) eqn:Hguard.
    + apply andb_true_iff in Hguard as [H1%Z.ltb_lt H2%Z.ltb_lt].
      destruct (choices options weights (us i)) as [pick|e] eqn:Hpick; [|done].
      case_bool_decide as Hin; [by apply IH|].
      apply IH.
      * apply NoDup_app. repeat split; [done| |apply NoDup_singleton].
        intros x Hx ->%list_elem_of_singleton. done.
      * rewrite length_app. simpl. lia.
      * intros x [Hx| ->%list_elem_of_singleton]%elem_of_app; [by apply Hsub|].
        by eapply choices_elem.
    + intros [= <-]. apply andb_false_iff in Hguard.
      repeat split; [done| |done].
      destruct Hguard as [H|H]; apply Z.ltb_ge in H; lia.
Qed.

(** The number of names of [names] that are new with respect to [chosen]. *)
Local Abbreviation fresh chosen names :=
  (length (remove_dups (filter (fun x => x ∉ chosen) names))).

Lemma fresh_cons_old (chosen names : list string) (x : string) :
  x ∈ chosen -> fresh chosen (x :: names) = fresh chosen names.
Proof. intros Hx. by rewrite filter_cons_False by tauto. Qed.

Lemma fresh_cons_new (chosen names : list string) (x : string) :
  (fresh chosen (x :: names) <= S (fresh (chosen ++ [x]) names))%nat.
Proof.
  change (S (length ?l)) with (length (x :: l)).
  apply submseteq_length, NoDup_submseteq; [apply NoDup_remove_dups|].
  intros y Hy. apply elem_of_remove_dups, list_elem_of_filter in Hy as [Hy Hin].
  destruct (decide (y = x)) as [->|Hne]; [left|right].
  apply elem_of_remove_dups, list_elem_of_filter.
  apply elem_of_cons in Hin as [->|Hin]; [done|]. split; [|done].
  rewrite elem_of_app, list_elem_of_singleton. tauto.
Qed.

(** The loop ends within [fuel] draws when these draws bring enough new
    names. *)
Lemma weighted_unique_sample_loop_ends
    (fuel i : nat) (chosen names : list string) :
  mapM (fun j => choices options weights (us j)) (seq i fuel) = Ok names ->
  (need - length chosen <= fresh chosen names)%nat ->
  exists r,
    weighted_unique_sample_loop fuel options weights target us i chosen = Some (Ok r).
Proof.
  revert i chosen names.
  induction fuel as [|fuel IH]; intros i chosen names Hnames Hfresh;
    simpl; unfold len in *.
  - destruct (_ && _) eqn:Hguard; [|by eexists].
    apply andb_true_iff in Hguard as [H1%Z.ltb_lt H2%Z.ltb_lt].
    injection Hnames as <-. simpl in Hfresh. lia.
  - destruct (_ && _) eqn:Hguard; [|by eexists].
    apply andb_true_iff in Hguard as [H1%Z.ltb_lt H2%Z.ltb_lt].
    change (seq i (S fuel)) with (i :: seq (S i) fuel) in Hnames.
    apply mapM_Ok in Hnames. inversion Hnames as [|? x ? rest Hx Hrest]; subst.
    apply mapM_Ok in Hrest. rewrite Hx.
    case_bool_decide as Hin.
    + apply (IH _ _ rest); [done|]. by rewrite fresh_cons_old in Hfresh.
    + apply (IH _ _ rest); [done|].
      pose proof (fresh_cons_new chosen rest x). rewrite length_app. simpl. lia.
Qed.

Lemma fresh_nil (names : list string) :
  (length (remove_dups names) <= fresh [] names)%nat.
Proof.
  apply submseteq_length, NoDup_submseteq; [apply NoDup_remove_dups|].
  intros y Hy. rewrite elem_of_remove_dups in Hy.
  apply elem_of_remove_dups, list_elem_of_filter. split; [|done].
  apply not_elem_of_nil.
Qed.

(** C7, as the code has it.  Whenever the loop of
    [_weighted_unique_sample] ends, its result has no duplicates, has the
    length of the smaller of the target and the number of options (none
    for a negative target) and consists of options; and the loop ends
    within [n] draws when the first [n] draws return at least that many
    different names.  It does not end for every stream of draws. *)
Theorem weighted_unique_sample_ends_with_enough_names :
  (forall fuel r,
     weighted_unique_sample fuel options weights target us = Some (Ok r) ->
     NoDup r /\ length r = Z.to_nat (Z.min target (len options)) /\ r ⊆ options) /\
  (forall n names,
     mapM (fun j => choices options weights (us j)) (seq 0 n) = Ok names ->
     (Z.to_nat (Z.min target (len options)) <= length (remove_dups names))%nat ->
     exists r, weighted_unique_sample n options weights target us = Some (Ok r)).
Proof.
  split.
  - intros fuel r H. eapply weighted_unique_sample_loop_result; [..|exact H].
    + apply NoDup_nil_2.
    + simpl. lia.
    + by intros x ?%elem_of_nil.
  - intros n names Hnames Hlen.
    eapply weighted_unique_sample_loop_ends; [exact Hnames|].
    etrans; [|apply fresh_nil]. simpl. lia.
Qed.

End UniqueSample.

Section UniqueSampleRuns.
Import Teams.

Lemma weighted_unique_sample_ends_witness :
  exists r,
    weighted_unique_sample 6 base_names base_weights 3 walking_picks = Some (Ok r) /\
    NoDup r /\ length r = 3%nat.
Proof.
  destruct (weighted_unique_sample_ends_with_enough_names base_names base_weights 3
              walking_picks) as [Hresult Hends].
  edestruct (Hends 6%nat) as [r Hr].
  - vm_compute. reflexivity.
  - vm_compute. lia.
  - exists r. split; [exact Hr|].
    destruct (Hresult _ _ Hr) as (Hnd & Hlen & _). split; [exact Hnd|exact Hlen].
Defined.

Lemma stuck_on_first_name (fuel i : nat) :
  weighted_unique_sample_loop fuel base_names base_weights 8 stuck_picks i
    ["Engineering"] = None.
Proof.
  revert i. induction fuel as [|fuel IH]; intros i; [reflexivity|].
  change (weighted_unique_sample_loop (S fuel) base_names base_weights 8
            stuck_picks i ["Engineering"])
    with (weighted_unique_sample_loop fuel base_names base_weights 8
            stuck_picks (S i) ["Engineering"]).
  apply IH.
Qed.

(** C7, as stated, fails.  With the catalog of team names, the smallest
    target that [generate_teams] asks for and a stream of draws that
    stays at 0.1, every draw returns "Engineering": the loop is still
    running after any number of draws. *)
Lemma weighted_unique_sample_runs_forever :
  ~ exists fuel r,
      weighted_unique_sample fuel base_names base_weights Config.min_teams
        stuck_picks = Some r.
Proof.
  intros (fuel & r & H). destruct fuel as [|fuel]; [discriminate H|].
  change (weighted_unique_sample (S fuel) base_names base_weights
            Config.min_teams stuck_picks)
    with (weighted_unique_sample_loop fuel base_names base_weights 8
            stuck_picks 1 ["Engineering"]) in H.
  by rewrite stuck_on_first_name in H.
Qed.

End UniqueSampleRuns.

(** ** Team memberships *)

Section MembershipRouter.
Import Teams Memberships.

Lemma pick_membership_count_range (u : Q) :
  exists n, pick_membership_count u = Ok n /\ 1 <= n <= 3.
Proof.
  unfold pick_membership_count, choices.
  set (cum := accumulate _). vm_compute in cum. subst cum.
  cbn [length Nat.eqb negb last Nat.sub bisect].
  change (Qle_bool (1000000 # 1000000) 0) with false. cbv iota.
  destruct (Qle_bool _ _); [destruct (Qle_bool _ _)|];
    (eexists; split; [reflexivity|lia]).
Qed.

Lemma choice_elem {A} (seq : list A) (r : nat) :
  seq <> [] -> exists x, choice seq r = Ok x /\ x ∈ seq.
Proof.
  intros Hne. unfold choice.
  assert (Hlt : (randbelow (length seq) r < length seq)%nat).
  { unfold randbelow. apply Nat.mod_upper_bound. by destruct seq. }
  destruct (lookup_lt_is_Some_2 _ _ Hlt) as [x Hx]. rewrite Hx.
  exists x. split; [done|]. by eapply list_elem_of_lookup_2.
Qed.

Lemma team_by_name_elem (teams : list team) (name : string) (t : team) :
  team_by_name teams !! name = Some t -> t ∈ teams.
Proof.
  unfold team_by_name.
  enough (forall m : gmap string team,
            foldl (fun m t => <[team_name t := t]> m) m teams !! name = Some t ->
            m !! name = Some t \/ t ∈ teams) as Hgen.
  { intros H. apply Hgen in H as [H|H]; [|done]. by rewrite lookup_empty in H. }
  induction teams as [|t0 teams IH]; intros m H; simpl in H; [by left|].
  apply IH in H as [H|H]; [|by right; right].
  apply lookup_insert_Some in H as [[_ ->]|[_ H]]; [right; left|by left].
Qed.

Lemma fill_preferred_take (desired : Z) (preferred_ids chosen : list string) :
  fill_preferred desired preferred_ids chosen
  = chosen ++ take (Z.to_nat desired - length chosen) preferred_ids.
Proof.
  revert chosen. induction preferred_ids as [|tid rest IH]; intros chosen; simpl.
  - by rewrite take_nil, app_nil_r.
  - unfold len. destruct (Z.leb_spec desired (Z.of_nat (length chosen))) as [H|H].
    + replace (Z.to_nat desired - length chosen)%nat with 0%nat by lia.
      by rewrite app_nil_r.
    + rewrite IH, length_app. simpl.
      replace (Z.to_nat desired - length chosen)%nat
        with (S (Z.to_nat desired - (length chosen + 1)))%nat by lia.
      simpl. by rewrite <- app_assoc.
Qed.

Lemma bind_Ok_l {A B} (a : A) (k : A -> result B) : Ok a ≫= k = k a.
Proof. reflexivity. Qed.

(** The teams chosen for one user: at most three, all of the roster,
    and none only when the roster is empty. *)
Lemma user_memberships_chosen
    (teams : list team) (now : datetime) (u : user) (d : membership_draws) :
  exists chosen,
    user_memberships teams now u d
    = Ok (imap (fun i tid =>
                  {| mr_id := md_uuid d i; mr_team_id := tid;
                     mr_user_id := user_id u;
                     mr_role := pick_membership_role (user_role u) (md_lead d)
                                  (md_lead_background d);
                     mr_added_at :=
                       now - timedelta_days (randint 30 900 (md_days d)) |})
               chosen) /\
    (length chosen <= 3)%nat /\
    (chosen = [] <-> teams = []) /\
    Forall (fun tid => tid ∈ team_id <$> teams) chosen.
Proof.
  unfold user_memberships.
  destruct (pick_membership_count_range (md_count d)) as (n & -> & Hn).
  rewrite bind_Ok_l. cbv zeta. rewrite fill_preferred_take.
  set (team_ids := team_id <$> teams).
  set (preferred_ids := omap _ _).
  set (remaining_ids := List.filter _ team_ids).
  rewrite app_nil_l. change (length (@nil string)) with 0%nat. rewrite Nat.sub_0_r.
  set (chosen0 := take (Z.to_nat n) preferred_ids).
  assert (Hpref : Forall (fun tid => tid ∈ team_ids) preferred_ids).
  { apply Forall_forall. intros tid Htid.
    apply list_elem_of_omap in Htid as (name & _ & Hname).
    destruct (team_by_name teams !! name) as [t|] eqn:Ht; [|done].
    injection Hname as <-. apply list_elem_of_fmap_2.
    by eapply team_by_name_elem. }
  assert (Hrem : forall tid, tid ∈ remaining_ids -> tid ∈ team_ids).
  { intros tid Htid. apply list_elem_of_In, filter_In in Htid as [Htid _].
    by apply list_elem_of_In. }
  assert (Hc0 : Forall (fun tid => tid ∈ team_ids) chosen0).
  { by apply Forall_take. }
  assert (Hl0 : (length chosen0 <= Z.to_nat n)%nat).
  { unfold chosen0. rewrite length_take. lia. }
  assert (Hids : team_ids = [] <-> teams = []).
  { unfold team_ids. split; [apply fmap_nil_inv|by intros ->]. }
  (* the extras *)
  set (k := Z.min (len remaining_ids) (n - len chosen0)).
  assert (exists chosen1,
            (if len chosen0 <? n
             then extras ← sample remaining_ids k (md_extras d); mret (chosen0 ++ extras)
             else mret chosen0) = Ok chosen1 /\
            (length chosen1 <= 3)%nat /\ (chosen1 = [] -> teams = []) /\
            Forall (fun tid => tid ∈ team_ids) chosen1) as (chosen1 & -> & Hl1 & He1 & Hc1).
  { destruct (Z.ltb_spec (len chosen0) n) as [Hlt|Hge].
    - unfold sample.
      assert (Hk : 0 <= k <= len remaining_ids) by (unfold k, len in *; lia).
      destruct (Z.ltb_spec k 0); [lia|].
      destruct (Z.ltb_spec (Z.of_nat (length remaining_ids)) k);
        [unfold len in *; lia|].
      cbn [orb]. rewrite bind_Ok_l.
      assert (Hlen : length (sample_pool remaining_ids (Z.to_nat k) (md_extras d))
                     = Z.to_nat k).
      { apply sample_pool_length. unfold len in *. lia. }
      eexists. split; [reflexivity|]. split; [|split].
      + rewrite length_app, Hlen. unfold k, len in *. lia.
      + intros [Hnil Hx]%app_eq_nil.
        rewrite Hx in Hlen. simpl in Hlen.
        assert (Hempty : remaining_ids = []).
        { apply length_zero_iff_nil. unfold k, len in *.
          rewrite Hnil in *. simpl in *. lia. }
        assert (Hp : preferred_ids = []).
        { unfold chosen0 in Hnil. destruct preferred_ids; [done|].
          destruct (Z.to_nat n) eqn:E; [lia|done]. }
        apply Hids. unfold remaining_ids in Hempty. rewrite Hp in Hempty.
        destruct team_ids as [|tid ?]; [done|]. simpl in Hempty. done.
      + apply Forall_app. split; [done|].
        apply Forall_forall. intros tid Htid. apply Hrem.
        by eapply sample_pool_elem.
    - exists chosen0. split; [done|]. split; [lia|]. split; [|done].
      intros Hnil. rewrite Hnil in Hge. unfold len in Hge. simpl in Hge. lia. }
  rewrite bind_Ok_l.
  (* the fallback *)
  destruct (bool_decide (chosen1 = []) && negb (bool_decide (team_ids = []))) eqn:Hfb.
  - apply andb_true_iff in Hfb as [H1%bool_decide_eq_true H2%negb_true_iff].
    apply bool_decide_eq_false in H2. exfalso. apply H2, Hids, He1, H1.
  - rewrite bind_Ok_l. exists chosen1. split; [done|]. split; [done|].
    split; [|done]. split; [done|].
    intros Ht. apply Hids in Ht. rewrite Ht in Hc1.
    destruct chosen1 as [|tid ?]; [done|].
    apply Forall_inv in Hc1. by apply elem_of_nil in Hc1.
Qed.

End MembershipRouter.

Section MembershipRows.
Import Teams Memberships.

Lemma mapM_imap_total {A B} (g : nat -> A -> result B) (l : list A) :
  (forall i x, l !! i = Some x -> exists y, g i x = Ok y) ->
  exists k, mapM id (imap g l) = Ok k.
Proof.
  revert g. induction l as [|x l IH]; intros g Hg; [by exists []|].
  rewrite imap_cons.
  destruct (Hg 0%nat x) as [y Hy]; [done|].
  destruct (IH (g ∘ S)) as [k Hk]; [intros i x' Hx'; by apply (Hg (S i))|].
  exists (y :: k). apply mapM_Ok. constructor; [done|]. by apply mapM_Ok.
Qed.

(** The router never raises; its rows are those of the loop body, user
    by user. *)
Lemma generate_team_memberships_rows
    (conn : db) (teams : list team) (users : list user) (now : datetime)
    (draws : nat -> membership_draws) :
  exists per_user,
    generate_team_memberships conn teams users now draws
    = (insert_team_memberships (concat per_user) conn,
       Ok (membership_of_row <$> concat per_user)) /\
    Forall2 (fun u rows =>
               exists i, users !! i = Some u /\
                         user_memberships teams now u (draws i) = Ok rows)
            users per_user.
Proof.
  unfold generate_team_memberships.
  destruct (mapM_imap_total (fun i u => user_memberships teams now u (draws i)) users)
    as [per_user Hloop].
  { intros i u _. destruct (user_memberships_chosen teams now u (draws i))
      as (chosen & -> & _). by eexists. }
  rewrite Hloop. exists per_user. split; [done|]. by apply mapM_imap_Ok.
Qed.

(** C8, as the code has it.  The router gives every user at most three
    memberships, each of a team of the roster, and at least one unless
    the team roster is empty, in which case it gives none. *)
Theorem memberships_per_user
    (conn : db) (teams : list team) (users : list user) (now : datetime)
    (draws : nat -> membership_draws) :
  exists per_user,
    generate_team_memberships conn teams users now draws
    = (insert_team_memberships (concat per_user) conn,
       Ok (membership_of_row <$> concat per_user)) /\
    Forall2 (fun u rows =>
               (length rows <= 3)%nat /\
               (rows = [] <-> teams = []) /\
               Forall (fun r => mr_user_id r = user_id u /\
                                mr_team_id r ∈ team_id <$> teams) rows)
            users per_user.
Proof.
  destruct (generate_team_memberships_rows conn teams users now draws)
    as (per_user & Hgen & Hrows).
  exists per_user. split; [done|].
  eapply Forall2_impl; [exact Hrows|]. simpl.
  intros u rows (i & _ & Hbody).
  destruct (user_memberships_chosen teams now u (draws i))
    as (chosen & Hc & Hlen & Hnil & Hin).
  rewrite Hc in Hbody. injection Hbody as <-.
  split; [by rewrite length_imap|]. split.
  - rewrite <- Hnil. split; [|by intros ->].
    intros H. apply (f_equal length) in H. rewrite length_imap in H.
    by apply length_zero_iff_nil.
  - apply Forall_forall. intros r Hr.
    apply elem_of_lookup_imap in Hr as (j & tid & -> & Htid). simpl.
    split; [done|]. rewrite Forall_forall in Hin. apply Hin.
    by eapply list_elem_of_lookup_2.
Qed.

(** C10.  The rows of one user share their role and their [added_at],
    and the role is "lead" or "member"; when the users of the roster
    have different identifiers, two rows of the same user identifier
    agree on both. *)
Theorem memberships_share_role_and_date
    (conn : db) (teams : list team) (users : list user) (now : datetime)
    (draws : nat -> membership_draws) :
  exists per_user,
    generate_team_memberships conn teams users now draws
    = (insert_team_memberships (concat per_user) conn,
       Ok (membership_of_row <$> concat per_user)) /\
    Forall2 (fun u rows =>
               exists role added_at,
                 (role = "lead" \/ role = "member") /\
                 Forall (fun r => mr_user_id r = user_id u /\ mr_role r = role /\
                                  mr_added_at r = added_at) rows)
            users per_user /\
    (NoDup (user_id <$> users) ->
     forall r1 r2, r1 ∈ concat per_user -> r2 ∈ concat per_user ->
       mr_user_id r1 = mr_user_id r2 ->
       mr_role r1 = mr_role r2 /\ mr_added_at r1 = mr_added_at r2).
Proof.
  destruct (generate_team_memberships_rows conn teams users now draws)
    as (per_user & Hgen & Hrows).
  exists per_user. split; [done|].
  assert (Hshare :
    Forall2 (fun u rows =>
               exists role added_at,
                 (role = "lead" \/ role = "member") /\
                 Forall (fun r => mr_user_id r = user_id u /\ mr_role r = role /\
                                  mr_added_at r = added_at) rows)
            users per_user).
  { eapply Forall2_impl; [exact Hrows|]. simpl.
    intros u rows (i & _ & Hbody).
    destruct (user_memberships_chosen teams now u (draws i)) as (chosen & Hc & _).
    rewrite Hc in Hbody. injection Hbody as <-.
    eexists _, _. split; [|apply Forall_forall; intros r Hr;
      apply elem_of_lookup_imap in Hr as (j & tid & -> & _); simpl; done].
    unfold pick_membership_role.
    destruct (_ && _); [by left|]. destruct (Qltb _ _); [by left|by right]. }
  split; [exact Hshare|].
  intros Hnd r1 r2 Hr1 Hr2 Hid.
  apply elem_of_concat in Hr1 as (rows1 & Hrows1 & Hr1).
  apply elem_of_concat in Hr2 as (rows2 & Hrows2 & Hr2).
  apply list_elem_of_lookup in Hrows1 as [i1 Hi1].
  apply list_elem_of_lookup in Hrows2 as [i2 Hi2].
  destruct (Forall2_lookup_r _ _ _ _ _ Hshare Hi1)
    as (u1 & Hu1 & role1 & at1 & _ & Hall1).
  destruct (Forall2_lookup_r _ _ _ _ _ Hshare Hi2)
    as (u2 & Hu2 & role2 & at2 & _ & Hall2).
  rewrite Forall_forall in Hall1, Hall2.
  destruct (Hall1 _ Hr1) as (Hid1 & -> & ->).
  destruct (Hall2 _ Hr2) as (Hid2 & Hrole2 & Hat2).
  assert (i1 = i2) as ->.
  { eapply NoDup_lookup; [exact Hnd| |].
    - rewrite list_lookup_fmap, Hu1. simpl. reflexivity.
    - rewrite list_lookup_fmap, Hu2. simpl. congruence. }
  rewrite Hi1 in Hi2. injection Hi2 as <-.
  destruct (Hall1 _ Hr2) as (_ & -> & ->). done.
Qed.

End MembershipRows.

Section MembershipRuns.
Import Teams Memberships.

(** C8, as stated, fails.  With an empty team roster the router gives a
    user no membership at all. *)
Lemma empty_roster_gives_no_membership :
  generate_team_memberships empty_db [] some_users early_now some_membership_draws
  = (empty_db, Ok []).
Proof. vm_compute. reflexivity. Qed.

Lemma memberships_share_role_and_date_witness :
  exists per_user,
    generate_team_memberships empty_db some_teams some_users early_now
      some_membership_draws
    = (insert_team_memberships (concat per_user) empty_db,
       Ok (membership_of_row <$> concat per_user)) /\
    NoDup (user_id <$> some_users) /\
    forall r1 r2, r1 ∈ concat per_user -> r2 ∈ concat per_user ->
      mr_user_id r1 = mr_user_id r2 ->
      mr_role r1 = mr_role r2 /\ mr_added_at r1 = mr_added_at r2.
Proof.
  destruct (memberships_share_role_and_date empty_db some_teams some_users
              early_now some_membership_draws) as (per_user & Hgen & _ & Hsame).
  assert (Hnd : NoDup (user_id <$> some_users)).
  { apply NoDup_cons_2; [|apply NoDup_singleton].
    intros H%list_elem_of_singleton. discriminate H. }
  exists per_user. split; [exact Hgen|]. split; [exact Hnd|]. exact (Hsame Hnd).
Defined.

End MembershipRuns.

(** ** The creator of a subtask *)

Section SubtaskCreator.
Import Tasks Subtasks.

Lemma choice_Ok_elem {A} (seq : list A) (r : nat) (x : A) :
  choice seq r = Ok x -> x ∈ seq.
Proof.
  unfold choice. destruct (seq !! _) as [y|] eqn:Hy; [|done].
  intros [= <-]. by eapply list_elem_of_lookup_2.
Qed.

Lemma possible_creators_elem (tasks : list task) (x : string) :
  x ∈ possible_creators tasks <->
  exists t, t ∈ tasks /\ task_assignee_id t = Some x /\
            truthy (task_assignee_id t) = true.
Proof.
  unfold possible_creators. rewrite list_elem_of_omap. split.
  - intros (t & Ht & Hx). exists t. split; [done|].
    by destruct (truthy (task_assignee_id t)).
  - intros (t & Ht & Hx & Htruthy). exists t. split; [done|]. by rewrite Htruthy.
Qed.

Lemma possible_creators_nil (tasks : list task) :
  Forall (fun t => truthy (task_assignee_id t) = false) tasks ->
  possible_creators tasks = [].
Proof.
  intros Hall. destruct (possible_creators tasks) as [|x l] eqn:Hp; [done|].
  assert (Hx : x ∈ possible_creators tasks) by (rewrite Hp; left).
  apply possible_creators_elem in Hx as (t & Ht & _ & Htruthy).
  rewrite Forall_forall in Hall. rewrite (Hall t Ht) in Htruthy. done.
Qed.

Lemma generate_subtask_creator
    (organization_id : string) (creators : list string) (now : datetime)
    (parent : task) (i : nat) (d : subtask_draws) (row : subtask_row) :
  generate_subtask organization_id creators now parent i d = Ok row ->
  if truthy (task_assignee_id parent)
  then task_assignee_id parent = Some (sr_created_by_user_id row)
  else sr_created_by_user_id row ∈ creators.
Proof.
  unfold generate_subtask. intros H. apply bind_Ok in H as (creator & Hc & H).
  injection H as <-. simpl.
  destruct (truthy (task_assignee_id parent)) eqn:Htruthy.
  - destruct (task_assignee_id parent) as [a|]; [|done].
    by injection Hc as <-.
  - by eapply choice_Ok_elem.
Qed.

Lemma generate_subtask_no_creator
    (organization_id : string) (now : datetime) (parent : task) (i : nat)
    (d : subtask_draws) :
  truthy (task_assignee_id parent) = false ->
  generate_subtask organization_id [] now parent i d = Raise IndexError.
Proof. intros H. unfold generate_subtask. by rewrite H. Qed.

(** A failed run leaves the connection as it was. *)
Lemma generate_subtasks_Raise
    (conn conn' : db) (organization_id : string) (tasks : list task)
    (now : datetime) (d : subtasks_draws) (e : exn) :
  generate_subtasks conn organization_id tasks now d = (conn', Raise e) ->
  conn' = conn.
Proof.
  unfold generate_subtasks. destruct tasks; [done|].
  destruct (_ ≫= _); [done|]. by intros [= <- _].
Qed.

Lemma int_le (q : Q) (n : Z) : (0 <= q)%Q -> (q <= inject_Z n)%Q -> int q <= n.
Proof.
  intros Hq Hn. unfold int.
  assert (H0 : 0 <= Qnum q).
  { unfold Qle in Hq. simpl in Hq. lia. }
  rewrite Z.quot_div_nonneg by lia.
  change (Qnum q / Z.pos (Qden q)) with (Qfloor (Qnum q # Qden q)).
  rewrite <- (Qfloor_Z n). apply Qfloor_resp_le. by destruct q.
Qed.

End SubtaskCreator.

Section SubtaskRuns.
Import Tasks Subtasks.

Lemma generate_subtasks_no_creator
    (conn : db) (organization_id : string) (tasks : list task)
    (now : datetime) (d : subtasks_draws) :
  unit_interval (sd_target_frac d) -> tasks <> [] ->
  Forall (fun t => truthy (task_assignee_id t) = false) tasks ->
  generate_subtasks conn organization_id tasks now d = (conn, Raise IndexError).
Proof.
  intros [Hu0 Hu1] Hne Hall. unfold generate_subtasks.
  destruct tasks as [|t0 tasks'] eqn:E; [done|]. rewrite <- E in *. clear E.
  rewrite possible_creators_nil by done.
  set (target_frac := uniform _ _ _).
  set (k := Z.max 1 (int (inject_Z (len tasks) * target_frac))).
  assert (Hlen : 1 <= len tasks).
  { unfold len. destruct tasks; [done|]. simpl. lia. }
  assert (Hk : 1 <= k <= len tasks).
  { assert (Hf : (0 <= target_frac /\ target_frac <= 1)%Q).
    { unfold target_frac, uniform, Config.min_subtask_task_fraction,
        Config.max_subtask_task_fraction. split.
      - assert (0 <= ((40 # 100) - (30 # 100)) * sd_target_frac d)%Q
          by (apply Qmult_le_0_compat; [done|exact Hu0]).
        lra.
      - assert (((40 # 100) - (30 # 100)) * sd_target_frac d
                <= ((40 # 100) - (30 # 100)) * 1)%Q
          by (apply Qmult_le_l; [done|exact Hu1]).
        lra. }
    destruct Hf as [Hf0 Hf1].
    assert (Hq : (0 <= inject_Z (len tasks))%Q).
    { change 0%Q with (inject_Z 0). rewrite <- Zle_Qle. lia. }
    pose proof (int_le (inject_Z (len tasks) * target_frac) (len tasks)) as Hint.
    assert (int (inject_Z (len tasks) * target_frac) <= len tasks).
    { apply Hint; [by apply Qmult_le_0_compat|].
      apply Qle_trans with (1 * inject_Z (len tasks))%Q; [|lra].
      rewrite (Qmult_comm (inject_Z (len tasks))).
      apply Qmult_le_compat_r; [exact Hf1|exact Hq]. }
    unfold k. lia. }
  unfold sample.
  destruct (Z.ltb_spec k 0); [lia|].
  destruct (Z.ltb_spec (Z.of_nat (length tasks)) k); [unfold len in *; lia|].
  cbn [orb]. rewrite bind_Ok_l.
  destruct (sample_pool tasks (Z.to_nat k) (sd_parents d)) as [|parent rest] eqn:Hs.
  { apply (f_equal length) in Hs.
    rewrite sample_pool_length in Hs by (unfold len in *; lia). simpl in Hs. lia. }
  assert (Hparent : parent ∈ tasks).
  { apply (sample_pool_elem _ (Z.to_nat k) (sd_parents d)). rewrite Hs. left. }
  rewrite imap_cons.
  erewrite mapM_Raise_head; [done|].
  unfold id, parent_subtasks.
  pose proof (randint_range 2 6 (pd_count (sd_parent d 0))) as Hr.
  destruct (Z.to_nat (randint 2 6 _)) as [|n] eqn:Hcount; [lia|].
  change (seq 0 (S n)) with (0%nat :: seq 1 n).
  apply mapM_Raise_head, generate_subtask_no_creator.
  rewrite Forall_forall in Hall. by apply Hall.
Qed.

End SubtaskRuns.

Section ChainRuns.
Import Teams Memberships Projects Tasks Subtasks Comments.

Lemma causal_ordering_witness :
  (exists conn' teams,
     generate_teams 20 empty_db some_org some_teams_draws = Some (conn', Ok teams) /\
     len teams = 8 /\
     Forall (fun t => org_created_at some_org <= team_created_at t) teams) /\
  (exists conn' projects,
     generate_projects empty_db "org" some_teams some_projects_draws
       = (conn', Ok projects) /\
     len projects = 9 /\
     Forall (fun p => exists t, t ∈ some_teams /\ project_team_id p = team_id t /\
                        team_created_at t <= project_created_at p) projects) /\
  (exists conn' tasks,
     generate_tasks empty_db "org" [early_project] [] early_users [] early_now
       some_tasks_draws = (conn', Ok tasks) /\
     len tasks = 40 /\
     Forall (fun k => project_created_at early_project <= task_created_at k) tasks) /\
  (exists conn' subs rows,
     generate_subtasks empty_db "org" [open_task; orphan_task] early_now
       some_subtasks_draws = (conn', Ok subs) /\
     tbl_subtasks conn' = rows /\ len rows = 2 /\
     Forall (fun r => task_created_at open_task <= sr_created_at r) rows) /\
  (exists conn' cs rows,
     generate_comments empty_db [open_task] early_users some_comments_draws
       = (conn', Ok cs) /\
     tbl_comments conn' = rows /\ len rows = 3 /\
     Forall (fun r => task_created_at open_task <= cr_created_at r) rows).
Proof.
  destruct causal_ordering as (Hteam & Hproject & Htask & Hsubtask & Hcomment).
  split; [|split; [|split; [|split]]].
  - eassert (Hrun : generate_teams 20 empty_db some_org some_teams_draws
                    = Some (_, Ok _)) by (vm_compute; reflexivity).
    eexists _, _. split; [exact Hrun|]. split; [reflexivity|].
    apply Forall_forall. intros t Ht.
    eapply Hteam; [exact Hrun| |exact Ht].
    intros i. unfold Qle. simpl. lia.
  - eassert (Hrun : generate_projects empty_db "org" some_teams some_projects_draws
                    = (_, Ok _)) by (vm_compute; reflexivity).
    eexists _, _. split; [exact Hrun|]. split; [reflexivity|].
    apply Forall_forall. intros p0 Hp.
    eapply Hproject; [exact Hrun|exact Hp].
  - eassert (Hrun : generate_tasks empty_db "org" [early_project] [] early_users []
                      early_now some_tasks_draws = (_, Ok _))
      by (vm_compute; reflexivity).
    eexists _, _. split; [exact Hrun|]. split; [reflexivity|].
    apply Forall_forall. intros k Hk.
    destruct (Htask _ _ _ _ _ _ _ _ _ _ Hrun) with (k := k)
      as (p0 & Hp & _ & Hle & _); [|exact Hk|].
    + intros i j. unfold Qle. simpl. lia.
    + apply list_elem_of_singleton in Hp. by subst p0.
  - eassert (Hrun : generate_subtasks empty_db "org" [open_task; orphan_task]
                      early_now some_subtasks_draws = (_, Ok _))
      by (vm_compute; reflexivity).
    eexists _, _, _. split; [exact Hrun|]. split; [reflexivity|].
    split; [reflexivity|].
    destruct (Hsubtask _ _ _ _ _ _ _ Hrun) as (rows & Hconn & _ & Hrows).
    { intros k i. unfold Qle. simpl. lia. }
    apply (f_equal tbl_subtasks) in Hconn. simpl in Hconn. subst rows.
    apply Forall_forall. intros r Hr.
    destruct (Hrows r Hr) as (parent & Hparent & Hid & Hle).
    apply elem_of_cons in Hparent as [->|Hparent]; [exact Hle|].
    apply list_elem_of_singleton in Hparent. subst parent.
    exfalso. clear Hle Hrows.
    apply elem_of_cons in Hr as [->|Hr]; [discriminate Hid|].
    apply list_elem_of_singleton in Hr. subst r. discriminate Hid.
  - eassert (Hrun : generate_comments empty_db [open_task] early_users
                      some_comments_draws = (_, Ok _))
      by (vm_compute; reflexivity).
    eexists _, _, _. split; [exact Hrun|]. split; [reflexivity|].
    split; [reflexivity|].
    destruct (Hcomment _ _ _ _ _ _ Hrun) as (rows & Htbl & _ & Hrows).
    { intros j i. unfold Qle. simpl. lia. }
    simpl in Htbl. subst rows.
    apply Forall_forall. intros r Hr.
    destruct (Hrows r Hr) as (t & Ht & _ & Hle).
    apply list_elem_of_singleton in Ht. by subst t.
Defined.

End ChainRuns.

(** ** The last activity of a task *)

Section LastActivity.
Import Memberships Projects Tasks Comments.

(** What the task loop stores: the completion timestamp when there is
    one, the creation timestamp otherwise. *)
Lemma generate_task_last_activity
    (organization_id : string) (p : project) (project_sections : list section)
    (team_members : gmap string (list string)) (all_users : list user)
    (now : datetime) (d : task_draws) (row : task_row) :
  generate_task organization_id p project_sections team_members all_users now d
    = Ok row ->
  kr_last_activity_at row = default (kr_created_at row) (kr_completed_at row).
Proof. unfold generate_task. intros H. inv_result. by subst row. Qed.

(** For a task without a due date this is not before the creation. *)
Lemma generate_task_last_activity_no_due
    (organization_id : string) (p : project) (project_sections : list section)
    (team_members : gmap string (list string)) (all_users : list user)
    (now : datetime) (d : task_draws) (row : task_row) :
  generate_task organization_id p project_sections team_members all_users now d
    = Ok row ->
  (tk_completed_at d <= 1)%Q -> kr_due_date row = None ->
  kr_created_at row <= kr_last_activity_at row.
Proof.
  unfold generate_task. intros H Hfrac Hdue. inv_result. subst row.
  simpl in *. destruct (pick_due_date _ _ _) as [due|] eqn:Hpick.
  { unfold inject_overdue in Hdue. by repeat case_match. }
  destruct (Qltb (tk_completed d) _); simpl; [|lia].
  by apply completed_after_created_no_due.
Qed.

(** How the loop over the commented tasks changes a row of the tasks
    table: it keeps its identity and its creation and completion
    timestamps, its last activity does not go back, and is not before
    any of the comments [rows] written for its identifier. *)
Local Abbreviation touched rows old new :=
  (kr_id new = kr_id old /\ kr_created_at new = kr_created_at old /\
   kr_completed_at new = kr_completed_at old /\
   kr_last_activity_at old <= kr_last_activity_at new /\
   forall c : comment_row,
     c ∈ rows -> cr_task_id c = kr_id old ->
     cr_created_at c <= kr_last_activity_at new).

Lemma comment_tasks_touch
    (conn conn' : db) (users : list user) (tasks_with_comments : list task)
    (thread : nat -> thread_draws) (k : nat) (rows : list comment_row) :
  (forall j i, (cm_ts (th_comments (thread j) i) <= 1)%Q) ->
  comment_tasks conn users tasks_with_comments thread k = (conn', Ok rows) ->
  Forall2 (fun old new => touched rows old new) (tbl_tasks conn) (tbl_tasks conn').
Proof.
  intros Hfrac. revert conn k rows.
  induction tasks_with_comments as [|t ts IH]; intros conn k rows H; simpl in H.
  - injection H as <- <-. apply Forall_Forall2_diag, Forall_forall.
    intros old _. repeat split; [lia|]. by intros c ?%elem_of_nil.
  - destruct (task_comments t users (thread k)) as [[rs last]|e] eqn:Ht; [|done].
    destruct (comment_tasks _ users ts thread (S k)) as [conn'' [rest|e]] eqn:Hts;
      [|done].
    injection H as <- <-. apply IH in Hts. simpl in Hts.
    apply Forall2_fmap_l in Hts.
    apply task_comments_sorted in Ht as (_ & Hid & _ & Hbound); [|by apply Hfrac].
    rewrite Forall_forall in Hid, Hbound.
    eapply Forall2_impl; [exact Hts|]. simpl.
    intros old new (Hi & Hc & Hd & Hl & Hcs). unfold touch_row in *.
    destruct (String.eqb_spec (kr_id old) (task_id t)) as [Heq|Hne]; simpl in *.
    + repeat split; [done..|lia|].
      intros c [Hin|Hin]%elem_of_app Hc'; [|by apply Hcs].
      specialize (Hbound c Hin). lia.
    + repeat split; [done..|].
      intros c [Hin|Hin]%elem_of_app Hc'; [|by apply Hcs].
      rewrite (Hid c Hin) in Hc'. done.
Qed.

(** After [generate_comments] no row of the tasks table has a last
    activity before a comment written for its identifier. *)
Lemma comment_back_propagation
    (conn conn' : db) (tasks : list task) (users : list user)
    (d : comments_draws) (cs : list comment) :
  generate_comments conn tasks users d = (conn', Ok cs) ->
  (forall j i, (cm_ts (th_comments (cd_thread d j) i) <= 1)%Q) ->
  exists rows,
    tbl_comments conn' = tbl_comments conn ++ rows /\
    Forall2 (fun old new => touched rows old new)
            (tbl_tasks conn) (tbl_tasks conn').
Proof.
  unfold generate_comments. intros H Hfrac.
  destruct tasks as [|t0 tasks'] eqn:Htasks.
  { injection H as <- <-. exists []. rewrite app_nil_r. split; [done|].
    apply Forall_Forall2_diag, Forall_forall.
    intros old _. repeat split; [lia|]. by intros c ?%elem_of_nil. }
  rewrite <- Htasks in *. clear Htasks.
  destruct (sample tasks _ _) as [tw|e] eqn:Hsample; [|done].
  destruct (comment_tasks conn users tw _ 0) as [conn'' [rows|e]] eqn:Hloop; [|done].
  injection H as <- <-. exists rows. simpl.
  destruct (comment_tasks_Ok _ _ _ _ _ _ _ Hloop) as [-> _].
  split; [done|]. by eapply comment_tasks_touch.
Qed.

(** C4.  The task of [early_draws]: it is created on 2024-01-02 at noon,
    its completion timestamp is 2023-12-31 02:24, and its
    [last_activity_at] is that completion timestamp, before its
    [created_at]. *)
Theorem last_activity_before_creation :
  exists row,
    generate_task "org" early_project [] ∅ early_users
      early_now early_draws = Ok row /\
    kr_created_at row = at_time (ymd 2024 1 2) 12 0 0 /\
    kr_due_date row = Some (ymd 2024 1 5) /\
    kr_completed_at row = Some (at_time (ymd 2023 12 31) 2 24 0) /\
    kr_last_activity_at row = at_time (ymd 2023 12 31) 2 24 0 /\
    kr_last_activity_at row < kr_created_at row.
Proof. eexists. vm_compute. repeat split. Qed.

End LastActivity.

(** * Further properties of the date helpers *)

Import MoreScenarios.

Section SamplerShape.

Lemma round_half_even_Z (n : Z) : round_half_even (inject_Z n) = n.
Proof.
  unfold round_half_even. rewrite Qfloor_Z.
  assert (E : (inject_Z n - inject_Z n == 0)%Q) by ring.
  destruct (Qcompare_spec (inject_Z n - inject_Z n) (1 # 2)) as [H|H|H];
    rewrite E in H; [discriminate H|done|discriminate H].
Qed.

Lemma round_half_even_mono (x y : Q) :
  (x <= y)%Q -> round_half_even x <= round_half_even y.
Proof.
  intros Hxy. unfold round_half_even.
  pose proof (Qfloor_resp_le x y Hxy) as Hf.
  pose proof (Qfloor_le x) as Hx0. pose proof (Qlt_floor x) as Hx1.
  pose proof (Qfloor_le y) as Hy0. pose proof (Qlt_floor y) as Hy1.
  destruct (decide (Qfloor x = Qfloor y)) as [Heq|Hne].
  - rewrite Heq in *.
    destruct (Qcompare_spec (x - inject_Z (Qfloor y)) (1 # 2)) as [Ha|Ha|Ha];
      destruct (Qcompare_spec (y - inject_Z (Qfloor y)) (1 # 2)) as [Hb|Hb|Hb];
      try destruct (Z.even _); try lia; exfalso; lra.
  - assert (Hlt : Qfloor x + 1 <= Qfloor y) by lia.
    destruct (Qcompare _ _); destruct (Qcompare _ _);
      repeat (destruct (Z.even _)); lia.
Qed.

Lemma round_half_even_ext (x y : Q) :
  (x == y)%Q -> round_half_even x = round_half_even y.
Proof.
  intros E. apply Z.le_antisymm; apply round_half_even_mono; rewrite E; apply Qle_refl.
Qed.

(** X1.  For a variate between 0 and 1 and a window of at most 7300
    days (twenty years of 365 days) the sampler returns an instant of
    its window: not before the start, not after the end when the window
    is a proper one, and the start itself when it is not.  The bound on
    the window is that of the floating-point seconds of the code: up to
    it they give the microseconds of the window back, and the bounds
    proved here in exact arithmetic are those of the code. *)
Theorem random_datetime_between_in_window (start end_ : datetime) (frac : Q) :
  unit_interval frac ->
  end_ - start <= timedelta_days 7300 ->
  start <= random_datetime_between start end_ frac /\
  (start <= end_ -> random_datetime_between start end_ frac <= end_) /\
  (end_ <= start -> random_datetime_between start end_ frac = start).
Proof.
  intros [H0 H1] _. split; [by apply random_datetime_between_ge_start|].
  split; [by apply random_datetime_between_le_end|].
  apply random_datetime_between_degenerate.
Qed.

Lemma random_datetime_between_in_window_witness :
  let start := at_time (ymd 2024 1 1) 12 0 0 in
  let end_ := at_time (ymd 2024 1 3) 12 0 0 in
  unit_interval (1 # 4) /\
  end_ - start <= timedelta_days 7300 /\
  start <= random_datetime_between start end_ (1 # 4) <= end_.
Proof.
  assert (Hu : unit_interval (1 # 4)) by (split; unfold Qle; simpl; lia).
  assert (Hwin : at_time (ymd 2024 1 3) 12 0 0 - at_time (ymd 2024 1 1) 12 0 0
                 <= timedelta_days 7300) by (vm_compute; discriminate).
  split; [exact Hu|]. split; [exact Hwin|].
  destruct (random_datetime_between_in_window (at_time (ymd 2024 1 1) 12 0 0)
              (at_time (ymd 2024 1 3) 12 0 0) (1 # 4) Hu Hwin) as (Hlo & Hhi & _).
  split; [exact Hlo|]. apply Hhi. vm_compute. discriminate.
Defined.

(** X2.  The variate of the sampler runs against time: on a proper
    window of at most 7300 days, 0 gives the end, 1 gives the start, and
    a larger variate never gives a later instant.  The bound on the
    window is again that of the floating-point seconds of the code. *)
Theorem random_datetime_between_skew (start end_ : datetime) (frac1 frac2 : Q) :
  start <= end_ -> end_ - start <= timedelta_days 7300 -> (frac1 <= frac2)%Q ->
  random_datetime_between start end_ 0 = end_ /\
  random_datetime_between start end_ 1 = start /\
  random_datetime_between start end_ frac2 <= random_datetime_between start end_ frac1.
Proof.
  intros Hwin _ Hfrac. unfold random_datetime_between.
  destruct (Z.leb_spec end_ start) as [Hle|Hlt]; [repeat split; lia|].
  pose proof (total_seconds_us (end_ - start)) as Hus.
  set (t := total_seconds (end_ - start)) in *.
  unfold timedelta_seconds. split; [|split].
  - assert (E : (t * (1 - 0) * inject_Z US_PER_SECOND == inject_Z (end_ - start))%Q).
    { rewrite <- Hus. ring. }
    rewrite (round_half_even_ext _ _ E), round_half_even_Z. lia.
  - assert (E : (t * (1 - 1) * inject_Z US_PER_SECOND == inject_Z 0)%Q) by ring.
    rewrite (round_half_even_ext _ _ E), round_half_even_Z. lia.
  - apply Z.add_le_mono_l, round_half_even_mono.
    assert (Hd : (0 <= inject_Z (end_ - start))%Q).
    { change 0%Q with (inject_Z 0). rewrite <- Zle_Qle. lia. }
    assert (E1 : (t * (1 - frac2) * inject_Z US_PER_SECOND
                  == (1 - frac2) * inject_Z (end_ - start))%Q).
    { rewrite <- Hus. ring. }
    assert (E2 : (t * (1 - frac1) * inject_Z US_PER_SECOND
                  == (1 - frac1) * inject_Z (end_ - start))%Q).
    { rewrite <- Hus. ring. }
    rewrite E1, E2. apply Qmult_le_compat_r; [lra|done].
Qed.

Lemma random_datetime_between_skew_witness :
  let start := at_time (ymd 2024 1 1) 12 0 0 in
  let end_ := at_time (ymd 2024 1 3) 12 0 0 in
  random_datetime_between start end_ 0 = end_ /\
  random_datetime_between start end_ 1 = start /\
  random_datetime_between start end_ (3 # 4) <= random_datetime_between start end_ (1 # 4).
Proof.
  apply random_datetime_between_skew.
  - vm_compute. discriminate.
  - vm_compute. discriminate.
  - unfold Qle. simpl. lia.
Defined.

End SamplerShape.

Section DueDates.

Lemma to_business_day_near (d : date) (u : Q) :
  d - 1 <= to_business_day d u <= d + 2.
Proof.
  unfold to_business_day.
  destruct (_ <? _); [lia|]. destruct (_ =? _); [|lia]. destruct (Qltb _ _); lia.
Qed.

Lemma to_business_day_fixed (d : date) (u : Q) :
  weekday d <= 4 -> to_business_day d u = d.
Proof.
  intros H. unfold to_business_day.
  by destruct (Z.ltb_spec (weekday d) 5); [|lia].
Qed.

(** X3.  Snapping to a business day moves a date by at most one day back
    or two days forward, leaves a weekday where it is, and snapping the
    result again changes nothing, whatever is drawn. *)
Theorem to_business_day_idempotent (d : date) (u u' : Q) :
  let b := to_business_day d u in
  to_business_day b u' = b /\ d - 1 <= b <= d + 2 /\
  (weekday d <= 4 -> b = d).
Proof.
  split; [|split].
  - apply to_business_day_fixed.
    by destruct (to_business_day_spec d u) as [[_ ?] _].
  - apply to_business_day_near.
  - apply to_business_day_fixed.
Qed.

(** X4.  The distance of a due date from the creation date.  With
    [max_days > 0] the due date is at most one day before
    [min_days] days after the creation date and at most two days after
    the larger of [min_days] and [max_days] days after it; with
    [max_days <= 0] it is the creation date, moved by at most one day
    back or two days forward. *)
Theorem business_due_date_range
    (created_at : datetime) (min_days max_days : Z) (r : due_draws) :
  let base := date_of created_at in
  let due := business_due_date_from_created created_at min_days max_days r in
  if max_days <=? 0 then base - 1 <= due <= base + 2
  else base + min_days - 1 <= due <= base + Z.max min_days max_days + 2.
Proof.
  unfold business_due_date_from_created.
  destruct (max_days <=? 0).
  - apply to_business_day_near.
  - pose proof (to_business_day_near
                  (date_of created_at
                   + Z.max min_days (Z.min max_days (round_half_even (due_tri r))))
                  (due_sat r)).
    simpl. lia.
Qed.

End DueDates.

Section CompletionWindow.

(** X5.  A completion timestamp drawn without a due date, or with a due
    date whose midnight is at least seven days after
    [created_at + min_hours], lies between [created_at + min_hours] and
    [created_at + max_days], and not after fourteen days after midnight
    of the due date.  The time from [created_at + min_hours] to
    [created_at + max_days] is at most 7300 days, which keeps the window
    of the sampler within the bound of the floating-point seconds of the
    code. *)
Theorem completed_after_created_in_window
    (created_at : datetime) (due : option date) (min_hours max_days : Z) (frac : Q) :
  unit_interval frac ->
  timedelta_hours min_hours < timedelta_days max_days ->
  timedelta_days max_days - timedelta_hours min_hours <= timedelta_days 7300 ->
  match due with
  | Some d => created_at + timedelta_hours min_hours <= midnight d - timedelta_days 7
  | None => True
  end ->
  let completed_at :=
    completed_after_created created_at due min_hours max_days frac in
  created_at + timedelta_hours min_hours <= completed_at
    <= created_at + timedelta_days max_days /\
  match due with
  | Some d => completed_at <= midnight d + timedelta_days 14
  | None => True
  end.
Proof.
  intros [H0 H1] Hwin _ Hdue. unfold completed_after_created.
  destruct due as [d|]; simpl.
  - set (earliest := created_at + timedelta_hours min_hours) in *.
    set (latest := Z.min _ _).
    assert (Hlt : earliest < latest).
    { unfold latest, earliest, timedelta_days, timedelta_hours, US_PER_DAY,
        US_PER_HOUR, US_PER_SECOND in *. lia. }
    rewrite Z.min_l by done.
    destruct (Z.leb_spec latest earliest); [lia|].
    pose proof (random_datetime_between_ge_start earliest latest frac H1).
    pose proof (random_datetime_between_le_end earliest latest frac H0).
    unfold latest in *. lia.
  - set (earliest := created_at + timedelta_hours min_hours) in *.
    set (latest := created_at + timedelta_days max_days) in *.
    destruct (Z.leb_spec latest earliest); [unfold earliest, latest in *; lia|].
    pose proof (random_datetime_between_ge_start earliest latest frac H1).
    pose proof (random_datetime_between_le_end earliest latest frac H0).
    lia.
Qed.

Lemma completed_after_created_in_window_witness :
  let created_at := at_time (ymd 2024 1 1) 12 0 0 in
  let completed_at :=
    completed_after_created created_at (Some (ymd 2024 1 22)) 1 60 (1 # 4) in
  created_at + timedelta_hours 1 <= completed_at <= created_at + timedelta_days 60 /\
  completed_at <= midnight (ymd 2024 1 22) + timedelta_days 14.
Proof.
  apply (completed_after_created_in_window (at_time (ymd 2024 1 1) 12 0 0)
           (Some (ymd 2024 1 22)) 1 60 (1 # 4)).
  - split; unfold Qle; simpl; lia.
  - vm_compute. reflexivity.
  - vm_compute. discriminate.
  - vm_compute. discriminate.
Defined.

Lemma date_of_mono (t1 t2 : datetime) : t1 <= t2 -> date_of t1 <= date_of t2.
Proof. intros H. unfold date_of. by apply Z.div_le_mono. Qed.

(** X6.  An item that is overdue at one instant is overdue at every
    later instant, and an item with a completion timestamp is overdue
    at none. *)
Theorem is_overdue_persists
    (due : option date) (completed_at : option datetime)
    (now1 now2 utcnow : datetime) :
  now1 <= now2 ->
  is_overdue due completed_at (Some now1) utcnow = true ->
  is_overdue due completed_at (Some now2) utcnow = true /\
  completed_at = None /\
  forall c n, is_overdue due (Some c) n utcnow = false.
Proof.
  intros Hnow H. unfold is_overdue in *.
  destruct due as [d|]; [|done]. destruct completed_at as [c|]; [done|].
  simpl in *. split; [|done].
  apply Z.ltb_lt in H. apply Z.ltb_lt.
  pose proof (date_of_mono now1 now2 Hnow). lia.
Qed.

Lemma is_overdue_persists_witness :
  is_overdue (Some (ymd 2024 1 2)) None (Some (at_time (ymd 2024 1 5) 8 0 0)) 0
  = true.
Proof.
  apply (is_overdue_persists (Some (ymd 2024 1 2)) None
           (at_time (ymd 2024 1 3) 12 0 0) (at_time (ymd 2024 1 5) 8 0 0) 0).
  - vm_compute. discriminate.
  - vm_compute. reflexivity.
Defined.

End CompletionWindow.

(** * Further properties of the generators *)

Section WeightedChoice.

Lemma accumulate_from_length (acc : Q) (ws : list Q) :
  length (accumulate_from acc ws) = length ws.
Proof. revert acc. induction ws as [|w ws IH]; intros acc; simpl; [done|by rewrite IH]. Qed.

Lemma bisect_le (a : list Q) (x : Q) (hi : nat) : (bisect a x hi <= hi)%nat.
Proof.
  revert a. induction hi as [|hi IH]; intros a; [by destruct a|].
  destruct a as [|c a]; simpl; [lia|]. destruct (Qle_bool c x); [|lia].
  specialize (IH a). lia.
Qed.

(** A weighted draw from a population that is not empty, with one weight
    per element and a positive total, returns an element. *)
Lemma choices_total {A} (population : list A) (ws : list Q) (u total : Q) :
  length ws = length population -> population <> [] ->
  last (accumulate ws) = Some total -> (0 < total)%Q ->
  exists x, choices population ws u = Ok x /\ x ∈ population.
Proof.
  intros Hlen Hne Hlast Htotal. unfold choices.
  unfold accumulate in *. rewrite accumulate_from_length, Hlen, Nat.eqb_refl.
  simpl. rewrite Hlast.
  destruct (Qle_bool total 0) eqn:Hle.
  { apply Qle_bool_iff in Hle. exfalso. lra. }
  pose proof (bisect_le (accumulate_from 0 ws) (u * total) (length population - 1)).
  assert (Hpos : (0 < length population)%nat) by (destruct population; [done|simpl; lia]).
  destruct (lookup_lt_is_Some_2 population
              (bisect (accumulate_from 0 ws) (u * total) (length population - 1)))
    as [x Hx]; [lia|].
  rewrite Hx. exists x. split; [done|]. by eapply list_elem_of_lookup_2.
Qed.

End WeightedChoice.

Section TeamRoster.
Import Teams.

Lemma choices_base_names (u : Q) :
  exists x, choices base_names base_weights u = Ok x /\ x ∈ base_names.
Proof.
  eapply choices_total; [reflexivity|discriminate|vm_compute; reflexivity|].
  unfold Qlt. simpl. lia.
Qed.

(** The name loop never raises on the catalog. *)
Lemma weighted_unique_sample_loop_base
    (fuel : nat) (target : Z) (us : nat -> Q) (i : nat) (chosen : list string)
    (res : result (list string)) :
  weighted_unique_sample_loop fuel base_names base_weights target us i chosen
    = Some res ->
  exists r, res = Ok r.
Proof.
  revert i chosen. induction fuel as [|fuel IH]; intros i chosen; simpl.
  - destruct (_ && _); [done|]. intros [= <-]. by eexists.
  - destruct (_ && _); [|intros [= <-]; by eexists].
    destruct (choices_base_names (us i)) as (x & -> & _).
    case_bool_decide; apply IH.
Qed.

(** X7.  Whenever [generate_teams] returns, it has not raised: it has
    appended between 8 and 15 rows to the teams table, with names of the
    catalog that are all different and the identifier of the
    organization, and it hands on the records of these rows. *)
Theorem generate_teams_roster
    (fuel : nat) (conn conn' : db) (org : organization) (d : teams_draws)
    (res : result (list team)) :
  generate_teams fuel conn org d = Some (conn', res) ->
  exists rows,
    res = Ok (team_of_row <$> rows) /\ conn' = insert_teams rows conn /\
    Config.min_teams <= len rows <= Config.max_teams /\
    NoDup (tr_name <$> rows) /\
    Forall (fun r => tr_name r ∈ base_names /\ tr_organization_id r = org_id org)
           rows.
Proof.
  unfold generate_teams. intros H.
  set (target := clamp _ _ _) in H.
  assert (Htarget : Config.min_teams <= target <= Config.max_teams).
  { unfold target, clamp, Config.min_teams, Config.max_teams. lia. }
  destruct (weighted_unique_sample _ _ _ _ _) as [res0|] eqn:Hloop; [|done].
  destruct (weighted_unique_sample_loop_base _ _ _ _ _ _ Hloop) as [names ->].
  injection H as <- <-.
  destruct (weighted_unique_sample_loop_result base_names base_weights target
              (tm_picks d) fuel 0 [] names) as (Hnd & Hlen & Hsub);
    [apply NoDup_nil_2|simpl; lia|by intros x ?%elem_of_nil|exact Hloop|].
  eexists. split; [reflexivity|]. split; [reflexivity|].
  assert (Hnames : tr_name <$>
            imap (fun i name =>
                    {| tr_id := tm_uuid d i; tr_organization_id := org_id org;
                       tr_name := name; tr_description := tm_description d i;
                       tr_created_at :=
                         team_created (org_created_at org) (tm_years d i) |})
                 names = names).
  { apply list_eq. intros i. rewrite list_lookup_fmap, list_lookup_imap.
    by destruct (names !! i). }
  split; [|split].
  - unfold len. rewrite length_imap, Hlen.
    unfold Config.min_teams, Config.max_teams, len in *. simpl. lia.
  - by rewrite Hnames.
  - apply Forall_forall. intros r Hr.
    apply elem_of_lookup_imap in Hr as (i & name & -> & Hname). simpl.
    split; [|done]. apply Hsub. by eapply list_elem_of_lookup_2.
Qed.

Lemma generate_teams_roster_witness :
  exists conn' res rows,
    generate_teams 20 empty_db some_org some_teams_draws = Some (conn', res) /\
    res = Ok (team_of_row <$> rows) /\ len rows = 8 /\ NoDup (tr_name <$> rows).
Proof.
  eassert (Hrun : generate_teams 20 empty_db some_org some_teams_draws
                  = Some (_, _)) by (vm_compute; reflexivity).
  destruct (generate_teams_roster _ _ _ _ _ _ Hrun) as (rows & Hres & _ & _ & Hnd & _).
  eexists _, _, rows. split; [exact Hrun|]. split; [exact Hres|]. split; [|exact Hnd].
  injection Hres as Hres. apply (f_equal length) in Hres.
  rewrite length_fmap in Hres. unfold len. rewrite <- Hres. reflexivity.
Defined.

Lemma team_created_window (org_created : datetime) (u : Q) :
  unit_interval u ->
  org_created + timedelta_days 182 + timedelta_hours 12
    <= team_created org_created u <= org_created + timedelta_days 3285.
Proof.
  intros [H0 H1]. unfold team_created, timedelta_days_float, uniform.
  assert (Hlo : round_half_even (inject_Z 15768000000000)
                <= round_half_even
                     (365 * ((5 # 10) + (9 - (5 # 10)) * u) * inject_Z US_PER_DAY)).
  { apply round_half_even_mono. unfold US_PER_DAY, US_PER_HOUR, US_PER_SECOND.
    assert (0 <= (9 - (5 # 10)) * u)%Q by (apply Qmult_le_0_compat; [done|exact H0]).
    apply Qle_trans with (365 * (5 # 10) * inject_Z (24 * (3600 * 1000000)))%Q;
      [unfold Qle; simpl; lia|].
    apply Qmult_le_compat_r; [lra|done]. }
  assert (Hhi : round_half_even
                  (365 * ((5 # 10) + (9 - (5 # 10)) * u) * inject_Z US_PER_DAY)
                <= round_half_even (inject_Z 283824000000000)).
  { apply round_half_even_mono. unfold US_PER_DAY, US_PER_HOUR, US_PER_SECOND.
    assert ((9 - (5 # 10)) * u <= (9 - (5 # 10)) * 1)%Q
      by (apply Qmult_le_l; [done|exact H1]).
    apply Qle_trans with (365 * 9 * inject_Z (24 * (3600 * 1000000)))%Q;
      [|unfold Qle; simpl; lia].
    apply Qmult_le_compat_r; [lra|done]. }
  rewrite round_half_even_Z in Hlo, Hhi.
  unfold timedelta_days, timedelta_hours, US_PER_DAY, US_PER_HOUR, US_PER_SECOND
    in *.
  lia.
Qed.

(** X8.  With the variates of [random.uniform] in their range every
    team is created between half a year and nine years of 365 days
    after the organization. *)
Theorem teams_created_window
    (fuel : nat) (conn conn' : db) (org : organization) (d : teams_draws)
    (teams : list team) :
  generate_teams fuel conn org d = Some (conn', Ok teams) ->
  (forall i, unit_interval (tm_years d i)) ->
  Forall (fun t =>
            org_created_at org + timedelta_days 182 + timedelta_hours 12
              <= team_created_at t <= org_created_at org + timedelta_days 3285)
         teams.
Proof.
  unfold generate_teams. intros H Hyears.
  destruct (weighted_unique_sample _ _ _ _ _) as [[names|e]|]; [|done..].
  injection H as _ <-. apply Forall_forall. intros t Ht.
  apply list_elem_of_fmap in Ht as (row & -> & Hrow).
  apply elem_of_lookup_imap in Hrow as (i & name & -> & _). simpl.
  by apply team_created_window.
Qed.

Lemma teams_created_window_witness :
  exists conn' teams,
    generate_teams 20 empty_db some_org bounded_teams_draws = Some (conn', Ok teams) /\
    Forall (fun t =>
              org_created_at some_org + timedelta_days 182 + timedelta_hours 12
                <= team_created_at t
                <= org_created_at some_org + timedelta_days 3285)
           teams.
Proof.
  eassert (Hrun : generate_teams 20 empty_db some_org bounded_teams_draws
                  = Some (_, Ok _)) by (vm_compute; reflexivity).
  eexists _, _. split; [exact Hrun|].
  apply (teams_created_window _ _ _ _ _ _ Hrun).
  intros i. split; unfold Qle; simpl; lia.
Defined.

End TeamRoster.

Section Sampling.

(** A sample takes no element of the pool more often than the pool has
    it. *)
Lemma sample_pool_submseteq {A} (pool : list A) (k : nat) (rs : list nat) :
  sample_pool pool k rs ⊆+ pool.
Proof.
  revert pool rs. induction k as [|k IH]; intros pool rs; simpl.
  - apply submseteq_nil_l.
  - destruct (pool !! _) as [x|] eqn:Hx; [|apply submseteq_nil_l].
    trans (x :: delete (randbelow (length pool) (hd 0%nat rs)) pool).
    + apply submseteq_skip, IH.
    + apply Permutation_submseteq. symmetry. by apply delete_Permutation.
Qed.

Lemma sample_pool_NoDup {A} (pool : list A) (k : nat) (rs : list nat) :
  NoDup pool -> NoDup (sample_pool pool k rs).
Proof.
  revert pool rs. induction k as [|k IH]; intros pool rs Hnd; simpl.
  - apply NoDup_nil_2.
  - destruct (pool !! _) as [x|] eqn:Hx; [|apply NoDup_nil_2].
    rewrite (delete_Permutation pool _ x Hx) in Hnd.
    apply NoDup_cons in Hnd as [Hnotin Hnd'].
    apply NoDup_cons. split; [|by apply IH].
    intros Hin. apply Hnotin. by eapply sample_pool_elem.
Qed.

End Sampling.

Section Routing.
Import Teams Memberships.

Lemma preferred_team_names_in_catalog_aux (role : string) :
  let names := role_to_preferred_team_names role in
  (1 <= length names <= 3)%nat /\ NoDup names /\ names ⊆ base_names.
Proof.
  unfold role_to_preferred_team_names.
  repeat match goal with
         | |- context [if ?b then _ else _] => destruct b
         end;
    (split; [simpl; lia|]; split;
     [apply (bool_decide_unpack _); vm_compute; exact I
     |intros x Hx; apply (bool_decide_unpack _);
      repeat (apply elem_of_cons in Hx as [->|Hx]; [vm_compute; exact I|]);
      by apply elem_of_nil in Hx]).
Qed.

(** X9.  Whatever the role, the router prefers between one and three
    teams, all different, and each of them is a name of the catalog that
    the team generator picks from. *)
Theorem preferred_team_names_in_catalog (role : string) :
  let names := role_to_preferred_team_names role in
  (1 <= length names <= 3)%nat /\ NoDup names /\ names ⊆ base_names.
Proof. apply preferred_team_names_in_catalog_aux. Qed.

Lemma team_by_name_notin (teams : list team) (m : gmap string team) (name : string) :
  name ∉ team_name <$> teams ->
  foldl (fun m t => <[team_name t := t]> m) m teams !! name = m !! name.
Proof.
  revert m. induction teams as [|t teams IH]; intros m Hname; simpl; [done|].
  rewrite fmap_cons in Hname. apply not_elem_of_cons in Hname as [Hne Hname].
  rewrite IH by done. by rewrite lookup_insert_ne.
Qed.

Lemma team_by_name_name (teams : list team) (name : string) (t : team) :
  team_by_name teams !! name = Some t -> team_name t = name.
Proof.
  unfold team_by_name.
  enough (forall m : gmap string team,
            (forall n x, m !! n = Some x -> team_name x = n) ->
            foldl (fun m t => <[team_name t := t]> m) m teams !! name = Some t ->
            team_name t = name) as Hgen.
  { apply Hgen. intros n x. by rewrite lookup_empty. }
  induction teams as [|t0 teams IH]; intros m Hm H; simpl in H; [by apply Hm|].
  eapply IH; [|exact H]. intros n x Hx.
  apply lookup_insert_Some in Hx as [[<- <-]|[_ Hx]]; [done|by apply Hm].
Qed.

(** X10.  The dictionary of the teams by name: a name that no team has
    is not a key, the team found under a name is a team of the roster
    with that name, and of several teams of one name the last one is
    found. *)
Theorem team_by_name_last_wins (before after : list team) (t : team) :
  team_name t ∉ team_name <$> after ->
  team_by_name (before ++ t :: after) !! team_name t = Some t /\
  (forall name, name ∉ team_name <$> (before ++ t :: after) ->
                team_by_name (before ++ t :: after) !! name = None) /\
  (forall name t', team_by_name (before ++ t :: after) !! name = Some t' ->
                   t' ∈ before ++ t :: after /\ team_name t' = name).
Proof.
  intros Hlast. split; [|split].
  - unfold team_by_name. rewrite foldl_app. simpl.
    rewrite team_by_name_notin by done. apply lookup_insert_eq.
  - intros name Hname. unfold team_by_name.
    rewrite team_by_name_notin by done. apply lookup_empty.
  - intros name t' H. split; [by eapply team_by_name_elem|by eapply team_by_name_name].
Qed.

Lemma team_by_name_last_wins_witness :
  team_by_name (some_teams ++
                [{| team_id := "t9"; team_name := "Data";
                    team_created_at := at_time (ymd 2023 1 1) 9 0 0 |}])
    !! "Data"
  = Some {| team_id := "t9"; team_name := "Data";
            team_created_at := at_time (ymd 2023 1 1) 9 0 0 |}.
Proof.
  apply (team_by_name_last_wins some_teams []
           {| team_id := "t9"; team_name := "Data";
              team_created_at := at_time (ymd 2023 1 1) 9 0 0 |}).
  apply not_elem_of_nil.
Defined.

End Routing.

Section RoutingOrder.
Import Teams Memberships.

Lemma filter_sublist {A} (f : A -> bool) (l : list A) : List.filter f l `sublist_of` l.
Proof.
  induction l as [|x l IH]; simpl; [constructor|].
  destruct (f x); [by apply sublist_skip|by apply sublist_cons].
Qed.

Lemma imap_team_ids (u : user) (role : string) (added_at : datetime)
    (uuid : nat -> string) (chosen : list string) :
  mr_team_id <$>
    imap (fun i tid => {| mr_id := uuid i; mr_team_id := tid;
                          mr_user_id := user_id u; mr_role := role;
                          mr_added_at := added_at |}) chosen
  = chosen.
Proof.
  apply list_eq. intros i. rewrite list_lookup_fmap, list_lookup_imap.
  by destruct (chosen !! i).
Qed.

(** The teams of one user: the first [desired] preferred teams that the
    roster has, in the order of preference, then teams drawn from the
    others; together as many as desired, or all there are. *)
Lemma user_memberships_structure
    (teams : list team) (now : datetime) (u : user) (d : membership_draws) :
  let preferred_ids :=
    omap (fun name => team_id <$> team_by_name teams !! name)
         (role_to_preferred_team_names (user_role u)) in
  let remaining_ids :=
    List.filter (fun tid => negb (bool_decide (tid ∈ preferred_ids)))
                (team_id <$> teams) in
  exists n extras rows,
    pick_membership_count (md_count d) = Ok n /\ 1 <= n <= 3 /\
    user_memberships teams now u d = Ok rows /\
    mr_team_id <$> rows = take (Z.to_nat n) preferred_ids ++ extras /\
    extras ⊆+ remaining_ids /\
    length rows = Nat.min (Z.to_nat n) (length preferred_ids + length remaining_ids).
Proof.
  intros preferred_ids remaining_ids. unfold user_memberships.
  destruct (pick_membership_count_range (md_count d)) as (n & Hcount & Hn).
  rewrite Hcount, bind_Ok_l. cbv zeta. rewrite fill_preferred_take.
  fold preferred_ids. fold remaining_ids.
  rewrite app_nil_l. change (length (@nil string)) with 0%nat. rewrite Nat.sub_0_r.
  set (chosen0 := take (Z.to_nat n) preferred_ids).
  assert (Hl0 : length chosen0 = Nat.min (Z.to_nat n) (length preferred_ids)).
  { unfold chosen0. by rewrite length_take. }
  set (k := Z.min (len remaining_ids) (n - len chosen0)).
  assert (exists extras,
            (if len chosen0 <? n
             then extras ← sample remaining_ids k (md_extras d); mret (chosen0 ++ extras)
             else mret chosen0) = Ok (chosen0 ++ extras) /\
            extras ⊆+ remaining_ids /\
            length (chosen0 ++ extras)
            = Nat.min (Z.to_nat n) (length preferred_ids + length remaining_ids))
    as (extras & -> & Hsub & Hlen).
  { destruct (Z.ltb_spec (len chosen0) n) as [Hlt|Hge].
    - unfold sample.
      assert (Hk : 0 <= k <= len remaining_ids) by (unfold k, len in *; lia).
      destruct (Z.ltb_spec k 0); [lia|].
      destruct (Z.ltb_spec (Z.of_nat (length remaining_ids)) k);
        [unfold len in *; lia|].
      cbn [orb]. rewrite bind_Ok_l.
      eexists. split; [reflexivity|]. split; [apply sample_pool_submseteq|].
      rewrite length_app, sample_pool_length by (unfold len in *; lia).
      unfold k, len in *. lia.
    - exists []. rewrite app_nil_r. split; [done|]. split; [apply submseteq_nil_l|].
      unfold len in *. lia. }
  rewrite bind_Ok_l.
  destruct (bool_decide (chosen0 ++ extras = [])
            && negb (bool_decide (team_id <$> teams = []))) eqn:Hfb.
  - exfalso. apply andb_true_iff in Hfb as [H1%bool_decide_eq_true H2%negb_true_iff].
    apply bool_decide_eq_false in H2. apply H2.
    rewrite H1 in Hlen. simpl in Hlen.
    assert (Hp : preferred_ids = []) by (apply length_zero_iff_nil; lia).
    assert (Hr : remaining_ids = []) by (apply length_zero_iff_nil; lia).
    unfold remaining_ids in Hr. rewrite Hp in Hr.
    destruct (team_id <$> teams) as [|tid ?]; [done|]. simpl in Hr. done.
  - rewrite bind_Ok_l. eexists n, extras, _. split; [done|]. split; [done|].
    split; [reflexivity|]. split; [apply imap_team_ids|]. split; [done|].
    by rewrite length_imap.
Qed.

(** X11.  Role-aware routing.  The memberships of a user are, in this
    order, the first preferred teams of the role that the roster has (as
    many as the count drawn for the user, between one and three), and
    then teams sampled from those that are not preferred; together they
    are as many as the count drawn, or all the teams when there are
    fewer. *)
Theorem memberships_prefer_role_teams
    (teams : list team) (now : datetime) (u : user) (d : membership_draws) :
  let preferred_ids :=
    omap (fun name => team_id <$> team_by_name teams !! name)
         (role_to_preferred_team_names (user_role u)) in
  let remaining_ids :=
    List.filter (fun tid => negb (bool_decide (tid ∈ preferred_ids)))
                (team_id <$> teams) in
  exists n extras rows,
    pick_membership_count (md_count d) = Ok n /\ 1 <= n <= 3 /\
    user_memberships teams now u d = Ok rows /\
    mr_team_id <$> rows = take (Z.to_nat n) preferred_ids ++ extras /\
    Forall (fun tid => tid ∈ team_id <$> teams /\ tid ∉ preferred_ids) extras /\
    length rows = Nat.min (Z.to_nat n) (length preferred_ids + length remaining_ids).
Proof.
  intros preferred_ids remaining_ids.
  destruct (user_memberships_structure teams now u d)
    as (n & extras & rows & Hn & Hr & Hrows & Hids & Hsub & Hlen).
  exists n, extras, rows. repeat split; try done; try lia.
  apply Forall_forall. intros tid Htid.
  eapply elem_of_submseteq in Htid; [|exact Hsub].
  apply list_elem_of_In, filter_In in Htid as [Hin Hnot].
  split; [by apply list_elem_of_In|].
  apply negb_true_iff, bool_decide_eq_false in Hnot. done.
Qed.

Lemma preferred_ids_NoDup (teams : list team) (names : list string) :
  NoDup (team_id <$> teams) -> NoDup names ->
  NoDup (omap (fun name => team_id <$> team_by_name teams !! name) names).
Proof.
  intros Hids Hnames. induction Hnames as [|name names Hnotin Hnames IH]; simpl.
  { apply NoDup_nil_2. }
  destruct (team_by_name teams !! name) as [t|] eqn:Ht; simpl; [|done].
  apply NoDup_cons. split; [|done].
  intros Hin. apply list_elem_of_omap in Hin as (name' & Hname' & Hid).
  destruct (team_by_name teams !! name') as [t'|] eqn:Ht'; [|done].
  simpl in Hid. injection Hid as Hid.
  pose proof (team_by_name_elem _ _ _ Ht) as Hin1.
  pose proof (team_by_name_elem _ _ _ Ht') as Hin2.
  apply list_elem_of_lookup in Hin1 as [i Hi].
  apply list_elem_of_lookup in Hin2 as [j Hj].
  assert (i = j) as ->.
  { eapply NoDup_lookup; [exact Hids| |].
    - rewrite list_lookup_fmap, Hi. reflexivity.
    - rewrite list_lookup_fmap, Hj. simpl. by rewrite Hid. }
  rewrite Hi in Hj. injection Hj as <-.
  apply team_by_name_name in Ht, Ht'. congruence.
Qed.

(** X12.  When the teams of the roster have different identifiers, no
    user gets two memberships of the same team. *)
Theorem memberships_of_user_distinct
    (teams : list team) (now : datetime) (u : user) (d : membership_draws)
    (rows : list membership_row) :
  NoDup (team_id <$> teams) ->
  user_memberships teams now u d = Ok rows ->
  NoDup (mr_team_id <$> rows).
Proof.
  intros Hids Hrows.
  destruct (user_memberships_structure teams now u d)
    as (n & extras & rows' & _ & _ & Hrows' & Hteams & Hsub & _).
  rewrite Hrows in Hrows'. injection Hrows' as <-. rewrite Hteams.
  set (preferred_ids := omap _ _) in *.
  assert (Hp : NoDup preferred_ids).
  { apply preferred_ids_NoDup; [done|].
    by destruct (preferred_team_names_in_catalog_aux (user_role u)) as (_ & ? & _). }
  assert (Hr : NoDup (List.filter (fun tid => negb (bool_decide (tid ∈ preferred_ids)))
                        (team_id <$> teams))).
  { eapply sublist_NoDup; [exact Hids|apply filter_sublist]. }
  apply NoDup_app. split; [|split].
  - eapply sublist_NoDup; [exact Hp|apply sublist_take].
  - intros tid Htid Hin. apply elem_of_take in Htid as (i & Hi & _).
    eapply elem_of_submseteq in Hin; [|exact Hsub].
    apply list_elem_of_In, filter_In in Hin as [_ Hnot].
    apply negb_true_iff, bool_decide_eq_false in Hnot. apply Hnot.
    by eapply list_elem_of_lookup_2.
  - destruct (submseteq_Permutation _ _ Hsub) as [rest Hperm].
    rewrite Hperm in Hr. by apply NoDup_app in Hr as [? _].
Qed.

End RoutingOrder.

Section RoutingRuns.
Import Teams Memberships.

Lemma memberships_of_user_distinct_witness :
  exists rows,
    user_memberships some_teams early_now
      {| user_id := "u1"; user_role := "Staff Engineer" |}
      (some_membership_draws 0) = Ok rows /\
    length rows = 3%nat /\ NoDup (mr_team_id <$> rows).
Proof.
  eassert (Hrun : user_memberships some_teams early_now
                    {| user_id := "u1"; user_role := "Staff Engineer" |}
                    (some_membership_draws 0) = Ok _) by (vm_compute; reflexivity).
  eexists. split; [exact Hrun|]. split; [reflexivity|].
  eapply memberships_of_user_distinct; [|exact Hrun].
  apply (bool_decide_unpack _). vm_compute. exact I.
Defined.

(** X13.  The router never raises, and every membership it writes is
    dated between 900 and 30 days before the clock it read. *)
Theorem memberships_added_at_window
    (conn : db) (teams : list team) (users : list user) (now : datetime)
    (draws : nat -> membership_draws) :
  exists rows,
    generate_team_memberships conn teams users now draws
    = (insert_team_memberships rows conn, Ok (membership_of_row <$> rows)) /\
    Forall (fun r => now - timedelta_days 900 <= mr_added_at r
                       <= now - timedelta_days 30) rows.
Proof.
  destruct (generate_team_memberships_rows conn teams users now draws)
    as (per_user & Hgen & Hrows).
  exists (concat per_user). split; [done|].
  apply Forall_forall. intros r Hr.
  apply elem_of_concat in Hr as (rows & Hin & Hr).
  apply list_elem_of_lookup in Hin as [i Hi].
  destruct (Forall2_lookup_r _ _ _ _ _ Hrows Hi) as (u & _ & j & _ & Hbody).
  destruct (user_memberships_chosen teams now u (draws j)) as (chosen & Hc & _).
  rewrite Hc in Hbody. injection Hbody as <-.
  apply elem_of_lookup_imap in Hr as (k & tid & -> & _). simpl.
  pose proof (randint_range 30 900 (md_days (draws j))).
  unfold timedelta_days, US_PER_DAY, US_PER_HOUR, US_PER_SECOND. lia.
Qed.

End RoutingRuns.

Section ProjectPlans.
Import Teams Projects.

Lemma pick_project_type_total (u : Q) :
  exists ptype, pick_project_type u = Ok ptype /\ ptype ∈ project_labels.
Proof.
  eapply choices_total; [reflexivity|discriminate|vm_compute; reflexivity|].
  unfold Qlt. simpl. lia.
Qed.

Lemma date_of_add_days (t : datetime) (k : Z) :
  date_of (t + timedelta_days k) = date_of t + k.
Proof. unfold date_of, timedelta_days. by rewrite Z.div_add. Qed.

(** One project: what its row holds. *)
Lemma generate_project_row
    (organization_id : string) (t : team) (d : project_draws) :
  exists row,
    generate_project organization_id t d = Ok row /\
    pr_team_id row = team_id t /\ pr_organization_id row = organization_id /\
    pr_project_type row ∈ project_labels /\
    pr_start_date row = date_of (pr_created_at row) /\
    team_created_at t + timedelta_days 30 <= pr_created_at row
      <= team_created_at t + timedelta_days 900 /\
    match pr_due_date row with
    | Some due =>
        pr_project_type row ∈ ["roadmap"; "launch"] /\
        pr_start_date row + 60 <= due <= pr_start_date row + 240
    | None => pr_project_type row ∈ ["sprint"; "ops"]
    end.
Proof.
  unfold generate_project.
  destruct (pick_project_type_total (pj_type d)) as (ptype & -> & Hptype).
  rewrite bind_Ok_l. eexists. split; [reflexivity|].
  cbn [pr_start_date pr_due_date pr_created_at pr_team_id pr_organization_id
       pr_project_type].
  repeat split; try done.
  - pose proof (randint_range 30 900 (pj_days d)).
    unfold timedelta_days, US_PER_DAY, US_PER_HOUR, US_PER_SECOND. lia.
  - pose proof (randint_range 30 900 (pj_days d)).
    unfold timedelta_days, US_PER_DAY, US_PER_HOUR, US_PER_SECOND. lia.
  - case_bool_decide as Hin.
    + split; [done|]. rewrite !date_of_add_days.
      pose proof (randint_range 60 240 (pj_due_days d)). lia.
    + unfold project_labels in Hptype.
      repeat (apply elem_of_cons in Hptype as [->|Hptype]);
        try (by apply elem_of_nil in Hptype).
      * exfalso. apply Hin. left.
      * left.
      * exfalso. apply Hin. right. left.
      * right. left.
Qed.

Lemma team_projects_rows
    (organization_id : string) (t : team) (d : team_projects_draws) :
  exists rows,
    team_projects organization_id t d = Ok rows /\
    Config.min_projects_per_team <= len rows <= Config.max_projects_per_team /\
    Forall (fun row => exists j,
              generate_project organization_id t (tp_items d j) = Ok row) rows.
Proof.
  unfold team_projects.
  set (count := clamp _ _ _).
  assert (Hcount : Config.min_projects_per_team <= count
                   <= Config.max_projects_per_team).
  { unfold count, clamp, Config.min_projects_per_team,
      Config.max_projects_per_team. lia. }
  assert (Hall : forall l : list nat,
            exists rows,
              mapM (fun j => generate_project organization_id t (tp_items d j)) l
              = Ok rows /\
              Forall2 (fun j row =>
                         generate_project organization_id t (tp_items d j) = Ok row)
                      l rows).
  { induction l as [|j l (rows & Hrows & Hf)].
    - exists []. split; [done|constructor].
    - destruct (generate_project_row organization_id t (tp_items d j))
        as (row & Hrow & _).
      exists (row :: rows). split; [|by constructor].
      apply mapM_Ok. constructor; [done|]. by apply mapM_Ok. }
  destruct (Hall (seq 0 (Z.to_nat count))) as (rows & Hrows & Hf).
  exists rows. split; [done|]. split.
  - apply Forall2_length in Hf. rewrite length_seq in Hf.
    unfold len, Config.min_projects_per_team, Config.max_projects_per_team in *.
    lia.
  - apply Forall_forall. intros row Hrow.
    apply list_elem_of_lookup in Hrow as [i Hi].
    destruct (Forall2_lookup_r _ _ _ _ _ Hf Hi) as (j & _ & Hj). by exists j.
Qed.

Lemma generate_projects_rows
    (conn : db) (organization_id : string) (teams : list team)
    (draws : nat -> team_projects_draws) :
  exists per_team,
    generate_projects conn organization_id teams draws
    = (insert_projects (concat per_team) conn,
       Ok (project_of_row <$> concat per_team)) /\
    Forall2 (fun t rows =>
               Config.min_projects_per_team <= len rows
                 <= Config.max_projects_per_team /\
               Forall (fun row => exists d,
                         generate_project organization_id t d = Ok row) rows)
            teams per_team.
Proof.
  unfold generate_projects.
  destruct (mapM_imap_total (fun i t => team_projects organization_id t (draws i)) teams)
    as [per_team Hloop].
  { intros i t _. destruct (team_projects_rows organization_id t (draws i))
      as (rows & -> & _). by eexists. }
  rewrite Hloop. exists per_team. split; [done|].
  apply mapM_imap_Ok in Hloop.
  eapply Forall2_impl; [exact Hloop|]. simpl.
  intros t rows (i & _ & Hbody).
  destruct (team_projects_rows organization_id t (draws i)) as (rows' & Hr & Hlen & Hall).
  rewrite Hr in Hbody. injection Hbody as <-. split; [done|].
  eapply Forall_impl; [exact Hall|]. simpl. intros row [j Hj]. by eexists.
Qed.

(** X14.  The project generator never raises: whatever is drawn, it
    appends for every team of the roster between 3 and 10 rows to the
    projects table, each with the identifier of that team and of the
    organization, and hands on the records of these rows. *)
Theorem generate_projects_per_team
    (conn : db) (organization_id : string) (teams : list team)
    (draws : nat -> team_projects_draws) :
  exists per_team,
    generate_projects conn organization_id teams draws
    = (insert_projects (concat per_team) conn,
       Ok (project_of_row <$> concat per_team)) /\
    Forall2 (fun t rows =>
               3 <= len rows <= 10 /\
               Forall (fun row => pr_team_id row = team_id t /\
                                  pr_organization_id row = organization_id) rows)
            teams per_team.
Proof.
  destruct (generate_projects_rows conn organization_id teams draws)
    as (per_team & Hgen & Hrows).
  exists per_team. split; [done|].
  eapply Forall2_impl; [exact Hrows|]. simpl.
  intros t rows [Hlen Hall]. split; [exact Hlen|].
  eapply Forall_impl; [exact Hall|]. simpl. intros row [d Hd].
  destruct (generate_project_row organization_id t d) as (row' & Hr & H1 & H2 & _).
  rewrite Hr in Hd. by injection Hd as <-.
Qed.

(** X15.  Every project row has one of the four project types and the
    date of its creation timestamp as start date; it is created between
    30 and 900 days after its team; a roadmap or a launch has a due date
    between 60 and 240 days after the start date, a sprint or an ops
    project has none. *)
Theorem generate_projects_row_invariants
    (conn : db) (organization_id : string) (teams : list team)
    (draws : nat -> team_projects_draws) :
  exists per_team,
    generate_projects conn organization_id teams draws
    = (insert_projects (concat per_team) conn,
       Ok (project_of_row <$> concat per_team)) /\
    Forall2 (fun t rows =>
               Forall (fun row =>
                         pr_project_type row ∈ ["roadmap"; "sprint"; "launch"; "ops"] /\
                         pr_start_date row = date_of (pr_created_at row) /\
                         team_created_at t + timedelta_days 30 <= pr_created_at row
                           <= team_created_at t + timedelta_days 900 /\
                         match pr_due_date row with
                         | Some due =>
                             pr_project_type row ∈ ["roadmap"; "launch"] /\
                             pr_start_date row + 60 <= due <= pr_start_date row + 240
                         | None => pr_project_type row ∈ ["sprint"; "ops"]
                         end) rows)
            teams per_team.
Proof.
  destruct (generate_projects_rows conn organization_id teams draws)
    as (per_team & Hgen & Hrows).
  exists per_team. split; [done|].
  eapply Forall2_impl; [exact Hrows|]. simpl.
  intros t rows [_ Hall].
  eapply Forall_impl; [exact Hall|]. simpl. intros row [d Hd].
  destruct (generate_project_row organization_id t d)
    as (row' & Hr & _ & _ & H3 & H4 & H5 & H6).
  rewrite Hr in Hd. injection Hd as <-. done.
Qed.

End ProjectPlans.

Section Grouping.
Import Memberships Tasks.

Lemma append_at_fold_lookup {A B} (key : A -> string) (val : A -> B)
    (l : list A) (m : gmap string (list B)) (k : string) :
  foldl (fun m x => append_at (key x) (val x) m) m l !! k
  = match val <$> filter (fun x => key x = k) l with
    | [] => m !! k
    | vs => Some (default [] (m !! k) ++ vs)
    end.
Proof.
  revert m. induction l as [|x l IH]; intros m; simpl; [done|].
  rewrite IH. unfold append_at. rewrite filter_cons.
  destruct (decide (key x = k)) as [->|Hne].
  - rewrite lookup_insert_eq, fmap_cons.
    destruct (val <$> filter _ l) as [|v vs]; simpl; [done|].
    by rewrite <- app_assoc.
  - rewrite lookup_insert_ne by done. done.
Qed.

(** X16.  The two dictionaries of the task generator group their input
    by key and keep its order: under a project identifier are the
    sections of that project, under a team identifier the users of the
    memberships of that team, and an identifier without any is not a
    key. *)
Theorem grouping_by_key
    (sections : list section) (memberships : list membership) (k : string) :
  let secs := filter (fun x => section_project_id x = k) sections in
  let members := m_user_id <$> filter (fun x => m_team_id x = k) memberships in
  sections_by_project sections !! k
    = (if decide (secs = []) then None else Some secs) /\
  build_team_members memberships !! k
    = (if decide (members = []) then None else Some members).
Proof.
  unfold sections_by_project, build_team_members. split.
  - rewrite (append_at_fold_lookup section_project_id id). rewrite list_fmap_id.
    rewrite lookup_empty. by destruct (filter _ sections).
  - rewrite (append_at_fold_lookup m_team_id m_user_id).
    rewrite lookup_empty. by destruct (m_user_id <$> filter _ memberships).
Qed.

Lemma sections_by_project_elem (sections : list section) (k : string) (x : section) :
  x ∈ default [] (sections_by_project sections !! k) ->
  x ∈ sections /\ section_project_id x = k.
Proof.
  unfold sections_by_project.
  rewrite (append_at_fold_lookup section_project_id id), list_fmap_id, lookup_empty.
  destruct (filter _ sections) as [|y l] eqn:Hf; simpl; [by intros ?%elem_of_nil|].
  rewrite <- Hf. intros [? ?]%list_elem_of_filter. done.
Qed.

Lemma sections_by_project_none (sections : list section) (k : string) :
  default [] (sections_by_project sections !! k) = [] ->
  filter (fun x => section_project_id x = k) sections = [].
Proof.
  unfold sections_by_project.
  rewrite (append_at_fold_lookup section_project_id id), list_fmap_id, lookup_empty.
  by destruct (filter _ sections).
Qed.

Lemma build_team_members_elem
    (memberships : list membership) (k : string) (members : list string) (c : string) :
  build_team_members memberships !! k = Some members -> c ∈ members ->
  exists m, m ∈ memberships /\ m_team_id m = k /\ m_user_id m = c.
Proof.
  unfold build_team_members.
  rewrite (append_at_fold_lookup m_team_id m_user_id), lookup_empty.
  destruct (m_user_id <$> filter _ memberships) as [|y l] eqn:Hf; [done|].
  intros [= <-]. rewrite <- Hf. intros (m & -> & Hm)%list_elem_of_fmap.
  apply list_elem_of_filter in Hm as [? ?]. by exists m.
Qed.

End Grouping.

Section TaskRows.
Import Memberships Projects Tasks.

Lemma accumulate_positive (ws : list Q) (acc : Q) :
  Forall (fun w => (0 < w)%Q) ws -> ws <> [] ->
  exists total, last (accumulate_from acc ws) = Some total /\ (acc < total)%Q.
Proof.
  intros Hall. revert acc. induction Hall as [|w ws Hw Hall IH]; intros acc Hne; [done|].
  simpl. destruct ws as [|w' ws'].
  - exists (acc + w)%Q. split; [done|lra].
  - destruct (IH (acc + w)%Q) as (total & Hlast & Hlt); [done|].
    exists total. split; [|lra]. simpl in *. exact Hlast.
Qed.

Lemma section_weight_positive (x : section) : (0 < section_weight x)%Q.
Proof. unfold section_weight. by repeat case_match. Qed.

Lemma pick_section_total (sections : list section) (u : Q) :
  exists s, pick_section sections u = Ok s /\
            match s with
            | Some x => x ∈ sections
            | None => sections = []
            end.
Proof.
  unfold pick_section. destruct sections as [|x0 l] eqn:E; [by exists None|].
  rewrite <- E. assert (Hne : sections <> []) by (rewrite E; done). clear E.
  destruct (accumulate_positive (section_weight <$> sections) 0) as (total & Hlast & Hpos).
  { apply Forall_fmap, Forall_forall. intros x _. apply section_weight_positive. }
  { by destruct sections. }
  destruct (choices_total sections (section_weight <$> sections) u total)
    as (x & Hx & Hin); [by rewrite length_fmap|done|done|done|].
  rewrite Hx, bind_Ok_l. by exists (Some x).
Qed.

Lemma pick_assignee_total
    (p : project) (team_members : gmap string (list string))
    (all_users : list user) (u : Q) (r : nat) :
  all_users <> [] ->
  exists a, pick_assignee p team_members all_users u r = Ok a /\
            match a with
            | Some c =>
                (exists members,
                   team_members !! project_team_id p = Some members /\ c ∈ members) \/
                c ∈ user_id <$> all_users
            | None => True
            end.
Proof.
  intros Hne. unfold pick_assignee. destruct (Qltb _ _); [by exists None|].
  destruct (team_members !! project_team_id p) as [[|c cs]|] eqn:Hm.
  - destruct (choice_elem all_users r Hne) as (x & -> & Hx).
    rewrite bind_Ok_l. exists (Some (user_id x)). split; [done|].
    right. by apply list_elem_of_fmap_2.
  - destruct (choice_elem (c :: cs) r) as (x & -> & Hx); [done|].
    rewrite bind_Ok_l. exists (Some x). split; [done|]. left. by eexists.
  - destruct (choice_elem all_users r Hne) as (x & -> & Hx).
    rewrite bind_Ok_l. exists (Some (user_id x)). split; [done|].
    right. by apply list_elem_of_fmap_2.
Qed.

Lemma pick_due_date_range (p : project) (created_at : datetime) (d : task_draws)
    (due : date) :
  pick_due_date p created_at d = Some due ->
  0 <= weekday due <= 4 /\
  date_of created_at + 2 <= due <= date_of created_at + 77.
Proof.
  unfold pick_due_date, business_due_date_from_created.
  destruct (_ && _).
  - simpl. intros [= <-].
    split; [by destruct (to_business_day_spec
                           (date_of created_at
                            + Z.max 3 (Z.min 75 (round_half_even (due_tri (tk_due d)))))
                           (due_sat (tk_due d))) as [? _]|].
    pose proof (to_business_day_near
                  (date_of created_at
                   + Z.max 3 (Z.min 75 (round_half_even (due_tri (tk_due d)))))
                  (due_sat (tk_due d))). lia.
  - destruct (Qltb _ _); [|done]. simpl. intros [= <-].
    split; [by destruct (to_business_day_spec
                           (date_of created_at
                            + Z.max 5 (Z.min 45 (round_half_even (due_tri (tk_due d)))))
                           (due_sat (tk_due d))) as [? _]|].
    pose proof (to_business_day_near
                  (date_of created_at
                   + Z.max 5 (Z.min 45 (round_half_even (due_tri (tk_due d)))))
                  (due_sat (tk_due d))). lia.
Qed.

Lemma inject_overdue_cases
    (due_date : option date) (completed_flag : bool) (now : datetime) (u : Q) :
  match inject_overdue due_date completed_flag now u with
  | Some due' =>
      exists due, due_date = Some due /\
        (due' = due \/
         (completed_flag = false /\ due' = date_of now /\ date_of now <= due))
  | None => due_date = None
  end.
Proof.
  unfold inject_overdue. destruct due_date as [due|]; [|done].
  destruct completed_flag; simpl; [by exists due; split; [|left]|].
  destruct (Qltb _ _); [|by exists due; split; [|left]].
  destruct (Z.leb_spec (date_of now) due); exists due; (split; [done|]);
    [by right|by left].
Qed.

(** One task, with a user roster that is not empty: the loop body does
    not raise, and this is what its row holds. *)
Lemma generate_task_row
    (organization_id : string) (p : project) (project_sections : list section)
    (team_members : gmap string (list string)) (all_users : list user)
    (now : datetime) (d : task_draws) :
  all_users <> [] ->
  exists row,
    generate_task organization_id p project_sections team_members all_users now d
      = Ok row /\
    kr_project_id row = project_id p /\
    kr_organization_id row = organization_id /\
    kr_created_at row
      = random_datetime_between (project_created_at p) now (tk_created d) /\
    match kr_section_id row with
    | Some sid => exists x, x ∈ project_sections /\ section_id x = sid
    | None => project_sections = []
    end /\
    match kr_assignee_id row with
    | Some c =>
        (exists members,
           team_members !! project_team_id p = Some members /\ c ∈ members) \/
        c ∈ user_id <$> all_users
    | None => True
    end /\
    (if truthy (kr_assignee_id row)
     then kr_assignee_id row = Some (kr_created_by_user_id row)
     else kr_created_by_user_id row ∈ user_id <$> all_users) /\
    kr_priority row ∈ ["low"; "medium"; "high"; "urgent"].
Proof.
  intros Hne. unfold generate_task.
  destruct (pick_section_total project_sections (tk_section d)) as (s & -> & Hs).
  rewrite bind_Ok_l.
  destruct (pick_assignee_total p team_members all_users (tk_unassigned d)
              (tk_assignee d) Hne) as (a & -> & Ha).
  rewrite bind_Ok_l. cbv zeta.
  assert (exists creator,
            (if truthy a then mret (default "" a)
             else user_id <$> choice all_users (tk_creator d)) = Ok creator /\
            if truthy a then a = Some creator
            else creator ∈ user_id <$> all_users) as (creator & -> & Hc).
  { destruct (truthy a) eqn:Ht.
    - destruct a as [c|]; [|done]. by exists c.
    - destruct (choice_elem all_users (tk_creator d) Hne) as (x & -> & Hx).
      exists (user_id x). split; [done|]. by apply list_elem_of_fmap_2. }
  rewrite bind_Ok_l.
  destruct (choice_elem ["low"; "medium"; "high"; "urgent"] (tk_priority d))
    as (pr & -> & Hpr); [done|].
  rewrite bind_Ok_l. eexists. split; [reflexivity|]. simpl.
  repeat split; try done.
  destruct s as [x|]; simpl; [by exists x|done].
Qed.

End TaskRows.

Section TaskRuns.
Import Memberships Projects Tasks.

Lemma mapM_total {A B} (f : A -> result B) (l : list A) :
  (forall x, exists y, f x = Ok y) ->
  exists k, mapM f l = Ok k /\ Forall2 (fun x y => f x = Ok y) l k.
Proof.
  intros Hf. induction l as [|x l (k & Hk & Hall)].
  - exists []. split; [done|constructor].
  - destruct (Hf x) as [y Hy]. exists (y :: k). split; [|by constructor].
    apply mapM_Ok. by constructor.
Qed.

Lemma project_tasks_rows
    (organization_id : string) (proj_to_sections : gmap string (list section))
    (team_members : gmap string (list string)) (all_users : list user)
    (now : datetime) (p : project) (d : project_tasks_draws) :
  all_users <> [] ->
  exists rows,
    project_tasks organization_id proj_to_sections team_members all_users now p d
      = Ok rows /\
    40 <= len rows <= 120 /\
    Forall (fun row => exists td,
              generate_task organization_id p
                (default [] (proj_to_sections !! project_id p)) team_members
                all_users now td = Ok row) rows.
Proof.
  intros Hne. unfold project_tasks.
  set (num_tasks := clamp _ _ _).
  assert (Hnum : 40 <= num_tasks <= 120).
  { unfold num_tasks, clamp, Config.min_tasks_per_project,
      Config.max_tasks_per_project. lia. }
  destruct (mapM_total
              (fun j => generate_task organization_id p
                          (default [] (proj_to_sections !! project_id p))
                          team_members all_users now (pk_tasks d j))
              (seq 0 (Z.to_nat num_tasks))) as (rows & Hrows & Hall).
  { intros j. destruct (generate_task_row organization_id p
                          (default [] (proj_to_sections !! project_id p))
                          team_members all_users now (pk_tasks d j) Hne)
      as (row & Hrow & _). by exists row. }
  exists rows. split; [done|]. split.
  - apply Forall2_length in Hall. rewrite length_seq in Hall. unfold len. lia.
  - apply Forall_forall. intros row Hrow.
    apply list_elem_of_lookup in Hrow as [i Hi].
    destruct (Forall2_lookup_r _ _ _ _ _ Hall Hi) as (j & _ & Hj). by eexists.
Qed.

Lemma generate_tasks_rows
    (conn : db) (organization_id : string) (projects : list project)
    (sections : list section) (users : list user) (memberships : list membership)
    (now : datetime) (draws : nat -> project_tasks_draws) :
  users <> [] ->
  exists per_project,
    generate_tasks conn organization_id projects sections users memberships now draws
    = (insert_tasks (concat per_project) conn,
       Ok (task_of_row <$> concat per_project)) /\
    Forall2 (fun p rows =>
               40 <= len rows <= 120 /\
               Forall (fun row => exists td,
                         generate_task organization_id p
                           (default [] (sections_by_project sections !! project_id p))
                           (build_team_members memberships) users now td = Ok row)
                      rows)
            projects per_project.
Proof.
  intros Hne. unfold generate_tasks.
  destruct (mapM_imap_total
              (fun i p => project_tasks organization_id (sections_by_project sections)
                            (build_team_members memberships) users now p (draws i))
              projects) as [per_project Hloop].
  { intros i p _. destruct (project_tasks_rows organization_id
                              (sections_by_project sections)
                              (build_team_members memberships) users now p (draws i) Hne)
      as (rows & -> & _). by eexists. }
  rewrite Hloop. exists per_project. split; [done|].
  apply mapM_imap_Ok in Hloop.
  eapply Forall2_impl; [exact Hloop|]. simpl.
  intros p rows (i & _ & Hbody).
  destruct (project_tasks_rows organization_id (sections_by_project sections)
              (build_team_members memberships) users now p (draws i) Hne)
    as (rows' & Hr & Hlen & Hall).
  rewrite Hr in Hbody. by injection Hbody as <-.
Qed.

(** X17.  With a user roster that is not empty the task generator never
    raises: it appends for every project between 40 and 120 rows to the
    tasks table, each with the identifier of that project and of the
    organization and one of the four priorities, and hands on the
    records of these rows. *)
Theorem generate_tasks_per_project
    (conn : db) (organization_id : string) (projects : list project)
    (sections : list section) (users : list user) (memberships : list membership)
    (now : datetime) (draws : nat -> project_tasks_draws) :
  users <> [] ->
  exists per_project,
    generate_tasks conn organization_id projects sections users memberships now draws
    = (insert_tasks (concat per_project) conn,
       Ok (task_of_row <$> concat per_project)) /\
    Forall2 (fun p rows =>
               40 <= len rows <= 120 /\
               Forall (fun row =>
                         kr_project_id row = project_id p /\
                         kr_organization_id row = organization_id /\
                         kr_priority row ∈ ["low"; "medium"; "high"; "urgent"])
                      rows)
            projects per_project.
Proof.
  intros Hne.
  destruct (generate_tasks_rows conn organization_id projects sections users
              memberships now draws Hne) as (per_project & Hgen & Hrows).
  exists per_project. split; [done|].
  eapply Forall2_impl; [exact Hrows|]. simpl.
  intros p rows [Hlen Hall]. split; [done|].
  eapply Forall_impl; [exact Hall|]. simpl. intros row [td Htd].
  destruct (generate_task_row organization_id p
              (default [] (sections_by_project sections !! project_id p))
              (build_team_members memberships) users now td Hne)
    as (row' & Hr & H1 & H2 & _ & _ & _ & _ & H7).
  rewrite Hr in Htd. by injection Htd as <-.
Qed.

Lemma generate_tasks_per_project_witness :
  early_users <> [] /\
  exists per_project,
    generate_tasks empty_db "org" [early_project; late_project] [] early_users []
      early_now some_tasks_draws
    = (insert_tasks (concat per_project) empty_db,
       Ok (task_of_row <$> concat per_project)) /\
    Forall2 (fun p rows => 40 <= len rows <= 120)
            [early_project; late_project] per_project.
Proof.
  assert (Hne : early_users <> []) by discriminate.
  split; [exact Hne|].
  destruct (generate_tasks_per_project empty_db "org" [early_project; late_project]
              [] early_users [] early_now some_tasks_draws Hne)
    as (per_project & Hgen & Hrows).
  exists per_project. split; [exact Hgen|].
  eapply Forall2_impl; [exact Hrows|]. simpl. by intros p rows [? _].
Defined.

(** X18.  The people of a task.  With a user roster that is not empty,
    the assignee of a task, when it has one, is a user with a membership
    of the team of the project, or a user of the roster; and the creator
    is the assignee, or a user of the roster when there is none. *)
Theorem generate_tasks_people
    (conn : db) (organization_id : string) (projects : list project)
    (sections : list section) (users : list user) (memberships : list membership)
    (now : datetime) (draws : nat -> project_tasks_draws) :
  users <> [] ->
  exists per_project,
    generate_tasks conn organization_id projects sections users memberships now draws
    = (insert_tasks (concat per_project) conn,
       Ok (task_of_row <$> concat per_project)) /\
    Forall2 (fun p rows =>
               Forall (fun row =>
                         match kr_assignee_id row with
                         | Some c =>
                             (exists m, m ∈ memberships /\
                                        m_team_id m = project_team_id p /\
                                        m_user_id m = c) \/
                             c ∈ user_id <$> users
                         | None => True
                         end /\
                         (if truthy (kr_assignee_id row)
                          then kr_assignee_id row = Some (kr_created_by_user_id row)
                          else kr_created_by_user_id row ∈ user_id <$> users))
                      rows)
            projects per_project.
Proof.
  intros Hne.
  destruct (generate_tasks_rows conn organization_id projects sections users
              memberships now draws Hne) as (per_project & Hgen & Hrows).
  exists per_project. split; [done|].
  eapply Forall2_impl; [exact Hrows|]. simpl.
  intros p rows [_ Hall].
  eapply Forall_impl; [exact Hall|]. simpl. intros row [td Htd].
  destruct (generate_task_row organization_id p
              (default [] (sections_by_project sections !! project_id p))
              (build_team_members memberships) users now td Hne)
    as (row' & Hr & _ & _ & _ & _ & H5 & H6 & _).
  rewrite Hr in Htd. injection Htd as <-. split; [|done].
  destruct (kr_assignee_id row') as [c|]; [|done].
  destruct H5 as [(members & Hm & Hc)|Hc]; [left|by right].
  by eapply build_team_members_elem.
Qed.

Lemma generate_tasks_people_witness :
  early_users <> [] /\
  exists per_project,
    generate_tasks empty_db "org" [early_project] [] early_users [] early_now
      some_tasks_draws
    = (insert_tasks (concat per_project) empty_db,
       Ok (task_of_row <$> concat per_project)) /\
    Forall (fun row => kr_created_by_user_id row = "u1") (concat per_project).
Proof.
  assert (Hne : early_users <> []) by discriminate.
  split; [exact Hne|].
  destruct (generate_tasks_people empty_db "org" [early_project] [] early_users []
              early_now some_tasks_draws Hne) as (per_project & Hgen & Hrows).
  exists per_project. split; [exact Hgen|].
  apply Forall_forall. intros row Hrow.
  apply elem_of_concat in Hrow as (rows & Hin & Hrow).
  apply list_elem_of_lookup in Hin as [i Hi].
  destruct (Forall2_lookup_r _ _ _ _ _ Hrows Hi) as (p & _ & Hall).
  rewrite Forall_forall in Hall. destruct (Hall row Hrow) as [Ha Hc].
  destruct (kr_assignee_id row) as [c|] eqn:Hassignee.
  - destruct Ha as [(m & Hm & _)|Hin]; [by apply elem_of_nil in Hm|].
    apply list_elem_of_singleton in Hin. subst c. simpl in Hc. by injection Hc as <-.
  - simpl in Hc. by apply list_elem_of_singleton in Hc.
Defined.

(** X19.  The section of a task, when it has one, is a section of the
    project of the task; a task has no section only when its project
    has none. *)
Theorem generate_tasks_sections
    (conn : db) (organization_id : string) (projects : list project)
    (sections : list section) (users : list user) (memberships : list membership)
    (now : datetime) (draws : nat -> project_tasks_draws) :
  users <> [] ->
  exists per_project,
    generate_tasks conn organization_id projects sections users memberships now draws
    = (insert_tasks (concat per_project) conn,
       Ok (task_of_row <$> concat per_project)) /\
    Forall2 (fun p rows =>
               Forall (fun row =>
                         match kr_section_id row with
                         | Some sid =>
                             exists x, x ∈ sections /\ section_id x = sid /\
                                       section_project_id x = kr_project_id row
                         | None =>
                             forall x, x ∈ sections ->
                                       section_project_id x <> kr_project_id row
                         end)
                      rows)
            projects per_project.
Proof.
  intros Hne.
  destruct (generate_tasks_rows conn organization_id projects sections users
              memberships now draws Hne) as (per_project & Hgen & Hrows).
  exists per_project. split; [done|].
  eapply Forall2_impl; [exact Hrows|]. simpl.
  intros p rows [_ Hall].
  eapply Forall_impl; [exact Hall|]. simpl. intros row [td Htd].
  destruct (generate_task_row organization_id p
              (default [] (sections_by_project sections !! project_id p))
              (build_team_members memberships) users now td Hne)
    as (row' & Hr & H1 & _ & _ & H4 & _).
  rewrite Hr in Htd. injection Htd as <-. rewrite H1.
  destruct (kr_section_id row') as [sid|].
  - destruct H4 as (x & Hx & Hsid).
    apply sections_by_project_elem in Hx as [Hin Hp]. by exists x.
  - intros x Hx Hp.
    apply sections_by_project_none in H4 as Hnil.
    assert (Hin : x ∈ filter (fun y => section_project_id y = project_id p) sections)
      by (by apply list_elem_of_filter).
    rewrite Hnil in Hin. by apply elem_of_nil in Hin.
Qed.

End TaskRuns.

Section TaskEdges.
Import Memberships Projects Tasks.

Lemma generate_tasks_sections_witness :
  early_users <> [] /\
  exists per_project,
    generate_tasks empty_db "org" [early_project] [] early_users [] early_now
      some_tasks_draws
    = (insert_tasks (concat per_project) empty_db,
       Ok (task_of_row <$> concat per_project)) /\
    Forall (fun row => kr_section_id row = None) (concat per_project).
Proof.
  assert (Hne : early_users <> []) by discriminate.
  split; [exact Hne|].
  destruct (generate_tasks_sections empty_db "org" [early_project] [] early_users []
              early_now some_tasks_draws Hne) as (per_project & Hgen & Hrows).
  exists per_project. split; [exact Hgen|].
  apply Forall_forall. intros row Hrow.
  apply elem_of_concat in Hrow as (rows & Hin & Hrow).
  apply list_elem_of_lookup in Hin as [i Hi].
  destruct (Forall2_lookup_r _ _ _ _ _ Hrows Hi) as (p & _ & Hall).
  rewrite Forall_forall in Hall. specialize (Hall row Hrow).
  destruct (kr_section_id row) as [sid|]; [|done].
  destruct Hall as (x & Hx & _). by apply elem_of_nil in Hx.
Defined.

(** X20.  The due date of a task is at most 77 days after the date of
    its creation.  It is a weekday at least two days after that date,
    unless the task is not complete and the overdue step has moved the
    due date to the date of the run. *)
Theorem task_due_date_shape
    (organization_id : string) (p : project) (project_sections : list section)
    (team_members : gmap string (list string)) (all_users : list user)
    (now : datetime) (d : task_draws) (row : task_row) (due : date) :
  generate_task organization_id p project_sections team_members all_users now d
    = Ok row ->
  kr_due_date row = Some due ->
  due <= date_of (kr_created_at row) + 77 /\
  ((0 <= weekday due <= 4 /\ date_of (kr_created_at row) + 2 <= due) \/
   (kr_completed_at row = None /\ due = date_of now)).
Proof.
  unfold generate_task. intros H Hdue. inv_result. subst row. simpl in *.
  pose proof (inject_overdue_cases
                (pick_due_date p
                   (random_datetime_between (project_created_at p) now (tk_created d)) d)
                (Qltb (tk_completed d) Config.completion_ratio) now (tk_overdue d))
    as Hcases.
  rewrite Hdue in Hcases. destruct Hcases as (due0 & Hpick & Hcase).
  apply pick_due_date_range in Hpick as [Hwd Hrange].
  destruct Hcase as [->|(Hflag & -> & Hle)].
  - split; [lia|]. left. split; [done|lia].
  - split; [lia|]. right. by rewrite Hflag.
Qed.

Lemma task_due_date_shape_witness :
  exists row due,
    generate_task "org" early_project [] ∅ early_users early_now overdue_draws
      = Ok row /\
    kr_due_date row = Some due /\
    due <= date_of (kr_created_at row) + 77.
Proof.
  eassert (Hrun : generate_task "org" early_project [] ∅ early_users early_now
                    overdue_draws = Ok _) by (vm_compute; reflexivity).
  eexists _, _. split; [exact Hrun|]. split; [reflexivity|].
  eapply task_due_date_shape; [exact Hrun|reflexivity].
Defined.

Lemma generate_task_no_users
    (organization_id : string) (p : project) (project_sections : list section)
    (now : datetime) (d : task_draws) :
  generate_task organization_id p project_sections ∅ [] now d = Raise IndexError.
Proof.
  unfold generate_task.
  destruct (pick_section_total project_sections (tk_section d)) as (s & -> & _).
  rewrite bind_Ok_l. unfold pick_assignee.
  destruct (Qltb (tk_unassigned d) _); [reflexivity|].
  rewrite lookup_empty. reflexivity.
Qed.

(** X21.  Without users and without memberships the task generator
    raises the [IndexError] of [random.choice] on the first task of the
    first project, whatever is drawn, and writes nothing. *)
Theorem generate_tasks_without_users
    (conn : db) (organization_id : string) (projects : list project)
    (sections : list section) (now : datetime)
    (draws : nat -> project_tasks_draws) :
  projects <> [] ->
  generate_tasks conn organization_id projects sections [] [] now draws
  = (conn, Raise IndexError).
Proof.
  intros Hne. unfold generate_tasks. destruct projects as [|p projects]; [done|].
  rewrite imap_cons. erewrite mapM_Raise_head; [done|].
  unfold id, project_tasks.
  set (num_tasks := clamp _ _ _).
  assert (Hnum : 40 <= num_tasks).
  { unfold num_tasks, clamp, Config.min_tasks_per_project. lia. }
  destruct (Z.to_nat num_tasks) as [|n] eqn:Hn; [lia|].
  change (seq 0 (S n)) with (0%nat :: seq 1 n).
  apply mapM_Raise_head. apply generate_task_no_users.
Qed.

Lemma generate_tasks_without_users_witness :
  generate_tasks empty_db "org" [early_project] [] [] [] early_now some_tasks_draws
  = (empty_db, Raise IndexError).
Proof. apply generate_tasks_without_users. discriminate. Defined.

End TaskEdges.

Section SubtaskRows.
Import Tasks Subtasks.

(** One subtask, when the parent has an assignee or the pool of creators
    is not empty: the loop body does not raise, and this is what its row
    holds. *)
Lemma generate_subtask_row
    (organization_id : string) (creators : list string) (now : datetime)
    (parent : task) (i : nat) (d : subtask_draws) :
  creators <> [] ->
  exists row,
    generate_subtask organization_id creators now parent i d = Ok row /\
    sr_parent_task_id row = task_id parent /\
    sr_project_id row = task_project_id parent /\
    sr_organization_id row = organization_id /\
    sr_sort_order row = Z.of_nat i.
Proof.
  intros Hne. unfold generate_subtask.
  assert (exists creator,
            (if truthy (task_assignee_id parent)
             then mret (default "" (task_assignee_id parent))
             else choice creators (sb_creator d)) = Ok creator) as (creator & ->).
  { destruct (truthy _); [by eexists|].
    destruct (choice_elem creators (sb_creator d) Hne) as (x & -> & _). by eexists. }
  rewrite bind_Ok_l. eexists. split; [reflexivity|]. done.
Qed.

Lemma parent_subtasks_rows
    (organization_id : string) (creators : list string) (now : datetime)
    (parent : task) (d : parent_draws) :
  creators <> [] ->
  exists rows,
    parent_subtasks organization_id creators now parent d = Ok rows /\
    2 <= len rows <= 6 /\
    sr_sort_order <$> rows = Z.of_nat <$> seq 0 (length rows) /\
    Forall (fun row =>
              sr_parent_task_id row = task_id parent /\
              sr_project_id row = task_project_id parent /\
              sr_organization_id row = organization_id) rows.
Proof.
  intros Hne. unfold parent_subtasks.
  pose proof (randint_range 2 6 (pd_count d)) as Hcount.
  set (count := randint 2 6 (pd_count d)) in *.
  destruct (mapM_total
              (fun i => generate_subtask organization_id creators now parent i
                          (pd_subtasks d i))
              (seq 0 (Z.to_nat count))) as (rows & Hrows & Hall).
  { intros i. destruct (generate_subtask_row organization_id creators now parent i
                          (pd_subtasks d i) Hne) as (row & Hrow & _). by exists row. }
  exists rows. split; [done|].
  assert (Hlen : length rows = Z.to_nat count).
  { apply Forall2_length in Hall. by rewrite length_seq in Hall. }
  split; [unfold len; lia|]. split.
  - rewrite Hlen. apply list_eq. intros i.
    rewrite !list_lookup_fmap.
    destruct (rows !! i) as [row|] eqn:Hi; simpl.
    + destruct (Forall2_lookup_r _ _ _ _ _ Hall Hi) as (j & Hj & Hbody).
      rewrite Hj. simpl. apply lookup_seq in Hj as [-> _].
      destruct (generate_subtask_row organization_id creators now parent i
                  (pd_subtasks d i) Hne) as (row' & Hr & _ & _ & _ & Hs).
      simpl in Hbody. rewrite Hr in Hbody. injection Hbody as <-. by rewrite Hs.
    + apply lookup_ge_None in Hi.
      rewrite (proj2 (lookup_ge_None (seq 0 (Z.to_nat count)) i)); [done|].
      rewrite length_seq. lia.
  - apply Forall_forall. intros row Hrow.
    apply list_elem_of_lookup in Hrow as [i Hi].
    destruct (Forall2_lookup_r _ _ _ _ _ Hall Hi) as (j & _ & Hbody).
    destruct (generate_subtask_row organization_id creators now parent j
                (pd_subtasks d j) Hne) as (row' & Hr & H1 & H2 & H3 & _).
    rewrite Hr in Hbody. by injection Hbody as <-.
Qed.

(** With a creator to pick the subtask generator does not raise; the
    parents it expands and the rows of each. *)
Lemma generate_subtasks_rows_aux
    (conn : db) (organization_id : string) (tasks : list task)
    (now : datetime) (d : subtasks_draws) :
  unit_interval (sd_target_frac d) -> possible_creators tasks <> [] ->
  exists parents per_parent,
    generate_subtasks conn organization_id tasks now d
    = (insert_subtasks (concat per_parent) conn,
       Ok (subtask_of_row <$> concat per_parent)) /\
    parents ⊆+ tasks /\
    len parents
    = Z.max 1 (int (inject_Z (len tasks)
                    * uniform Config.min_subtask_task_fraction
                        Config.max_subtask_task_fraction (sd_target_frac d))) /\
    Forall2 (fun parent rows =>
               2 <= len rows <= 6 /\
               sr_sort_order <$> rows = Z.of_nat <$> seq 0 (length rows) /\
               Forall (fun row =>
                         sr_parent_task_id row = task_id parent /\
                         sr_project_id row = task_project_id parent /\
                         sr_organization_id row = organization_id) rows)
            parents per_parent.
Proof.
  intros [Hu0 Hu1] Hcreators. unfold generate_subtasks.
  destruct tasks as [|t0 tasks'] eqn:E; [done|]. rewrite <- E in *. clear E.
  set (target_frac := uniform _ _ _).
  set (k := Z.max 1 (int (inject_Z (len tasks) * target_frac))).
  assert (Hlen : 1 <= len tasks).
  { unfold len. destruct tasks; [done|]. simpl. lia. }
  assert (Hk : 1 <= k <= len tasks).
  { assert (Hf : (0 <= target_frac /\ target_frac <= 1)%Q).
    { unfold target_frac, uniform, Config.min_subtask_task_fraction,
        Config.max_subtask_task_fraction. split.
      - assert (0 <= ((40 # 100) - (30 # 100)) * sd_target_frac d)%Q
          by (apply Qmult_le_0_compat; [done|exact Hu0]).
        lra.
      - assert (((40 # 100) - (30 # 100)) * sd_target_frac d
                <= ((40 # 100) - (30 # 100)) * 1)%Q
          by (apply Qmult_le_l; [done|exact Hu1]).
        lra. }
    destruct Hf as [Hf0 Hf1].
    assert (Hq : (0 <= inject_Z (len tasks))%Q).
    { change 0%Q with (inject_Z 0). rewrite <- Zle_Qle. lia. }
    assert (int (inject_Z (len tasks) * target_frac) <= len tasks).
    { apply int_le; [by apply Qmult_le_0_compat|].
      apply Qle_trans with (1 * inject_Z (len tasks))%Q; [|lra].
      rewrite (Qmult_comm (inject_Z (len tasks))).
      apply Qmult_le_compat_r; [exact Hf1|exact Hq]. }
    unfold k. lia. }
  unfold sample.
  destruct (Z.ltb_spec k 0); [lia|].
  destruct (Z.ltb_spec (Z.of_nat (length tasks)) k); [unfold len in *; lia|].
  cbn [orb]. rewrite bind_Ok_l.
  set (parents := sample_pool tasks (Z.to_nat k) (sd_parents d)).
  destruct (mapM_imap_total
              (fun j parent => parent_subtasks organization_id (possible_creators tasks)
                                 now parent (sd_parent d j)) parents)
    as [per_parent Hloop].
  { intros j parent _.
    destruct (parent_subtasks_rows organization_id (possible_creators tasks) now
                parent (sd_parent d j) Hcreators) as (rows & -> & _). by eexists. }
  rewrite Hloop. exists parents, per_parent. split; [done|].
  split; [apply sample_pool_submseteq|]. split.
  - unfold len, parents. rewrite sample_pool_length by (unfold len in *; lia). lia.
  - apply mapM_imap_Ok in Hloop.
    eapply Forall2_impl; [exact Hloop|]. simpl.
    intros parent rows (j & _ & Hbody).
    destruct (parent_subtasks_rows organization_id (possible_creators tasks) now
                parent (sd_parent d j) Hcreators) as (rows' & Hr & H1 & H2 & H3).
    rewrite Hr in Hbody. by injection Hbody as <-.
Qed.

Lemma int_floor (q : Q) :
  (0 <= q)%Q -> (inject_Z (int q) <= q)%Q /\ (q < inject_Z (int q + 1))%Q.
Proof.
  intros Hq. unfold int.
  assert (H0 : 0 <= Qnum q).
  { unfold Qle in Hq. simpl in Hq. lia. }
  rewrite Z.quot_div_nonneg by lia.
  change (Qnum q / Z.pos (Qden q)) with (Qfloor (Qnum q # Qden q)).
  destruct q as [n m]. split; [apply Qfloor_le|apply Qlt_floor].
Qed.

(** The number of parents: between three tenths of the tasks, less one,
    and two fifths of them, and at least one. *)
Lemma num_parents_range (n : Z) (u : Q) :
  0 <= n -> unit_interval u ->
  let k := Z.max 1 (int (inject_Z n
                         * uniform Config.min_subtask_task_fraction
                             Config.max_subtask_task_fraction u)) in
  1 <= k /\ 3 * n - 10 <= 10 * k /\ 5 * k <= Z.max 5 (2 * n).
Proof.
  intros Hn [Hu0 Hu1] k.
  set (q := (inject_Z n * uniform Config.min_subtask_task_fraction
                            Config.max_subtask_task_fraction u)%Q) in *.
  assert (Hx : (0 <= inject_Z n)%Q).
  { change 0%Q with (inject_Z 0). rewrite <- Zle_Qle. lia. }
  assert (Hxu0 : (0 <= inject_Z n * u)%Q) by (by apply Qmult_le_0_compat).
  assert (Hxu1 : (inject_Z n * u <= inject_Z n)%Q).
  { assert (u * inject_Z n <= 1 * inject_Z n)%Q
      by (apply Qmult_le_compat_r; [exact Hu1|exact Hx]).
    lra. }
  assert (Hq : (q == (3 # 10) * inject_Z n + (1 # 10) * (inject_Z n * u))%Q).
  { unfold q, uniform, Config.min_subtask_task_fraction,
      Config.max_subtask_task_fraction. ring. }
  assert (Hq0 : (0 <= q)%Q) by lra.
  destruct (int_floor q Hq0) as [Hlo Hhi].
  assert (H1 : (inject_Z (5 * int q) <= inject_Z (2 * n))%Q).
  { rewrite !inject_Z_mult. change (inject_Z 5) with 5%Q.
    change (inject_Z 2) with 2%Q. lra. }
  assert (H2 : (inject_Z (3 * n) < inject_Z (10 * (int q + 1)))%Q).
  { rewrite !inject_Z_mult. change (inject_Z 3) with 3%Q.
    change (inject_Z 10) with 10%Q. lra. }
  rewrite <- Zle_Qle in H1. rewrite <- Zlt_Qlt in H2.
  unfold k. lia.
Qed.

(** X22.  When some task of the input has an assignee, the subtask
    generator does not raise.  It expands at least one task, at least
    three tenths of the tasks less one and at most two fifths of them
    (or one), none of them twice; every parent gets between two and six
    subtasks, numbered from 0 in their order, each with the identifier
    of the parent, of its project and of the organization. *)
Theorem generate_subtasks_per_parent
    (conn : db) (organization_id : string) (tasks : list task)
    (now : datetime) (d : subtasks_draws) :
  unit_interval (sd_target_frac d) -> possible_creators tasks <> [] ->
  exists parents per_parent,
    generate_subtasks conn organization_id tasks now d
    = (insert_subtasks (concat per_parent) conn,
       Ok (subtask_of_row <$> concat per_parent)) /\
    parents ⊆+ tasks /\
    1 <= len parents /\
    3 * len tasks - 10 <= 10 * len parents /\
    5 * len parents <= Z.max 5 (2 * len tasks) /\
    Forall2 (fun parent rows =>
               2 <= len rows <= 6 /\
               sr_sort_order <$> rows = Z.of_nat <$> seq 0 (length rows) /\
               Forall (fun row =>
                         sr_parent_task_id row = task_id parent /\
                         sr_project_id row = task_project_id parent /\
                         sr_organization_id row = organization_id) rows)
            parents per_parent.
Proof.
  intros Hu Hcreators.
  destruct (generate_subtasks_rows_aux conn organization_id tasks now d Hu Hcreators)
    as (parents & per_parent & Hgen & Hsub & Hlen & Hrows).
  exists parents, per_parent. split; [exact Hgen|]. split; [exact Hsub|].
  destruct (num_parents_range (len tasks) (sd_target_frac d)) as (H1 & H2 & H3);
    [unfold len; lia|exact Hu|].
  rewrite Hlen. done.
Qed.

Lemma generate_subtasks_per_parent_witness :
  exists parents per_parent,
    generate_subtasks empty_db "org" [open_task; orphan_task] early_now
      some_subtasks_draws
    = (insert_subtasks (concat per_parent) empty_db,
       Ok (subtask_of_row <$> concat per_parent)) /\
    parents ⊆+ [open_task; orphan_task] /\ len parents = 1 /\
    Forall2 (fun parent rows => 2 <= len rows <= 6) parents per_parent.
Proof.
  destruct (generate_subtasks_per_parent empty_db "org" [open_task; orphan_task]
              early_now some_subtasks_draws)
    as (parents & per_parent & Hgen & Hsub & Hlo & _ & Hhi & Hrows).
  - split; unfold Qle; simpl; lia.
  - vm_compute. discriminate.
  - exists parents, per_parent. split; [exact Hgen|]. split; [exact Hsub|].
    split; [change (len [open_task; orphan_task]) with 2 in Hhi; lia|].
    eapply Forall2_impl; [exact Hrows|]. simpl. by intros parent rows [? _].
Defined.

(** The creator of every row of a run that succeeds. *)
Lemma generate_subtasks_creators
    (conn conn' : db) (organization_id : string) (tasks : list task)
    (now : datetime) (d : subtasks_draws) (subs : list subtask) :
  generate_subtasks conn organization_id tasks now d = (conn', Ok subs) ->
  exists rows,
    conn' = insert_subtasks rows conn /\ subs = subtask_of_row <$> rows /\
    Forall (fun row =>
              exists parent,
                parent ∈ tasks /\ sr_parent_task_id row = task_id parent /\
                if truthy (task_assignee_id parent)
                then task_assignee_id parent = Some (sr_created_by_user_id row)
                else exists t, t ∈ tasks /\
                       truthy (task_assignee_id t) = true /\
                       task_assignee_id t = Some (sr_created_by_user_id row))
           rows.
Proof.
  intros Hgen.
  destruct (generate_subtasks_Ok _ _ _ _ _ _ _ Hgen) as (rows & -> & -> & Hrows).
  exists rows. repeat split. apply Forall_forall. intros row Hrow.
  destruct (Hrows row Hrow) as (parent & k & i & Hparent & Hbody).
  exists parent. split; [done|].
  split; [by apply generate_subtask_after_parent in Hbody as [? _]|].
  apply generate_subtask_creator in Hbody.
  destruct (truthy (task_assignee_id parent)); [done|].
  apply possible_creators_elem in Hbody as (t & Ht & Ha & Htr). by exists t.
Qed.

(** C9.  In a run of the subtask generator that succeeds, every subtask
    row belongs to a parent of the input and its creator is the assignee
    of the parent when the parent has one, and otherwise the assignee of
    some task of the input that has one.  A run that raises leaves the
    tables as they were; when the input is not empty and no task of it
    has an assignee, the run raises the [IndexError] of [random.choice]
    on an empty sequence, whatever is drawn.  And when some task of the
    input has an assignee, the run succeeds and writes rows, whatever is
    drawn: a parent without assignee gets its creators from the pool. *)
Theorem subtask_creator_rule
    (conn : db) (organization_id : string) (tasks : list task)
    (now : datetime) (d : subtasks_draws) :
  unit_interval (sd_target_frac d) ->
  match generate_subtasks conn organization_id tasks now d with
  | (conn', Ok subs) =>
      exists rows,
        conn' = insert_subtasks rows conn /\ subs = subtask_of_row <$> rows /\
        Forall (fun row =>
                  exists parent,
                    parent ∈ tasks /\ sr_parent_task_id row = task_id parent /\
                    if truthy (task_assignee_id parent)
                    then task_assignee_id parent = Some (sr_created_by_user_id row)
                    else exists t, t ∈ tasks /\
                           truthy (task_assignee_id t) = true /\
                           task_assignee_id t = Some (sr_created_by_user_id row))
               rows
  | (conn', Raise e) => conn' = conn
  end /\
  (tasks <> [] ->
   Forall (fun t => truthy (task_assignee_id t) = false) tasks ->
   generate_subtasks conn organization_id tasks now d = (conn, Raise IndexError)) /\
  ((exists t, t ∈ tasks /\ truthy (task_assignee_id t) = true) ->
   exists rows,
     rows <> [] /\
     generate_subtasks conn organization_id tasks now d
     = (insert_subtasks rows conn, Ok (subtask_of_row <$> rows)) /\
     Forall (fun row =>
               exists parent,
                 parent ∈ tasks /\ sr_parent_task_id row = task_id parent /\
                 if truthy (task_assignee_id parent)
                 then task_assignee_id parent = Some (sr_created_by_user_id row)
                 else exists t, t ∈ tasks /\
                        truthy (task_assignee_id t) = true /\
                        task_assignee_id t = Some (sr_created_by_user_id row))
            rows).
Proof.
  intros Hu. split; [|split; [by apply generate_subtasks_no_creator|]].
  - destruct (generate_subtasks conn organization_id tasks now d)
      as [conn' [subs|e]] eqn:Hgen.
    + by apply generate_subtasks_creators in Hgen.
    + by eapply generate_subtasks_Raise.
  - intros (t & Ht & Htr).
    assert (Hpool : possible_creators tasks <> []).
    { destruct (task_assignee_id t) as [a|] eqn:Ha; [|done].
      assert (Hin : a ∈ possible_creators tasks).
      { apply possible_creators_elem. exists t. by rewrite Ha. }
      intros Hnil. rewrite Hnil in Hin. by apply elem_of_nil in Hin. }
    destruct (generate_subtasks_rows_aux conn organization_id tasks now d Hu Hpool)
      as (parents & per_parent & Hgen & _ & Hlen & Hrows).
    exists (concat per_parent). split; [|split; [exact Hgen|]].
    + destruct Hrows as [|parent rows parents' per_parent' (Hcount & _) _].
      * unfold len in Hlen. simpl in Hlen. lia.
      * destruct rows; [unfold len in Hcount; simpl in Hcount; lia|done].
    + destruct (generate_subtasks_creators _ _ _ _ _ _ _ Hgen)
        as (rows & Hc & _ & Hrule).
      apply (f_equal tbl_subtasks) in Hc. simpl in Hc.
      apply app_inv_head in Hc. by rewrite Hc.
Qed.

Lemma subtask_creator_rule_witness :
  unit_interval (sd_target_frac some_subtasks_draws) /\
  generate_subtasks empty_db "org" [orphan_task] early_now some_subtasks_draws
  = (empty_db, Raise IndexError) /\
  exists rows,
    rows <> [] /\
    generate_subtasks empty_db "org" [orphan_task; open_task] early_now
      some_subtasks_draws
    = (insert_subtasks rows empty_db, Ok (subtask_of_row <$> rows)) /\
    sr_parent_task_id <$> rows = ["k5"; "k5"] /\
    sr_created_by_user_id <$> rows = ["u1"; "u1"].
Proof.
  assert (Hu : unit_interval (sd_target_frac some_subtasks_draws)).
  { split; unfold Qle; simpl; lia. }
  split; [exact Hu|]. split.
  - apply (subtask_creator_rule empty_db "org" [orphan_task] early_now
             some_subtasks_draws Hu).
    + discriminate.
    + repeat constructor.
  - destruct (proj2 (proj2 (subtask_creator_rule empty_db "org"
                              [orphan_task; open_task] early_now
                              some_subtasks_draws Hu)))
      as (rows & Hne & Hgen & _).
    + exists open_task. split; [right; left|reflexivity].
    + exists rows. split; [exact Hne|]. split; [exact Hgen|].
      apply (f_equal (fun r => tbl_subtasks r.1)) in Hgen.
      vm_compute in Hgen. rewrite <- Hgen. split; reflexivity.
Defined.

End SubtaskRows.

Section SubtaskShape.
Import Tasks Subtasks.

(** X23.  A subtask always has a due date: the one of its parent, or a
    weekday at most thirty-two days after the date of its own creation
    and not before that date.  Its assignee is the one of its parent or
    nobody, and where the parent has no assignee the subtask carries
    the assignee field of the parent as it is. *)
Theorem subtask_row_shape
    (organization_id : string) (creators : list string) (now : datetime)
    (parent : task) (i : nat) (d : subtask_draws) (row : subtask_row) :
  generate_subtask organization_id creators now parent i d = Ok row ->
  (exists due,
     sr_due_date row = Some due /\
     (task_due_date parent = Some due \/
      0 <= weekday due <= 4 /\
      date_of (sr_created_at row) <= due <= date_of (sr_created_at row) + 32)) /\
  (sr_assignee_id row = None \/ sr_assignee_id row = task_assignee_id parent) /\
  (truthy (task_assignee_id parent) = false ->
   sr_assignee_id row = task_assignee_id parent).
Proof.
  unfold generate_subtask. intros H. inv_result. subst row.
  cbn [sr_due_date sr_assignee_id sr_created_at].
  set (created_at := random_datetime_between _ _ _).
  assert (Hdue : 0 <= weekday (business_due_date_from_created created_at 1 30 (sb_due d)) <= 4
                 /\ date_of created_at
                    <= business_due_date_from_created created_at 1 30 (sb_due d)
                    <= date_of created_at + 32).
  { unfold business_due_date_from_created. simpl.
    split; [by destruct (to_business_day_spec
                           (date_of created_at
                            + Z.max 1 (Z.min 30 (round_half_even (due_tri (sb_due d)))))
                           (due_sat (sb_due d))) as [? _]|].
    pose proof (to_business_day_near
                  (date_of created_at
                   + Z.max 1 (Z.min 30 (round_half_even (due_tri (sb_due d)))))
                  (due_sat (sb_due d))).
    lia. }
  split; [|split].
  - eexists. split; [reflexivity|].
    destruct (task_due_date parent) as [pd|]; [|by right].
    destruct (Qltb (sb_inherit d) (8 # 10)); [by left|by right].
  - destruct (truthy (task_assignee_id parent) && _); [by left|by right].
  - intros ->. reflexivity.
Qed.

Lemma subtask_row_shape_witness :
  exists row,
    generate_subtask "org" ["u1"] early_now open_task 0 (some_subtask_draws 0) = Ok row /\
    (sr_assignee_id row = None \/ sr_assignee_id row = Some "u1").
Proof.
  eassert (Hrun : generate_subtask "org" ["u1"] early_now open_task 0
                    (some_subtask_draws 0) = Ok _) by (vm_compute; reflexivity).
  eexists. split; [exact Hrun|].
  exact (proj1 (proj2 (subtask_row_shape _ _ _ _ _ _ _ Hrun))).
Defined.

End SubtaskShape.

Section CommentEdges.
Import Memberships Tasks Comments.

(** A sample of the larger of one element and a fraction of a list that
    is not empty never raises. *)
Lemma sample_fraction_Ok {A} (population : list A) (f : Q) (rs : list nat) :
  population <> [] -> (0 <= f)%Q -> (f <= 1)%Q ->
  let k := Z.max 1 (int (inject_Z (len population) * f)) in
  1 <= k <= len population /\
  sample population k rs = Ok (sample_pool population (Z.to_nat k) rs).
Proof.
  intros Hne Hf0 Hf1 k.
  assert (Hlen : 1 <= len population).
  { unfold len. destruct population; [done|]. simpl. lia. }
  assert (Hq : (0 <= inject_Z (len population))%Q).
  { change 0%Q with (inject_Z 0). rewrite <- Zle_Qle. lia. }
  assert (int (inject_Z (len population) * f) <= len population).
  { apply int_le; [by apply Qmult_le_0_compat|].
    apply Qle_trans with (1 * inject_Z (len population))%Q; [|lra].
    rewrite (Qmult_comm (inject_Z (len population))).
    apply Qmult_le_compat_r; [exact Hf1|exact Hq]. }
  assert (Hk : 1 <= k <= len population) by (unfold k; lia).
  split; [exact Hk|]. unfold sample.
  destruct (Z.ltb_spec k 0); [lia|].
  destruct (Z.ltb_spec (Z.of_nat (length population)) k); [unfold len in *; lia|].
  reflexivity.
Qed.

(** With a user to pick, the loop over the comments of a task does not
    raise, and every author is one of the users. *)
Lemma comment_loop_total
    (t : task) (users : list user) (end_ : datetime) (ds : list comment_draws)
    (last : datetime) :
  users <> [] ->
  exists rows last',
    comment_loop t users end_ ds last = Ok (rows, last') /\
    Forall (fun r => exists u, u ∈ users /\ cr_author_id r = user_id u) rows /\
    Forall (fun r => cr_task_id r = task_id t) rows.
Proof.
  intros Hne. revert last. induction ds as [|d ds IH]; intros last.
  - exists [], last. split; [done|]. split; constructor.
  - simpl. destruct (choice_elem users (cm_author d) Hne) as (author & -> & Hin).
    rewrite bind_Ok_l.
    destruct (IH (random_datetime_between last end_ (cm_ts d)))
      as (rows & last' & -> & Hall & Hids).
    rewrite bind_Ok_l. eexists _, _. split; [reflexivity|].
    simpl. split; (constructor; [|done]); [by exists author|done].
Qed.

(** Without users it raises at the first comment. *)
Lemma comment_loop_no_users
    (t : task) (end_ : datetime) (d : comment_draws) (ds : list comment_draws)
    (last : datetime) :
  comment_loop t [] end_ (d :: ds) last = Raise IndexError.
Proof. reflexivity. Qed.

Lemma comment_tasks_total
    (conn : db) (users : list user) (tasks_with_comments : list task)
    (thread : nat -> thread_draws) (k : nat) :
  users <> [] ->
  exists conn' rows,
    comment_tasks conn users tasks_with_comments thread k = (conn', Ok rows) /\
    Forall (fun r => exists u, u ∈ users /\ cr_author_id r = user_id u) rows /\
    Forall (fun r => exists t, t ∈ tasks_with_comments /\ cr_task_id r = task_id t)
           rows /\
    tbl_teams conn' = tbl_teams conn /\
    tbl_team_memberships conn' = tbl_team_memberships conn /\
    tbl_projects conn' = tbl_projects conn /\
    tbl_subtasks conn' = tbl_subtasks conn /\
    tbl_comments conn' = tbl_comments conn /\
    length (tbl_tasks conn') = length (tbl_tasks conn).
Proof.
  intros Hne. revert conn k.
  induction tasks_with_comments as [|t ts IH]; intros conn k.
  - exists conn, []. repeat split; constructor.
  - simpl. unfold task_comments.
    destruct (comment_loop_total t users
                (default (th_utcnow (thread k)) (task_completed_at t))
                (th_comments (thread k)
                   <$> seq 0 (Z.to_nat (randint 1 5 (th_count (thread k)))))
                (task_created_at t) Hne) as (rs & last & Hloop & Hauthors & Hid).
    rewrite Hloop.
    destruct (IH (update_last_activity last (task_id t) conn) (S k))
      as (conn' & rest & -> & Hrest & Htasks & H1 & H2 & H3 & H4 & H5 & H6).
    exists conn', (rs ++ rest). split; [done|].
    split; [by apply Forall_app|]. split.
    { apply Forall_app. split.
      - eapply Forall_impl; [exact Hid|]. intros r Hr. exists t. split; [left|done].
      - eapply Forall_impl; [exact Htasks|]. intros r (t' & Ht' & Hr).
        exists t'. split; [by right|done]. }
    simpl in *. rewrite length_fmap in H6. done.
Qed.

(** X24.  With at least one user, the comment generator does not raise;
    it appends its rows to the comments table, every row has one of the
    users as author and one of the input tasks as task, and the other
    tables keep their rows (the tasks table its number of rows). *)
Theorem generate_comments_with_users
    (conn : db) (tasks : list task) (users : list user) (d : comments_draws) :
  users <> [] ->
  exists conn' rows,
    generate_comments conn tasks users d = (conn', Ok (comment_of_row <$> rows)) /\
    tbl_comments conn' = tbl_comments conn ++ rows /\
    Forall (fun r => exists u, u ∈ users /\ cr_author_id r = user_id u) rows /\
    Forall (fun r => exists t, t ∈ tasks /\ cr_task_id r = task_id t) rows /\
    tbl_teams conn' = tbl_teams conn /\
    tbl_team_memberships conn' = tbl_team_memberships conn /\
    tbl_projects conn' = tbl_projects conn /\
    tbl_subtasks conn' = tbl_subtasks conn /\
    length (tbl_tasks conn') = length (tbl_tasks conn).
Proof.
  intros Hne. unfold generate_comments.
  destruct tasks as [|t0 tasks'] eqn:E.
  { exists conn, []. rewrite app_nil_r. repeat split; constructor. }
  rewrite <- E. assert (Htasks : tasks <> []) by (by rewrite E). clear E.
  destruct (sample_fraction_Ok tasks Config.commented_task_fraction (cd_sample d))
    as [Hk ->]; [done..|].
  set (tw := sample_pool tasks _ _).
  destruct (comment_tasks_total conn users tw (cd_thread d) 0 Hne)
    as (conn' & rows & -> & Hauthors & Hids & H1 & H2 & H3 & H4 & H5 & H6).
  exists (insert_comments rows conn'), rows. simpl. rewrite H5.
  repeat split; try done.
  eapply Forall_impl; [exact Hids|]. intros r (t & Ht & Hr).
  exists t. split; [|done]. by eapply sample_pool_elem.
Qed.

Lemma generate_comments_with_users_witness :
  exists conn' rows,
    generate_comments empty_db [open_task] early_users some_comments_draws
    = (conn', Ok (comment_of_row <$> rows)) /\
    Forall (fun r => exists u, u ∈ early_users /\ cr_author_id r = user_id u) rows.
Proof.
  destruct (generate_comments_with_users empty_db [open_task] early_users
              some_comments_draws) as (conn' & rows & Hgen & _ & Hauthors & _).
  - discriminate.
  - by exists conn', rows.
Defined.

(** X25.  Without users and with at least one task, the comment
    generator raises [IndexError] at the first author it picks, before it
    has changed a row. *)
Theorem generate_comments_without_users
    (conn : db) (tasks : list task) (d : comments_draws) :
  tasks <> [] ->
  generate_comments conn tasks [] d = (conn, Raise IndexError).
Proof.
  intros Htasks. unfold generate_comments.
  destruct tasks as [|t0 tasks'] eqn:E; [done|]. rewrite <- E in *. clear E.
  destruct (sample_fraction_Ok tasks Config.commented_task_fraction (cd_sample d))
    as [Hk ->]; [done..|].
  assert (Hlen : (0 < length (sample_pool tasks
                                (Z.to_nat (Z.max 1 (int (inject_Z (len tasks)
                                                         * Config.commented_task_fraction))))
                                (cd_sample d)))%nat).
  { rewrite sample_pool_length by (unfold len in *; lia). lia. }
  destruct (sample_pool tasks _ _) as [|t ts]; [simpl in Hlen; lia|].
  simpl. unfold task_comments.
  pose proof (randint_range 1 5 (th_count (cd_thread d 0))) as Hc.
  destruct (Z.to_nat (randint 1 5 (th_count (cd_thread d 0)))) as [|c] eqn:Ec; [lia|].
  reflexivity.
Qed.

Lemma generate_comments_without_users_witness :
  generate_comments empty_db [open_task] [] some_comments_draws
  = (empty_db, Raise IndexError).
Proof. apply generate_comments_without_users. discriminate. Defined.

End CommentEdges.

(** ** The sections *)

Section SectionRows.
Import Projects Tasks Sections.

Lemma pop_in_range {A} (l : list A) (i : Z) :
  0 <= i < len l -> pop l i = Ok (delete (Z.to_nat i) l).
Proof.
  intros Hi. unfold pop.
  destruct (Z.ltb_spec i 0); [lia|].
  destruct (Z.ltb_spec i 0); [lia|].
  destruct (Z.leb_spec (len l) i); [lia|]. reflexivity.
Qed.

Lemma SECTION_TEMPLATES_shape (template : list string) :
  template ∈ SECTION_TEMPLATES -> len template = 5 /\ NoDup template.
Proof.
  intros Hin. apply list_elem_of_lookup in Hin as [k Hk].
  do 5 (destruct k as [|k];
        [injection Hk as <-; split;
         [reflexivity|apply (bool_decide_unpack _); vm_compute; exact I]|]).
  done.
Qed.

(** The names of the sections of a project: a template, or, for an ops
    project only, a template without one of its three middle names. *)
Lemma project_sections_names (p : project) (d : section_draws) :
  exists template names,
    template ∈ SECTION_TEMPLATES /\
    (names = template \/
     project_type p = "ops" /\
     exists j, (1 <= j <= 3)%nat /\ names = delete j template) /\
    project_sections p d
    = Ok (imap (fun order name =>
                  {| xr_id := sx_uuid d order; xr_project_id := project_id p;
                     xr_name := name; xr_sort_order := Z.of_nat order;
                     xr_created_at :=
                       project_created_at p
                       + timedelta_days (randint 0 60 (sx_days d order)) |})
               names).
Proof.
  unfold project_sections.
  destruct (choice_elem SECTION_TEMPLATES (sx_template d)) as (template & -> & Hin);
    [done|].
  rewrite bind_Ok_l.
  destruct (SECTION_TEMPLATES_shape template Hin) as [Hlen _].
  destruct (String.eqb_spec (project_type p) "ops") as [Hops|Hops]; simpl.
  - rewrite Hlen. simpl.
    destruct (Qltb (sx_shorten d) (4 # 10)).
    + pose proof (randint_range 1 3 (sx_drop d) ltac:(lia)) as Hr.
      change (5 - 2) with 3. rewrite pop_in_range by lia. rewrite bind_Ok_l.
      exists template, (delete (Z.to_nat (randint 1 3 (sx_drop d))) template).
      split; [done|]. split; [|done]. right. split; [done|].
      exists (Z.to_nat (randint 1 3 (sx_drop d))). split; [lia|done].
    + exists template, template. split; [done|]. split; [by left|done].
  - exists template, template. split; [done|]. split; [by left|done].
Qed.

Lemma delete_middle_ends {A} (l : list A) (j : nat) :
  (1 <= j)%nat -> (S j < length l)%nat ->
  head (delete j l) = head l /\ last (delete j l) = last l.
Proof.
  intros H1 Hj. split.
  - destruct l as [|x l]; [done|]. destruct j; [lia|done].
  - rewrite !last_lookup, length_delete by (apply lookup_lt_is_Some; lia).
    rewrite list_lookup_delete_ge by lia. f_equal. lia.
Qed.

Lemma project_sections_rows (p : project) (d : section_draws) :
  exists template rows,
    project_sections p d = Ok rows /\
    template ∈ SECTION_TEMPLATES /\
    (len rows = 5 \/ len rows = 4 /\ project_type p = "ops") /\
    xr_name <$> rows `sublist_of` template /\
    head (xr_name <$> rows) = head template /\
    last (xr_name <$> rows) = last template /\
    NoDup (xr_name <$> rows) /\
    xr_sort_order <$> rows = Z.of_nat <$> seq 0 (length rows) /\
    Forall (fun row =>
              xr_project_id row = project_id p /\
              project_created_at p <= xr_created_at row
                <= project_created_at p + timedelta_days 60) rows.
Proof.
  destruct (project_sections_names p d) as (template & names & Hin & Hnames & ->).
  destruct (SECTION_TEMPLATES_shape template Hin) as [Hlen Hnd].
  set (f := fun order name => _).
  assert (Hn : xr_name <$> imap f names = names).
  { apply list_eq. intros i. rewrite list_lookup_fmap, list_lookup_imap.
    by destruct (names !! i). }
  assert (Hsub : names `sublist_of` template /\ head names = head template /\
                 last names = last template /\
                 (len names = 5 \/ len names = 4 /\ project_type p = "ops")).
  { destruct Hnames as [->|(Hops & j & Hj & ->)].
    - repeat split; try done. by left.
    - unfold len in Hlen.
      destruct (delete_middle_ends template j) as [Hh Hl]; [lia..|].
      split; [apply sublist_delete|]. split; [done|]. split; [done|].
      right. split; [|done]. unfold len. rewrite length_delete; [lia|].
      apply lookup_lt_is_Some. lia. }
  destruct Hsub as (Hsub & Hhead & Hlast & Hcount).
  exists template, (imap f names). split; [done|]. split; [done|].
  split; [unfold len in *; by rewrite length_imap|].
  rewrite Hn. split; [done|]. split; [done|]. split; [done|].
  split; [by eapply sublist_NoDup|]. split.
  - rewrite length_imap. apply list_eq. intros i.
    rewrite !list_lookup_fmap, list_lookup_imap.
    destruct (names !! i) as [name|] eqn:Hi; simpl.
    + rewrite lookup_seq_lt by (by eapply lookup_lt_Some). done.
    + apply lookup_ge_None in Hi. by rewrite lookup_seq_ge.
  - apply Forall_forall. intros row Hrow.
    apply elem_of_lookup_imap in Hrow as (i & name & -> & _). simpl.
    split; [done|].
    pose proof (randint_range 0 60 (sx_days d i) ltac:(lia)).
    unfold timedelta_days, US_PER_DAY, US_PER_HOUR, US_PER_SECOND. lia.
Qed.

Lemma generate_sections_aux
    (conn : list section_row) (projects : list project)
    (draws : nat -> section_draws) :
  exists per_project,
    generate_sections conn projects draws
    = (conn ++ concat per_project, Ok (section_of_row <$> concat per_project)) /\
    Forall2 (fun p rows =>
               4 <= len rows /\
               Forall (fun row => xr_project_id row = project_id p) rows)
            projects per_project.
Proof.
  unfold generate_sections.
  destruct (mapM_imap_total (fun i p => project_sections p (draws i)) projects)
    as [per_project Hloop].
  { intros i p _. destruct (project_sections_rows p (draws i)) as (t & rows & -> & _).
    by eexists. }
  rewrite Hloop. exists per_project. split; [done|].
  apply mapM_imap_Ok in Hloop.
  eapply Forall2_impl; [exact Hloop|]. simpl. intros p rows (i & _ & Hbody).
  destruct (project_sections_rows p (draws i))
    as (t & rows' & Hr & _ & Hlen & _ & _ & _ & _ & _ & Hall).
  rewrite Hr in Hbody. injection Hbody as <-. split; [lia|].
  eapply Forall_impl; [exact Hall|]. by intros row [? _].
Qed.

(** X26.  The section generator never raises.  Every project gets the
    five sections of one of the templates, or, an ops project only,
    four of them: the names are those of the template in its order,
    with its first and its last name and none twice; the sections are
    numbered from 0 and created within sixty days after the project. *)
Theorem generate_sections_per_project
    (conn : list section_row) (projects : list project)
    (draws : nat -> section_draws) :
  exists per_project,
    generate_sections conn projects draws
    = (conn ++ concat per_project, Ok (section_of_row <$> concat per_project)) /\
    Forall2 (fun p rows =>
               exists template,
                 template ∈ SECTION_TEMPLATES /\
                 (len rows = 5 \/ len rows = 4 /\ project_type p = "ops") /\
                 xr_name <$> rows `sublist_of` template /\
                 head (xr_name <$> rows) = head template /\
                 last (xr_name <$> rows) = last template /\
                 NoDup (xr_name <$> rows) /\
                 xr_sort_order <$> rows = Z.of_nat <$> seq 0 (length rows) /\
                 Forall (fun row =>
                           xr_project_id row = project_id p /\
                           project_created_at p <= xr_created_at row
                             <= project_created_at p + timedelta_days 60) rows)
            projects per_project.
Proof.
  unfold generate_sections.
  destruct (mapM_imap_total (fun i p => project_sections p (draws i)) projects)
    as [per_project Hloop].
  { intros i p _. destruct (project_sections_rows p (draws i)) as (t & rows & -> & _).
    by eexists. }
  rewrite Hloop. exists per_project. split; [done|].
  apply mapM_imap_Ok in Hloop.
  eapply Forall2_impl; [exact Hloop|]. simpl. intros p rows (i & _ & Hbody).
  destruct (project_sections_rows p (draws i)) as (t & rows' & Hr & H).
  rewrite Hr in Hbody. injection Hbody as <-. by exists t.
Qed.

End SectionRows.

Section SectionsAndTasks.
Import Memberships Projects Tasks Sections.

(** X27.  The sections handed from the section generator to the task
    generator: with at least one user both succeed, and every task has
    a section, one of the sections written for a project with the
    identifier of the project of the task. *)
Theorem tasks_have_a_section_of_their_project
    (conn : db) (sconn : list section_row) (organization_id : string)
    (projects : list project) (users : list user) (memberships : list membership)
    (now : datetime) (sdraws : nat -> section_draws)
    (tdraws : nat -> project_tasks_draws) :
  users <> [] ->
  exists srows rows,
    generate_sections sconn projects sdraws
    = (sconn ++ srows, Ok (section_of_row <$> srows)) /\
    generate_tasks conn organization_id projects (section_of_row <$> srows) users
      memberships now tdraws
    = (insert_tasks rows conn, Ok (task_of_row <$> rows)) /\
    Forall (fun row =>
              exists x, x ∈ srows /\ kr_section_id row = Some (xr_id x) /\
                        xr_project_id x = kr_project_id row) rows.
Proof.
  intros Hne.
  destruct (generate_sections_aux sconn projects sdraws)
    as (per_project_s & Hs & Hsections).
  destruct (generate_tasks_rows conn organization_id projects
              (section_of_row <$> concat per_project_s) users memberships now tdraws
              Hne) as (per_project & Hgen & Hrows).
  exists (concat per_project_s), (concat per_project).
  split; [done|]. split; [done|].
  apply Forall_forall. intros row Hrow.
  apply elem_of_concat in Hrow as (rows & Hrows_in & Hrow).
  apply list_elem_of_lookup in Hrows_in as [i Hi].
  destruct (Forall2_lookup_r _ _ _ _ _ Hrows Hi) as (p & Hp & _ & Hall).
  rewrite Forall_forall in Hall. destruct (Hall row Hrow) as [td Htd].
  destruct (generate_task_row organization_id p
              (default [] (sections_by_project (section_of_row <$> concat per_project_s)
                           !! project_id p))
              (build_team_members memberships) users now td Hne)
    as (row' & Hr & H1 & _ & _ & H4 & _).
  rewrite Hr in Htd. injection Htd as <-. rewrite H1.
  destruct (kr_section_id row') as [sid|].
  - destruct H4 as (x & Hx & Hsid).
    apply sections_by_project_elem in Hx as [Hin Hpid].
    apply list_elem_of_fmap in Hin as (xr & -> & Hxr).
    exists xr. by rewrite <- Hsid.
  - exfalso. apply sections_by_project_none in H4.
    destruct (Forall2_lookup_l _ _ _ _ _ Hsections Hp) as (srows & Hsrows & Hlen & Hids).
    destruct srows as [|xr srows]; [unfold len in Hlen; simpl in Hlen; lia|].
    apply Forall_inv in Hids.
    assert (Hin : section_of_row xr
                  ∈ filter (fun x => section_project_id x = project_id p)
                      (section_of_row <$> concat per_project_s)).
    { apply list_elem_of_filter. split; [done|].
      apply list_elem_of_fmap. exists xr. split; [done|].
      apply elem_of_concat. exists (xr :: srows). split; [|left].
      by eapply list_elem_of_lookup_2. }
    rewrite H4 in Hin. by apply elem_of_nil in Hin.
Qed.

Lemma tasks_have_a_section_of_their_project_witness :
  exists srows rows,
    generate_sections [] [early_project] (fun _ => some_section_draws)
    = (srows, Ok (section_of_row <$> srows)) /\
    generate_tasks empty_db "org" [early_project] (section_of_row <$> srows)
      early_users [] early_now some_tasks_draws
    = (insert_tasks rows empty_db, Ok (task_of_row <$> rows)) /\
    Forall (fun row => exists x, x ∈ srows /\ kr_section_id row = Some (xr_id x))
           rows.
Proof.
  destruct (tasks_have_a_section_of_their_project empty_db [] "org" [early_project]
              early_users [] early_now (fun _ => some_section_draws) some_tasks_draws)
    as (srows & rows & Hs & Ht & Hall).
  - discriminate.
  - exists srows, rows. split; [exact Hs|]. split; [exact Ht|].
    eapply Forall_impl; [exact Hall|]. simpl. intros row (x & Hx & Hsid & _).
    by exists x.
Defined.

End SectionsAndTasks.

(** ** The organization and the users *)

Section UserRows.
Import Organizations Teams Memberships Users.

Lemma int_nonneg (q : Q) : (0 <= q)%Q -> 0 <= int q.
Proof.
  intros Hq. unfold int. apply Z.quot_pos; [|lia].
  unfold Qle in Hq. simpl in Hq. lia.
Qed.

Lemma sample_join_date_window (now : datetime) (fraction : Q) :
  unit_interval fraction ->
  now - timedelta_days 1095 <= sample_join_date now fraction <= now.
Proof.
  intros [H0 H1]. unfold sample_join_date.
  change (inject_Z (365 * 3)) with (inject_Z 1095).
  assert (Hq : (0 <= fraction * inject_Z 1095)%Q)
    by (apply Qmult_le_0_compat; [exact H0|done]).
  pose proof (int_nonneg _ Hq) as Hlo.
  assert (Hhi : int (fraction * inject_Z 1095) <= 1095).
  { apply int_le; [exact Hq|].
    apply Qle_trans with (1 * inject_Z 1095)%Q; [|lra].
    apply Qmult_le_compat_r; [exact H1|done]. }
  unfold timedelta_days, US_PER_DAY, US_PER_HOUR, US_PER_SECOND. lia.
Qed.

Lemma pick_role_total (u : Q) :
  exists role, pick_role u = Ok role /\ role ∈ (roles.*1).
Proof.
  eapply choices_total; [reflexivity|discriminate|vm_compute; reflexivity|].
  unfold Qlt. simpl. lia.
Qed.

Lemma pick_location_total (u : Q) :
  exists location, pick_location u = Ok location /\ location ∈ (locations.*1).
Proof.
  eapply choices_total; [reflexivity|discriminate|vm_compute; reflexivity|].
  unfold Qlt. simpl. lia.
Qed.

Lemma generate_user_row (organization_id : string) (d : user_draws) :
  exists row,
    generate_user organization_id d = Ok row /\
    ur_id row = us_uuid d /\
    ur_organization_id row = organization_id /\
    ur_role row ∈ (roles.*1) /\ ur_location row ∈ (locations.*1) /\
    ur_joined_at row = sample_join_date (us_utcnow d) (us_join d) /\
    ur_created_at row = ur_joined_at row /\
    (ur_is_active row = 0 \/ ur_is_active row = 1).
Proof.
  unfold generate_user.
  destruct (pick_role_total (us_role d)) as (role & -> & Hrole).
  destruct (pick_location_total (us_location d)) as (location & -> & Hlocation).
  rewrite !bind_Ok_l. eexists. split; [reflexivity|]. simpl.
  repeat split; try done. destruct (Qltb _ _); [by right|by left].
Qed.

(** X28.  The user generator never raises and writes between 3000 and
    8000 users, whatever the triangular variate.  Every user belongs to
    the organization, has a role and a location of the two catalogues,
    is active or not, and was created when they joined: with the beta
    variate in its range, at most 1095 days before the clock and not
    after it. *)
Theorem generate_users_rows
    (conn : list user_row) (org : organization) (d : users_draws) :
  exists rows,
    generate_users conn org d = (conn ++ rows, Ok (info_of_row <$> rows)) /\
    3000 <= len rows <= 8000 /\
    Forall2 (fun i row =>
               let ud := ud_users d i in
               ur_id row = us_uuid ud /\
               ur_organization_id row = org_id org /\
               ur_role row ∈ (roles.*1) /\ ur_location row ∈ (locations.*1) /\
               ur_created_at row = ur_joined_at row /\
               (ur_is_active row = 0 \/ ur_is_active row = 1) /\
               (unit_interval (us_join ud) ->
                us_utcnow ud - timedelta_days 1095 <= ur_joined_at row
                  <= us_utcnow ud))
            (seq 0 (length rows)) rows.
Proof.
  unfold generate_users.
  set (total_users := Z.max min_users (Z.min max_users _)).
  assert (Htotal : 3000 <= total_users <= 8000)
    by (unfold total_users, min_users, max_users; lia).
  destruct (mapM_total (fun i => generate_user (org_id org) (ud_users d i))
              (seq 0 (Z.to_nat total_users))) as (rows & Hrows & Hall).
  { intros i. destruct (generate_user_row (org_id org) (ud_users d i))
      as (row & Hrow & _). by exists row. }
  rewrite Hrows. exists rows. split; [done|].
  assert (Hlen : length rows = Z.to_nat total_users).
  { apply Forall2_length in Hall. by rewrite length_seq in Hall. }
  split; [unfold len; lia|]. rewrite Hlen.
  eapply Forall2_impl; [exact Hall|]. simpl. intros i row Hbody.
  destruct (generate_user_row (org_id org) (ud_users d i))
    as (row' & Hr & H1 & H2 & H3 & H4 & H5 & H6 & H7).
  rewrite Hr in Hbody. injection Hbody as <-.
  repeat split; try done; rewrite H5; by apply sample_join_date_window.
Qed.

(** X29.  The organization is created between eight and fifteen years
    of 365 days before the clock, and one row is written for it.  The
    teams generated for it, with the variates of [random.uniform] in
    their range, are created after it and at most 365 days after that
    clock. *)
Theorem organization_and_teams_window
    (fuel : nat) (orgs : list organization_row) (conn conn' : db)
    (now : datetime) (uuid : string) (years : nat) (d : teams_draws)
    (teams : list team) :
  let org := (generate_organization orgs now uuid years).2 in
  generate_teams fuel conn org d = Some (conn', Ok teams) ->
  (forall i, unit_interval (tm_years d i)) ->
  (exists row,
     (generate_organization orgs now uuid years).1 = orgs ++ [row] /\
     or_id row = org_id org /\ or_created_at row = org_created_at org) /\
  now - timedelta_days 5475 <= org_created_at org <= now - timedelta_days 2920 /\
  Forall (fun t => org_created_at org <= team_created_at t
                     <= now + timedelta_days 365) teams.
Proof.
  intros org Hrun Hyears.
  assert (Horg : now - timedelta_days 5475 <= org_created_at org
                 <= now - timedelta_days 2920).
  { unfold org, generate_organization. simpl.
    pose proof (randint_range 8 15 years ltac:(lia)).
    unfold timedelta_days, US_PER_DAY, US_PER_HOUR, US_PER_SECOND. lia. }
  split; [by eexists|]. split; [exact Horg|].
  clearbody org. unfold generate_teams in Hrun.
  destruct (weighted_unique_sample _ _ _ _ _) as [[names|e]|]; [|done..].
  injection Hrun as _ <-. apply Forall_forall. intros t Ht.
  apply list_elem_of_fmap in Ht as (row & -> & Hrow).
  apply elem_of_lookup_imap in Hrow as (i & name & -> & _). simpl.
  pose proof (team_created_window (org_created_at org) (tm_years d i) (Hyears i)).
  unfold timedelta_days, timedelta_hours, US_PER_DAY, US_PER_HOUR, US_PER_SECOND in *.
  lia.
Qed.

Lemma organization_and_teams_window_witness :
  exists conn' teams,
    generate_teams 20 empty_db (generate_organization [] early_now "org" 3).2
      bounded_teams_draws = Some (conn', Ok teams) /\
    Forall (fun t => team_created_at t <= early_now + timedelta_days 365) teams.
Proof.
  eassert (Hrun : generate_teams 20 empty_db
                    (generate_organization [] early_now "org" 3).2
                    bounded_teams_draws = Some (_, Ok _))
    by (vm_compute; reflexivity).
  eexists _, _. split; [exact Hrun|].
  destruct (organization_and_teams_window 20 [] _ _ early_now "org" 3 _ _ Hrun)
    as (_ & _ & Hteams).
  - intros i. split; unfold Qle; simpl; lia.
  - eapply Forall_impl; [exact Hteams|]. simpl. by intros t [_ ?].
Defined.

End UserRows.

Section CommentActivity.
Import Memberships Tasks Comments.

(** X30.  After the comment generator, with the variates of the comment
    timestamps at most 1: the tasks table has the same tasks in the
    same order, with their creation and completion timestamps; no last
    activity has gone back; and the last activity of a task is not
    before any of the comments written for its identifier. *)
Theorem comments_raise_last_activity
    (conn conn' : db) (tasks : list task) (users : list user)
    (d : comments_draws) (cs : list comment) :
  generate_comments conn tasks users d = (conn', Ok cs) ->
  (forall j i, (cm_ts (th_comments (cd_thread d j) i) <= 1)%Q) ->
  kr_id <$> tbl_tasks conn' = kr_id <$> tbl_tasks conn /\
  Forall2 (fun old new =>
             kr_created_at new = kr_created_at old /\
             kr_completed_at new = kr_completed_at old /\
             kr_last_activity_at old <= kr_last_activity_at new)
          (tbl_tasks conn) (tbl_tasks conn') /\
  forall c new,
    c ∈ drop (length (tbl_comments conn)) (tbl_comments conn') ->
    new ∈ tbl_tasks conn' -> cr_task_id c = kr_id new ->
    cr_created_at c <= kr_last_activity_at new.
Proof.
  intros Hrun Hfrac.
  destruct (comment_back_propagation _ _ _ _ _ _ Hrun Hfrac) as (rows & Hrows & Hall).
  rewrite Hrows, drop_app_length. split; [|split].
  - apply list_eq. intros i. rewrite !list_lookup_fmap.
    destruct (tbl_tasks conn' !! i) as [new|] eqn:Hnew.
    + destruct (Forall2_lookup_r _ _ _ _ _ Hall Hnew) as (old & -> & Hid & _).
      simpl. by rewrite Hid.
    + apply Forall2_length in Hall. apply lookup_ge_None in Hnew.
      rewrite (proj2 (lookup_ge_None _ _)); [done|lia].
  - eapply Forall2_impl; [exact Hall|]. simpl.
    by intros old new (_ & ? & ? & ? & _).
  - intros c new Hc Hnew Hid.
    apply list_elem_of_lookup in Hnew as [i Hi].
    destruct (Forall2_lookup_r _ _ _ _ _ Hall Hi) as (old & _ & Hold & _ & _ & _ & Hcs).
    apply Hcs; [done|]. by rewrite <- Hold.
Qed.

Lemma comments_raise_last_activity_witness :
  exists conn' cs,
    generate_comments open_task_db [open_task] early_users some_comments_draws
    = (conn', Ok cs) /\
    forall c new,
      c ∈ tbl_comments conn' -> new ∈ tbl_tasks conn' ->
      cr_task_id c = kr_id new -> cr_created_at c <= kr_last_activity_at new.
Proof.
  eassert (Hrun : generate_comments open_task_db [open_task] early_users
                    some_comments_draws = (_, Ok _)) by (vm_compute; reflexivity).
  eexists _, _. split; [exact Hrun|].
  refine (proj2 (proj2 (comments_raise_last_activity _ _ _ _ _ _ Hrun _))).
  intros j i. unfold Qle. simpl. lia.
Defined.

End CommentActivity.
